(** * Farm_Fusion: the FarmCom purchase ledger and the crop-yield
      training / serving contract, embedded from the Python sources.

    [FarmCom] follows [FarmCom/app.py]; [CropYield] follows
    [Crop_Yield_Prediction/src/data_preprocessing.py],
    [model_training.py] and [model_prediction.py].

    Conventions of the embedding:
    - Python [int] is [Z]; Python [float] and SQL decimals are exact
      rationals [Q] (rounding is not modelled);
    - a handler is a function from the request and the store to a response
      and the new store; an exception is a value of [result];
    - a Python [dict] with string keys is a [gmap string _]. *)

From Stdlib Require Import ZArith QArith Qround Lqa List Sorted Bool Lia Ascii
  DecimalString.
From stdpp Require Import gmap strings list fin_maps.

Local Open Scope string_scope.
Local Open Scope Z_scope.

(** ** FarmCom/app.py: marketplace listings and purchases *)
Module FarmCom.

(** Modelled from the spec: the SQL schema of [marketplace_items] and
    [purchase_transactions] is not part of the sources (only the queries
    are).  The columns are those named in the INSERT statements of
    [sell_item] and [purchase_item]; [id] is the table's key (every query
    selects a single listing with [WHERE id = %s]) and is assigned by the
    store on INSERT from a counter.  No column constraint (sign, range) is
    assumed: the queries state none. *)
Record item_row := mk_item {
  seller_id : Z;
  item_name : string;
  description : string;
  category : string;
  price : Q;
  quantity_available : Z;
  unit : string;
  location : string;
  image_url : option string
}.

Record purchase_row := mk_purchase {
  item_id : Z;
  buyer_id : Z;
  pt_seller_id : Z;
  quantity : Z;
  total_amount : Q;
  delivery_address : option string
}.

Record database := mk_db {
  marketplace_items : gmap Z item_row;
  next_item_id : Z;
  purchase_transactions : list purchase_row
}.

Definition empty_db : database := mk_db ∅ 1 [].

(** [session.get('user_id')]: [None] when nobody is logged in. *)
Definition session := option Z.

(** What a handler hands back to Flask.  [flash(message, category)] is kept
    with the redirect it precedes. *)
Inductive response :=
| Redirect (endpoint : string) (flash : option (string * string))
| Render (template : string)
| Json (success : bool) (message : string)
| JsonError (prefix : string)   (* message = prefix + str(e) *)
| FlashError (prefix : string) (endpoint : string) (* flash(prefix + str(e)) *)
| Raised.                       (* the exception leaves the handler *)

(** *** The SQL statements of the purchase handlers *)

(** [SELECT seller_id, price, quantity_available FROM marketplace_items
    WHERE id = %s] followed by [fetchone()]. *)
Definition select_item (id : Z) (db : database) : option (Z * Q * Z) :=
  match marketplace_items db !! id with
  | Some r => Some (seller_id r, price r, quantity_available r)
  | None => None
  end.

(** [INSERT INTO purchase_transactions (...) VALUES (...)]. *)
Definition insert_purchase (t : purchase_row) (db : database) : database :=
  mk_db (marketplace_items db) (next_item_id db)
        (purchase_transactions db ++ [t]).

Definition set_quantity_available (q : Z) (r : item_row) : item_row :=
  mk_item (seller_id r) (item_name r) (description r) (category r) (price r)
          q (unit r) (location r) (image_url r).

(** [UPDATE marketplace_items SET quantity_available = quantity_available - %s
    WHERE id = %s]. *)
Definition update_quantity (q id : Z) (db : database) : database :=
  mk_db (alter (fun r => set_quantity_available (quantity_available r - q) r)
               id (marketplace_items db))
        (next_item_id db) (purchase_transactions db).

(** [str(quantity)] inside the f-string of [process_purchase]. *)
Definition str_int (z : Z) : string := NilZero.string_of_int (Z.to_int z).

(** *** [purchase_item] (route [/buy/<int:item_id>])

    [form_quantity] is the outcome of [int(request.form['quantity'])]:
    [None] when that expression raises. *)
Definition purchase_item (id : Z) (s : session) (form_quantity : option Z)
    (db : database) : response * database :=
  match s with
  | None => (Redirect "login" None, db)
  | Some user_id =>
    match form_quantity with
    | None => (Raised, db)
    | Some qty =>
      match select_item id db with
      | Some (seller, p, available) =>
        if qty <=? available then
          let total := (inject_Z qty * p)%Q in
          let db1 := insert_purchase
                       (mk_purchase id user_id seller qty total None) db in
          let db2 := update_quantity qty id db1 in
          (Redirect "marketplace" (Some ("Purchase successful!", "success")),
           db2)
        else
          (Redirect "marketplace"
                    (Some ("Insufficient quantity available!", "error")), db)
      | None =>
        (Redirect "marketplace"
                  (Some ("Insufficient quantity available!", "error")), db)
      end
    end
  end.

(** *** [process_purchase] (route [/buy_items], POST)

    [product_id] is [request.form.get('product_id')] as the store compares
    it with [id] ([None]: the field is absent, no row matches);
    the whole body is inside [try ... except Exception]. *)

(** [SELECT seller_id, price, quantity_available, item_name FROM
    marketplace_items WHERE id = %s] followed by [fetchone()]. *)
Definition select_item_named (product_id : option Z) (db : database)
  : option (Z * Q * Z * string) :=
  match product_id with
  | None => None
  | Some id =>
    match marketplace_items db !! id with
    | Some r => Some (seller_id r, price r, quantity_available r, item_name r)
    | None => None
    end
  end.

Definition process_purchase (s : session) (product_id : option Z)
    (form_quantity : option Z) (address : option string)
    (db : database) : response * database :=
  match s with
  | None => (Json false "Please log in first", db)
  | Some user_id =>
    match form_quantity with
    | None => (JsonError "Purchase failed: ", db)
    | Some qty =>
      match select_item_named product_id db, product_id with
      | Some (seller, p, available, name), Some id =>
        if qty <=? available then
          let total := (inject_Z qty * p)%Q in
          let db1 := insert_purchase
                       (mk_purchase id user_id seller qty total address) db in
          let db2 := update_quantity qty id db1 in
          (Json true ("Successfully purchased " +:+ str_int qty
                        +:+ " units of " +:+ name), db2)
        else (Json false "Insufficient quantity available", db)
      | _, _ => (Json false "Insufficient quantity available", db)
      end
    end
  end.

(** *** Listing creation and edit *)

(** The submitted form.  [f_price] and [f_quantity] are the outcomes of
    [float(request.form['price'])] and [int(request.form['quantity'])]
    ([None] when the conversion raises); [f_image] is the stored file name
    when an allowed image was uploaded. *)
Record listing_form := mk_form {
  f_item_name : string;
  f_description : string;
  f_category : string;
  f_price : option Q;
  f_quantity : option Z;
  f_unit : string;
  f_location : string;
  f_image : option string
}.

Inductive http_method := GET | POST.

(** [INSERT INTO marketplace_items (...) VALUES (...)]: the new row takes the
    next identifier. *)
Definition insert_item (r : item_row) (db : database) : database :=
  mk_db (<[next_item_id db := r]> (marketplace_items db))
        (next_item_id db + 1) (purchase_transactions db).

Definition category_mapping (c : string) : string :=
  if String.eqb c "Grains" then "Grain"
  else if String.eqb c "Vegetables" then "Veg"
  else if String.eqb c "Fruits" then "Fruit"
  else if String.eqb c "Dairy" then "Dairy"
  else if String.eqb c "Spices" then "Spice"
  else if String.eqb c "Seeds" then "Seed"
  else c.

(** [sell_item] (route [/sell_item]). *)
Definition sell_item (s : session) (m : http_method) (f : listing_form)
    (db : database) : response * database :=
  match s with
  | None => (Redirect "login" (Some ("Please log in to sell items.", "error")),
             db)
  | Some user_id =>
    match m with
    | GET => (Render "sell_item.html", db)
    | POST =>
      match f_price f, f_quantity f with
      | Some p, Some qty =>
        if (10 <? Z.of_nat (String.length (f_category f))) then
          (* len(category) > 10 *)
          (Redirect "sell_item"
             (Some ("Category name is too long. Please choose a different category.",
                    "error")), db)
        else
          let c := category_mapping (f_category f) in
          (Redirect "dashboard"
             (Some ("Item listed for sale successfully!", "success")),
           insert_item (mk_item user_id (f_item_name f) (f_description f) c p
                                qty (f_unit f) (f_location f) (f_image f)) db)
      | _, _ => (FlashError "Error listing item: " "sell_item", db)
      end
    end
  end.

(** [add_item] (route [/marketplace/add]): no [try], no category check. *)
Definition add_item (s : session) (m : http_method) (f : listing_form)
    (db : database) : response * database :=
  match s with
  | None => (Redirect "login" None, db)
  | Some user_id =>
    match m with
    | GET => (Render "buy_items.html", db)
    | POST =>
      match f_price f, f_quantity f with
      | Some p, Some qty =>
        (Redirect "dashboard" (Some ("Item added successfully!", "success")),
         insert_item (mk_item user_id (f_item_name f) (f_description f)
                              (f_category f) p qty (f_unit f) (f_location f)
                              (f_image f)) db)
      | _, _ => (Raised, db)
      end
    end
  end.

(** [UPDATE marketplace_items SET item_name = %s, ..., quantity_available = %s,
    ... WHERE id = %s AND seller_id = %s]. *)
Definition update_listing (id user_id : Z) (f : listing_form) (p : Q) (qty : Z)
    (img : option string) (db : database) : database :=
  mk_db (alter (fun r =>
                  if seller_id r =? user_id then
                    mk_item (seller_id r) (f_item_name f) (f_description f)
                            (f_category f) p qty (f_unit f) (f_location f) img
                  else r)
               id (marketplace_items db))
        (next_item_id db) (purchase_transactions db).

(** [edit_listing] (route [/edit_listing/<int:listing_id>]). *)
Definition edit_listing (listing_id : Z) (s : session) (m : http_method)
    (f : listing_form) (db : database) : response * database :=
  match s with
  | None => (Redirect "login"
               (Some ("Please log in to edit listings.", "error")), db)
  | Some user_id =>
    match marketplace_items db !! listing_id with
    | Some listing =>
      if seller_id listing =? user_id then
        match m with
        | GET => (Render "edit_listing.html", db)
        | POST =>
          match f_price f, f_quantity f with
          | Some p, Some qty =>
            let img := match f_image f with
                       | Some n => Some n
                       | None => image_url listing
                       end in
            (Redirect "my_listings"
               (Some ("Listing updated successfully!", "success")),
             update_listing listing_id user_id f p qty img db)
          | _, _ => (FlashError "Error updating listing: " "edit_listing", db)
          end
        end
      else
        (Redirect "my_listings"
           (Some ("Listing not found or you do not have permission to edit it.",
                  "error")), db)
    | None =>
      (Redirect "my_listings"
         (Some ("Listing not found or you do not have permission to edit it.",
                "error")), db)
    end
  end.

(** [delete_listing] (route [/delete_listing/<int:listing_id>]). *)
Definition delete_listing (listing_id : Z) (s : session) (db : database)
  : response * database :=
  match s with
  | None => (Redirect "login"
               (Some ("Please log in to delete listings.", "error")), db)
  | Some user_id =>
    match marketplace_items db !! listing_id with
    | Some r =>
      if seller_id r =? user_id then
        (Redirect "my_listings"
           (Some ("Listing deleted successfully!", "success")),
         mk_db (delete listing_id (marketplace_items db)) (next_item_id db)
               (purchase_transactions db))
      else
        (Redirect "my_listings"
           (Some ("Listing not found or you do not have permission to delete it.",
                  "error")), db)
    | None =>
      (Redirect "my_listings"
         (Some ("Listing not found or you do not have permission to delete it.",
                "error")), db)
    end
  end.

(** *** Statement-level execution of [purchase_item]

    Calls that run at the same time share the store and take turns one SQL
    statement at a time.  A call is past its login test and its [int(...)]
    conversion (neither touches the store); [pc] is the statement it will
    execute next.  The source opens no locking read ([SELECT ... FOR UPDATE])
    and sets no isolation level, so nothing orders the statements of
    different calls. *)
Inductive pc :=
| AtSelect                          (* SELECT ..., fetchone(), the [if] *)
| AtInsert (seller : Z) (p : Q)     (* INSERT INTO purchase_transactions *)
| AtUpdate                          (* UPDATE marketplace_items *)
| AtCommit                          (* conn.commit(), flash *)
| Finished (r : response).

Record call := mk_call {
  call_item : Z;
  call_user : Z;
  call_quantity : Z;
  call_pc : pc
}.

Definition start_call (id user_id qty : Z) : call :=
  mk_call id user_id qty AtSelect.

Definition at_pc (c : call) (p : pc) : call :=
  mk_call (call_item c) (call_user c) (call_quantity c) p.

Definition insufficient : response :=
  Redirect "marketplace" (Some ("Insufficient quantity available!", "error")).

Definition successful : response :=
  Redirect "marketplace" (Some ("Purchase successful!", "success")).

(** One statement of one call. *)
Definition step_call (c : call) (db : database) : call * database :=
  match call_pc c with
  | AtSelect =>
    match select_item (call_item c) db with
    | Some (seller, p, available) =>
      if call_quantity c <=? available
      then (at_pc c (AtInsert seller p), db)
      else (at_pc c (Finished insufficient), db)
    | None => (at_pc c (Finished insufficient), db)
    end
  | AtInsert seller p =>
    (at_pc c AtUpdate,
     insert_purchase
       (mk_purchase (call_item c) (call_user c) seller (call_quantity c)
                    (inject_Z (call_quantity c) * p)%Q None) db)
  | AtUpdate =>
    (at_pc c AtCommit, update_quantity (call_quantity c) (call_item c) db)
  | AtCommit => (at_pc c (Finished successful), db)
  | Finished _ => (c, db)
  end.

(** A schedule names, turn by turn, the call that executes its next
    statement. *)
Fixpoint run (schedule : list nat) (cs : list call) (db : database)
  : list call * database :=
  match schedule with
  | [] => (cs, db)
  | i :: rest =>
    match cs !! i with
    | Some c =>
      let '(c', db') := step_call c db in
      run rest (<[i := c']> cs) db'
    | None => run rest cs db
    end
  end.

(** *** The store as a state machine

    Every route that writes [marketplace_items], as one request type. *)
Inductive request :=
| ReqPurchaseItem (id : Z) (s : session) (form_quantity : option Z)
| ReqProcessPurchase (s : session) (product_id : option Z)
    (form_quantity : option Z) (address : option string)
| ReqSellItem (s : session) (m : http_method) (f : listing_form)
| ReqAddItem (s : session) (m : http_method) (f : listing_form)
| ReqEditListing (id : Z) (s : session) (m : http_method) (f : listing_form)
| ReqDeleteListing (id : Z) (s : session).

Definition handle (rq : request) (db : database) : response * database :=
  match rq with
  | ReqPurchaseItem id s q => purchase_item id s q db
  | ReqProcessPurchase s pid q a => process_purchase s pid q a db
  | ReqSellItem s m f => sell_item s m f db
  | ReqAddItem s m f => add_item s m f db
  | ReqEditListing id s m f => edit_listing id s m f db
  | ReqDeleteListing id s => delete_listing id s db
  end.

(** Requests served one after the other. *)
Fixpoint serve (rqs : list request) (db : database)
  : list response * database :=
  match rqs with
  | [] => ([], db)
  | rq :: rest =>
    let '(r, db1) := handle rq db in
    let '(rs, db2) := serve rest db1 in
    (r :: rs, db2)
  end.


(** The two purchase routes, and a buyer with the route they use. *)
Inductive route :=
| ViaBuy                                   (* /buy/<item_id> *)
| ViaBuyItems (address : option string).   (* /buy_items *)

Definition purchase_via (id qty : Z) (b : Z * route) : request :=
  match b.2 with
  | ViaBuy => ReqPurchaseItem id (Some b.1) (Some qty)
  | ViaBuyItems a => ReqProcessPurchase (Some b.1) (Some id) (Some qty) a
  end.

(** The same purchase, once per buyer. *)
Definition purchases (id qty : Z) (buyers : list (Z * route)) : list request :=
  map (purchase_via id qty) buyers.

(** The two ways a purchase handler answers. *)
Definition accepted (resp : response) : Prop :=
  resp = successful \/ exists msg, resp = Json true msg.

Definition rejected (resp : response) : Prop :=
  resp = insufficient \/ resp = Json false "Insufficient quantity available".


(** Stock of a listing as a later SELECT would read it. *)
Definition stock_of (id : Z) (db : database) : option Z :=
  quantity_available <$> (marketplace_items db !! id).

(** *** Outcome predicates and sample data *)

(** What an accepted purchase of [qty] units of listing [id] by [user_id]
    leaves behind: the stock lowered by [qty] and one more transaction, of
    amount [qty * price]. *)
Definition purchased (id user_id qty : Z) (r : item_row)
    (db db' : database) : Prop :=
  stock_of id db' = Some (quantity_available r - qty)
  /\ exists t, purchase_transactions db' = (purchase_transactions db ++ [t])%list
       /\ item_id t = id /\ buyer_id t = user_id /\ quantity t = qty
       /\ total_amount t = (inject_Z qty * price r)%Q.

(** A listing with five units at price ten, and the store holding it. *)
Definition sample_item : item_row :=
  mk_item 7 "Rice" "" "Grain" 10%Q 5 "kg" "Assam" None.

Definition sample_db : database :=
  mk_db {[ 1 := sample_item ]} 2 [].

Definition negative_form : listing_form :=
  mk_form "Rice" "" "Grain" (Some 10%Q) (Some (-5)) "kg" "Assam" None.

(** *** Further observations on requests and the store *)

(** The session a request carries. *)
Definition requester (rq : request) : session :=
  match rq with
  | ReqPurchaseItem _ s _ | ReqProcessPurchase s _ _ _ | ReqSellItem s _ _
  | ReqAddItem s _ _ | ReqEditListing _ s _ _ | ReqDeleteListing _ s => s
  end.

Definition is_purchase (rq : request) : bool :=
  match rq with
  | ReqPurchaseItem _ _ _ | ReqProcessPurchase _ _ _ _ => true
  | _ => false
  end.

(** The listing a purchase request names. *)
Definition purchase_target (rq : request) : option Z :=
  match rq with
  | ReqPurchaseItem id _ _ => Some id
  | ReqProcessPurchase _ pid _ _ => pid
  | _ => None
  end.

(** A response that announces success: a flash of category 'success' or a
    JSON body with 'success': True. *)
Definition succeeded (resp : response) : bool :=
  match resp with
  | Redirect _ (Some (_, c)) => String.eqb c "success"
  | Json true _ => true
  | _ => false
  end.

(** Units of listing [id] recorded as sold in the transaction log. *)
Definition units_sold (id : Z) (db : database) : Z :=
  fold_right (fun t acc => if item_id t =? id then quantity t + acc else acc)
             0 (purchase_transactions db).

(** Every identifier in use was handed out by the counter. *)
Definition ids_below_counter (db : database) : Prop :=
  map_Forall (fun k _ => k < next_item_id db) (marketplace_items db).

(** The row [sell_item] stores for a form whose numbers parse. *)
Definition listed_row (user_id : Z) (f : listing_form) (p : Q) (qty : Z)
  : item_row :=
  mk_item user_id (f_item_name f) (f_description f)
          (category_mapping (f_category f)) p qty (f_unit f) (f_location f)
          (f_image f).

Definition rice_form : listing_form :=
  mk_form "Rice" "" "Grains" (Some 10%Q) (Some 5) "kg" "Assam" None.

(** Units of listing [id] that a call has recorded as sold (its INSERT has
    run) but not yet taken off the stock (its UPDATE has not). *)
Definition pending (id : Z) (c : call) : Z :=
  match call_pc c with
  | AtUpdate => if call_item c =? id then call_quantity c else 0
  | _ => 0
  end.

Definition in_flight (id : Z) (cs : list call) : Z :=
  fold_right (fun c acc => pending id c + acc) 0 cs.

Definition finished (c : call) : Prop :=
  exists resp, call_pc c = Finished resp.

End FarmCom.

(** ** Crop_Yield_Prediction/src: preprocessing, training, prediction *)
Module CropYield.

(** *** Exceptions *)
Inductive exn :=
| ValueError | NotFittedError | KeyError | TypeError | IndexError
| AttributeError | FileNotFoundError | UnpicklingError.

Inductive result (A : Type) :=
| Ok (a : A)
| Raise (e : exn).
Arguments Ok {A} a.
Arguments Raise {A} e.

Definition bind {A B} (r : result A) (k : A -> result B) : result B :=
  match r with
  | Ok a => k a
  | Raise e => Raise e
  end.

#[global] Instance result_bind : MBind result := fun A B k r => bind r k.
#[global] Instance result_ret : MRet result := @Ok.

(** [isinstance(e, ValueError)]: scikit-learn's [NotFittedError] derives from
    [ValueError]. *)
Definition is_ValueError (e : exn) : bool :=
  match e with
  | ValueError | NotFittedError => true
  | _ => false
  end.

(** [try: body  except ValueError: handler]. *)
Definition except_ValueError {A} (body : result A) (handler : A) : result A :=
  match body with
  | Ok a => Ok a
  | Raise e => if is_ValueError e then Ok handler else Raise e
  end.

(** [try: body  except Exception: handler]. *)
Definition except_Exception {A} (body : result A) (handler : A) : A :=
  match body with
  | Ok a => a
  | Raise _ => handler
  end.

Fixpoint mapR {A B} (f : A -> result B) (l : list A) : result (list B) :=
  match l with
  | [] => Ok []
  | x :: r => y ← f x; ys ← mapR f r; Ok (y :: ys)
  end.

(** *** Tables (pandas [DataFrame])

    A cell is a number, a string or missing ([NaN]); a row maps the column
    names to cells; [columns] keeps the column order. *)
Inductive cell :=
| Num (q : Q)
| Str (s : string)
| NaN.

Record DataFrame := mk_df {
  columns : list string;
  rows : list (gmap string cell)
}.

Definition has_column (c : string) (df : DataFrame) : bool :=
  bool_decide (c ∈ columns df).

Definition cell_at (c : string) (r : gmap string cell) : cell :=
  default NaN (r !! c).

(** [df[c]]. *)
Definition get_column (c : string) (df : DataFrame) : result (list cell) :=
  if has_column c df then Ok (map (cell_at c) (rows df)) else Raise KeyError.

(** [df[c] = values] for a sequence of the table's length. *)
Definition set_column (c : string) (vs : list cell) (df : DataFrame)
  : DataFrame :=
  mk_df (if has_column c df then columns df else columns df ++ [c])
        (zip_with (fun r v => <[c := v]> r) (rows df) vs).

(** [df[c] = v] for a scalar. *)
Definition set_column_scalar (c : string) (v : cell) (df : DataFrame)
  : DataFrame :=
  mk_df (if has_column c df then columns df else columns df ++ [c])
        (map (fun r => <[c := v]> r) (rows df)).

(** [df[cols]]: the sub-table of the listed columns. *)
Definition select_columns (cols : list string) (df : DataFrame) : DataFrame :=
  mk_df cols (map (fun r => filter (fun kv => kv.1 ∈ cols) r) (rows df)).

Definition isna (v : cell) : bool :=
  match v with NaN => true | _ => false end.

(** [df.dropna(subset=cols)]. *)
Definition dropna (cols : list string) (df : DataFrame) : result DataFrame :=
  if forallb (fun c => has_column c df) cols then
    Ok (mk_df (columns df)
              (List.filter
                 (fun r => forallb (fun c => negb (isna (cell_at c r))) cols)
                 (rows df)))
  else Raise KeyError.

(** [df[c].fillna(v, inplace=True)]. *)
Definition fillna (c : string) (v : cell) (df : DataFrame) : DataFrame :=
  mk_df (columns df)
        (map (fun r => if isna (cell_at c r) then <[c := v]> r else r)
             (rows df)).

(** *** Order statistics (numpy / pandas, linear interpolation) *)
Fixpoint insert_sorted (x : Q) (l : list Q) : list Q :=
  match l with
  | [] => [x]
  | y :: r => if Qle_bool x y then x :: l else y :: insert_sorted x r
  end.

Definition sort_values (l : list Q) : list Q := fold_right insert_sorted [] l.

(** The value at (fractional) position [pos] of the sorted sample [s]:
    linear interpolation between the neighbours [floor pos] and
    [floor pos + 1], the latter clipped to the last index. *)
Definition interpolate (s : list Q) (pos : Q) : Q :=
  let lo := Z.to_nat (Qfloor pos) in
  let hi := Nat.min (lo + 1) (length s - 1) in
  let frac := (pos - inject_Z (Qfloor pos))%Q in
  let a := nth lo s 0%Q in
  let b := nth hi s 0%Q in
  (a + (b - a) * frac)%Q.

(** The value at fraction [p] of the sample: position [p * (n - 1)] of the
    sorted sample.  [None] stands for the [nan] returned on an empty
    sample. *)
Definition quantile (p : Q) (l : list Q) : option Q :=
  match l with
  | [] => None
  | _ =>
    let s := sort_values l in
    Some (interpolate s (p * inject_Z (Z.of_nat (length s - 1)))%Q)
  end.

(** [np.percentile(a, q)]. *)
Definition percentile (l : list Q) (q : Q) : option Q :=
  quantile (q / 100)%Q l.

Definition sum_values (l : list Q) : Q := fold_right Qplus 0%Q l.

(** [np.mean(a)]. *)
Definition mean (l : list Q) : option Q :=
  match l with
  | [] => None
  | _ => Some (sum_values l / inject_Z (Z.of_nat (length l)))%Q
  end.

(** The numbers of a column, missing cells skipped; a string cell makes the
    numeric reductions raise. *)
Fixpoint numeric_values (vs : list cell) : result (list Q) :=
  match vs with
  | [] => Ok []
  | Num q :: r => qs ← numeric_values r; Ok (q :: qs)
  | NaN :: r => numeric_values r
  | Str _ :: _ => Raise TypeError
  end.

(** [df[c].quantile(p)] and [df[c].median()]. *)
Definition column_quantile (p : Q) (c : string) (df : DataFrame)
  : result (option Q) :=
  vs ← get_column c df; qs ← numeric_values vs; Ok (quantile p qs).

Definition column_median (c : string) (df : DataFrame) : result (option Q) :=
  column_quantile (1 # 2) c df.

(** A cell of a numeric column: a number or missing, never text; a column
    and a set of columns of such cells. *)
Definition not_text (v : cell) : Prop :=
  match v with Str _ => False | _ => True end.

Definition numeric_column (c : string) (df : DataFrame) : Prop :=
  Forall (fun r => not_text (cell_at c r)) (rows df).

Definition numeric_table (cols : list string) (df : DataFrame) : Prop :=
  Forall (fun c => numeric_column c df) cols.

(** *** sklearn.preprocessing.LabelEncoder *)
Module LabelEncoder.

Record t := mk { classes_ : option (list string) }.

Definition new : t := mk None.

Fixpoint insert_label (s : string) (l : list string) : list string :=
  match l with
  | [] => [s]
  | x :: r =>
    match String.compare s x with
    | Lt => s :: l
    | Eq => l
    | Gt => x :: insert_label s r
    end
  end.

(** [np.unique]: the distinct labels in increasing order. *)
Definition unique (l : list string) : list string :=
  fold_right insert_label [] l.

Definition label_of (v : cell) : result string :=
  match v with
  | Str s => Ok s
  | _ => Raise TypeError
  end.

(** [fit(y)].  Columns of labels are columns of strings; a column with a
    number or a missing cell is rejected here. *)
Definition fit (y : list cell) (e : t) : result t :=
  ls ← mapR label_of y; Ok (mk (Some (unique ls))).

Fixpoint index_of (s : string) (l : list string) : option Z :=
  match l with
  | [] => None
  | x :: r => if String.eqb s x then Some 0
              else option_map Z.succ (index_of s r)
  end.

Definition encode_label (classes : list string) (v : cell) : result Z :=
  match v with
  | Str s => match index_of s classes with
             | Some i => Ok i
             | None => Raise ValueError
             end
  | _ => Raise ValueError
  end.

(** [transform(y)]: the code of every label, [ValueError] when one of them
    was not seen by [fit], [NotFittedError] before [fit]. *)
Definition transform (e : t) (y : list cell) : result (list Z) :=
  match classes_ e with
  | None => Raise NotFittedError
  | Some classes => mapR (encode_label classes) y
  end.

Definition fit_transform (y : list cell) (e : t) : result (list Z) * t :=
  match fit y e with
  | Ok e' => (transform e' y, e')
  | Raise x => (Raise x, e)
  end.

End LabelEncoder.

(** *** data_preprocessing.py: class DataPreprocessor *)
Module DataPreprocessor.

(** [data] and [cleaned_data] are [None] while the attribute is not set. *)
Record t := mk {
  crop_encoder : LabelEncoder.t;
  state_encoder : LabelEncoder.t;
  season_encoder : LabelEncoder.t;
  is_fitted : bool;
  data : option DataFrame;
  cleaned_data : option DataFrame
}.

Definition new : t :=
  mk LabelEncoder.new LabelEncoder.new LabelEncoder.new false None None.

Definition critical_columns : list string :=
  ["Crop"; "State"; "Area"; "Production"; "Yield"].

Definition numerical_cols : list string :=
  ["Area"; "Production"; "Annual_Rainfall"; "Fertilizer"; "Pesticide"; "Yield"].

(** [if c in df.columns: df[c].fillna(df[c].median(), inplace=True)]. *)
Definition fill_median (c : string) (df : DataFrame) : result DataFrame :=
  if has_column c df then
    m ← column_median c df;
    Ok (match m with Some q => fillna c (Num q) df | None => df end)
  else Ok df.

(** [lower <= v] and [v <= upper] on a cell; a comparison with [nan] is
    false. *)
Definition within (lower upper : option Q) (v : cell) : bool :=
  match lower, upper, v with
  | Some lo, Some up, Num x => Qle_bool lo x && Qle_bool x up
  | _, _, _ => false
  end.

(** [IQR = Q3 - Q1], [lower_bound = Q1 - 1.5 * IQR],
    [upper_bound = Q3 + 1.5 * IQR]; [nan] quartiles give [nan] bounds. *)
Definition iqr_bounds (Q1 Q3 : option Q) : option Q * option Q :=
  match Q1, Q3 with
  | Some q1, Some q3 =>
    let IQR := (q3 - q1)%Q in
    (Some (q1 - (3 # 2) * IQR)%Q, Some (q3 + (3 # 2) * IQR)%Q)
  | _, _ => (None, None)
  end.

(** One round of the outlier loop of [clean_data], for column [c]. *)
Definition remove_outliers (c : string) (df : DataFrame) : result DataFrame :=
  if has_column c df then
    Q1 ← column_quantile (1 # 4) c df;
    Q3 ← column_quantile (3 # 4) c df;
    let '(lower_bound, upper_bound) := iqr_bounds Q1 Q3 in
    Ok (mk_df (columns df)
              (List.filter (fun r => within lower_bound upper_bound (cell_at c r))
                           (rows df)))
  else Ok df.

(** [for col in cols: ...]: the rounds one after the other, on the table the
    previous round left. *)
Definition remove_outliers_all (cols : list string) (df : DataFrame)
  : result DataFrame :=
  fold_left (fun acc col => cleaned ← acc; remove_outliers col cleaned)
            cols (Ok df).

(** The body of [clean_data] after the [hasattr] test. *)
Definition clean_table (d : DataFrame) : result DataFrame :=
  d1 ← dropna critical_columns d;
  d2 ← fill_median "Annual_Rainfall" d1;
  d3 ← fill_median "Fertilizer" d2;
  d4 ← fill_median "Pesticide" d3;
  let d5 := if has_column "Season" d4
            then fillna "Season" (Str "Unknown") d4 else d4 in
  remove_outliers_all numerical_cols d5.

(** [clean_data(self)]: the returned table (Python [None] without data) and
    the object afterwards. *)
Definition clean_data (self : t) : result (option DataFrame) * t :=
  match data self with
  | None => (Ok None, self)
  | Some d =>
    match clean_table d with
    | Ok c => (Ok (Some c),
               mk (crop_encoder self) (state_encoder self)
                  (season_encoder self) (is_fitted self) (data self) (Some c))
    | Raise e => (Raise e, self)
    end
  end.

Definition code_cells (codes : list Z) : list cell :=
  map (fun z => Num (inject_Z z)) codes.

(** [df[dst] = enc.fit_transform(df[src])]. *)
Definition fit_column (src dst : string) (enc : LabelEncoder.t)
    (df : DataFrame) : result DataFrame * LabelEncoder.t :=
  match get_column src df with
  | Raise e => (Raise e, enc)
  | Ok vs =>
    match LabelEncoder.fit_transform vs enc with
    | (Ok codes, enc') => (Ok (set_column dst (code_cells codes) df), enc')
    | (Raise e, enc') => (Raise e, enc')
    end
  end.

(** [try: df[dst] = enc.transform(df[src])  except ValueError: df[dst] = 0]. *)
Definition transform_column (src dst : string) (enc : LabelEncoder.t)
    (df : DataFrame) : result DataFrame :=
  match (vs ← get_column src df; LabelEncoder.transform enc vs) with
  | Ok codes => Ok (set_column dst (code_cells codes) df)
  | Raise e => if is_ValueError e
               then Ok (set_column_scalar dst (Num 0) df)
               else Raise e
  end.

(** [encode_categorical_features(self, data)]. *)
Definition encode_categorical_features (df : DataFrame) (self : t)
  : result DataFrame * t :=
  if negb (is_fitted self) then
    match fit_column "Crop" "Crop_Encoded" (crop_encoder self) df with
    | (Raise e, ce) =>
      (Raise e, mk ce (state_encoder self) (season_encoder self)
                   (is_fitted self) (data self) (cleaned_data self))
    | (Ok df1, ce) =>
      match fit_column "State" "State_Encoded" (state_encoder self) df1 with
      | (Raise e, se) =>
        (Raise e, mk ce se (season_encoder self)
                     (is_fitted self) (data self) (cleaned_data self))
      | (Ok df2, se) =>
        if has_column "Season" df2 then
          match fit_column "Season" "Season_Encoded"
                           (season_encoder self) df2 with
          | (Raise e, ne) =>
            (Raise e, mk ce se ne (is_fitted self) (data self)
                         (cleaned_data self))
          | (Ok df3, ne) =>
            (Ok df3, mk ce se ne true (data self) (cleaned_data self))
          end
        else
          (Ok df2, mk ce se (season_encoder self) true (data self)
                      (cleaned_data self))
      end
    end
  else
    (df1 ← transform_column "Crop" "Crop_Encoded" (crop_encoder self) df;
     df2 ← transform_column "State" "State_Encoded" (state_encoder self) df1;
     if has_column "Season" df2
     then transform_column "Season" "Season_Encoded" (season_encoder self) df2
     else Ok df2,
     self).

Definition base_feature_columns : list string :=
  ["Crop_Encoded"; "State_Encoded"; "Area"; "Production";
   "Annual_Rainfall"; "Fertilizer"; "Pesticide"].

(** [prepare_features(self, data)]: [(X, y, available_features)]. *)
Definition prepare_features (df : DataFrame)
  : result (DataFrame * list cell * list string) :=
  let feature_columns :=
    if has_column "Season_Encoded" df
    then (base_feature_columns ++ ["Season_Encoded"])%list
    else base_feature_columns in
  let available_features :=
    List.filter (fun col => has_column col df) feature_columns in
  let X := select_columns available_features df in
  y ← get_column "Yield" df;
  Ok (X, y, available_features).

(** A label the encoder has no code for: it was absent from the labels given
    to [fit] (or [fit] never ran). *)
Definition unseen (label : string) (enc : LabelEncoder.t) : Prop :=
  match LabelEncoder.classes_ enc with
  | Some classes => label ∉ classes
  | None => True
  end.

(** [enc.transform([label])[0]]. *)
Definition transform_single (enc : LabelEncoder.t) (label : string)
  : result Z :=
  codes ← LabelEncoder.transform enc [Str label];
  match codes with
  | c :: _ => Ok c
  | [] => Raise IndexError
  end.

(** Truth value of the optional [season] argument. *)
Definition truthy (season : option string) : option string :=
  match season with
  | Some s => if String.eqb s "" then None else Some s
  | None => None
  end.

(** [encode_single_prediction(self, crop, state, season=None)]. *)
Definition encode_single_prediction (self : t) (crop state : string)
    (season : option string) : result (Z * Z * Z) :=
  crop_encoded ← except_ValueError (transform_single (crop_encoder self) crop) 0;
  state_encoded ←
    except_ValueError (transform_single (state_encoder self) state) 0;
  season_encoded ←
    match truthy season with
    | Some s => except_ValueError (transform_single (season_encoder self) s) 0
    | None => Ok 0
    end;
  Ok (crop_encoded, state_encoded, season_encoded).

End DataPreprocessor.

(** *** Fitted models, Python objects, files *)

(** A fitted scikit-learn regressor, as far as the program looks into it:
    the feature names seen by [fit], the prediction for one feature vector
    and, for an ensemble, its member estimators (never an empty list:
    scikit-learn rejects [n_estimators < 1]). *)
Record Model := mk_model {
  feature_names_in_ : list string;
  predict_fn : list Q -> Q;
  estimators_ : option ((list Q -> Q) * list (list Q -> Q))
}.

Definition number_of (v : cell) : result Q :=
  match v with
  | Num q => Ok q
  | _ => Raise ValueError
  end.

(** The rows of a table as feature vectors, in column order. *)
Definition feature_vectors (X : DataFrame) : result (list (list Q)) :=
  mapR (fun r => mapR (fun c => number_of (cell_at c r)) (columns X)) (rows X).

(** [model.predict(X)]: the table must carry the feature names of [fit]. *)
Definition model_predict (m : Model) (X : DataFrame) : result (list Q) :=
  if bool_decide (columns X = feature_names_in_ m) then
    xs ← feature_vectors X; Ok (map (predict_fn m) xs)
  else Raise ValueError.

(** [estimator.predict(X)] for a member of the ensemble (fitted on arrays:
    only the number of features is checked). *)
Definition estimator_predict (m : Model) (est : list Q -> Q) (X : DataFrame)
  : result (list Q) :=
  if (length (columns X) =? length (feature_names_in_ m))%nat then
    xs ← feature_vectors X; Ok (map est xs)
  else Raise ValueError.

(** The values the attributes [model], [preprocessor] and [feature_names]
    take. *)
Inductive pyobj :=
| PyNone
| PyModel (m : Model)
| PyPreprocessor (p : DataPreprocessor.t)
| PyList (l : list string).

(** What a path holds: a joblib pickle of a dict, or something else. *)
Inductive file :=
| Pickle (d : gmap string pyobj)
| NotAPickle.

Abbreviation filesystem := (gmap string file).

(** [os.path.dirname] (POSIX). *)
Fixpoint has_sep (p : string) : bool :=
  match p with
  | EmptyString => false
  | String c r => Ascii.eqb c "/"%char || has_sep r
  end.

Fixpoint all_sep (p : string) : bool :=
  match p with
  | EmptyString => true
  | String c r => Ascii.eqb c "/"%char && all_sep r
  end.

(** [p[:p.rfind('/') + 1]]. *)
Fixpoint head_part (p : string) : string :=
  match p with
  | EmptyString => EmptyString
  | String c r => if has_sep p then String c (head_part r) else EmptyString
  end.

(** [head.rstrip('/')]. *)
Fixpoint rstrip_sep (p : string) : string :=
  match p with
  | EmptyString => EmptyString
  | String c r => if all_sep p then EmptyString else String c (rstrip_sep r)
  end.

Definition dirname (p : string) : string :=
  let head := head_part p in
  if negb (String.eqb head "") && negb (all_sep head)
  then rstrip_sep head else head.

(** [os.makedirs(d, exist_ok=True)]: the empty path is refused; other
    failures of the operating system are not modelled. *)
Definition makedirs (d : string) : result () :=
  if String.eqb d "" then Raise FileNotFoundError else Ok ().

(** [os.path.exists(path)]. *)
Definition exists_ (path : string) (fs : filesystem) : bool :=
  match fs !! path with Some _ => true | None => false end.

(** [joblib.dump(d, path)] and [joblib.load(path)]. *)
Definition joblib_dump (d : gmap string pyobj) (path : string)
    (fs : filesystem) : filesystem :=
  <[path := Pickle d]> fs.

Definition joblib_load (path : string) (fs : filesystem)
  : result (gmap string pyobj) :=
  match fs !! path with
  | Some (Pickle d) => Ok d
  | Some NotAPickle => Raise UnpicklingError
  | None => Raise FileNotFoundError
  end.

(** [d[k]]. *)
Definition getitem (d : gmap string pyobj) (k : string) : result pyobj :=
  match d !! k with
  | Some v => Ok v
  | None => Raise KeyError
  end.

(** *** model_training.py: class ModelTrainer (persistence) *)
Module ModelTrainer.

(** The attributes [save_model] and [load_model] touch. *)
Record t := mk {
  preprocessor : pyobj;
  model : pyobj;
  feature_names : pyobj
}.

Definition new : t := mk (PyPreprocessor DataPreprocessor.new) PyNone PyNone.

Definition is_None (o : pyobj) : bool :=
  match o with PyNone => true | _ => false end.

(** [save_model(self, file_path)]: the returned flag and the files
    afterwards. *)
Definition save_model (self : t) (file_path : string) (fs : filesystem)
  : bool * filesystem :=
  if is_None (model self) then (false, fs)
  else
    match makedirs (dirname file_path) with
    | Raise _ => (false, fs)
    | Ok _ =>
      let model_data : gmap string pyobj :=
        <["model" := model self]>
          (<["preprocessor" := preprocessor self]>
             (<["feature_names" := feature_names self]> ∅)) in
      (true, joblib_dump model_data file_path fs)
    end.

(** [load_model(self, file_path)]: the returned flag and the object
    afterwards (the attributes are assigned one by one). *)
Definition load_model (self : t) (file_path : string) (fs : filesystem)
  : bool * t :=
  match joblib_load file_path fs with
  | Raise _ => (false, self)
  | Ok model_data =>
    match getitem model_data "model" with
    | Raise _ => (false, self)
    | Ok m =>
      let self1 := mk (preprocessor self) m (feature_names self) in
      match getitem model_data "preprocessor" with
      | Raise _ => (false, self1)
      | Ok p =>
        let self2 := mk p (model self1) (feature_names self1) in
        match getitem model_data "feature_names" with
        | Raise _ => (false, self2)
        | Ok f => (true, mk (preprocessor self2) (model self2) f)
        end
      end
    end
  end.

End ModelTrainer.

(** *** model_prediction.py: class YieldPredictor *)
Module YieldPredictor.

Record t := mk {
  model : pyobj;
  preprocessor : pyobj;
  feature_names : pyobj;
  is_loaded : bool
}.

Definition new : t := mk PyNone PyNone PyNone false.

(** [load_model(self, model_path)]. *)
Definition load_model (self : t) (model_path : string) (fs : filesystem)
  : bool * t :=
  if negb (exists_ model_path fs) then (false, self)
  else
    match joblib_load model_path fs with
    | Raise _ => (false, self)
    | Ok model_data =>
      match getitem model_data "model" with
      | Raise _ => (false, self)
      | Ok m =>
        let self1 := mk m (preprocessor self) (feature_names self)
                        (is_loaded self) in
        match getitem model_data "preprocessor" with
        | Raise _ => (false, self1)
        | Ok p =>
          let self2 := mk (model self1) p (feature_names self1)
                          (is_loaded self1) in
          match getitem model_data "feature_names" with
          | Raise _ => (false, self2)
          | Ok f => (true, mk (model self2) (preprocessor self2) f true)
          end
        end
      end
    end.

(** Attribute access on the loaded objects. *)
Definition as_preprocessor (o : pyobj) : result DataPreprocessor.t :=
  match o with PyPreprocessor p => Ok p | _ => Raise AttributeError end.

Definition as_model (o : pyobj) : result Model :=
  match o with PyModel m => Ok m | _ => Raise AttributeError end.

Definition as_names (o : pyobj) : result (list string) :=
  match o with PyList l => Ok l | _ => Raise TypeError end.

Definition first {A} (l : list A) : result A :=
  match l with x :: _ => Ok x | [] => Raise IndexError end.

(** The arguments of [predict] and [predict_with_confidence]. *)
Record request := mk_request {
  crop : string;
  state : string;
  area : Q;
  production : Q;
  annual_rainfall : Q;
  fertilizer : Q;
  pesticide : Q;
  season : option string
}.

(** [pd.DataFrame(np.array(features).reshape(1, -1), columns=names)]. *)
Definition single_row_frame (features : list Q) (names : list string)
  : result DataFrame :=
  if (length features =? length names)%nat then
    Ok (mk_df names [list_to_map (zip names (map Num features))])
  else Raise ValueError.

(** The common opening of [predict] and [predict_with_confidence]: encode,
    assemble the feature vector, wrap it in a one-row table. *)
Definition feature_frame (self : t) (rq : request) : result DataFrame :=
  p ← as_preprocessor (preprocessor self);
  '(crop_encoded, state_encoded, season_encoded) ←
    DataPreprocessor.encode_single_prediction p (crop rq) (state rq) (season rq);
  names ← as_names (feature_names self);
  let features :=
    [inject_Z crop_encoded; inject_Z state_encoded; area rq; production rq;
     annual_rainfall rq; fertilizer rq; pesticide rq] in
  let features :=
    if bool_decide ("Season_Encoded" ∈ names)
    then (features ++ [inject_Z season_encoded])%list else features in
  single_row_frame features names.

(** [predict(self, crop, state, ..., season=None)]; [None] is Python's. *)
Definition predict (self : t) (rq : request) : option Q :=
  if negb (is_loaded self) then None
  else
    except_Exception
      (feature_df ← feature_frame self rq;
       m ← as_model (model self);
       ps ← model_predict m feature_df;
       prediction ← first ps;
       Ok (Some prediction))
      None.

(** [predict_batch(self, data_file)]; [csv] is the outcome of
    [pd.read_csv(data_file)].  The table returned (Python [None] on any
    failure) and the object afterwards. *)
Definition predict_batch (self : t) (csv : result DataFrame)
  : option DataFrame * t :=
  if negb (is_loaded self) then (None, self)
  else
    match csv, preprocessor self with
    | Ok data, PyPreprocessor p =>
      let '(encoded, p') :=
        DataPreprocessor.encode_categorical_features data p in
      (except_Exception
         (encoded_data ← encoded;
          '(X, _, _) ← DataPreprocessor.prepare_features encoded_data;
          m ← as_model (model self);
          predictions ← model_predict m X;
          Ok (Some (set_column "Predicted_Yield" (map Num predictions) data)))
         None,
       mk (model self) (PyPreprocessor p') (feature_names self)
          (is_loaded self))
    | _, _ => (None, self)
    end.

(** [np.std(a) ** 2]: the mean squared deviation (the standard deviation
    itself is its square root, which the rationals do not have). *)
Definition variance (l : list Q) : option Q :=
  match mean l with
  | Some m => mean (map (fun x => (x - m) * (x - m))%Q l)
  | None => None
  end.

(** The dict returned by [predict_with_confidence]. *)
Inductive confidence :=
| PointOnly (prediction : option Q)   (* lower_bound, upper_bound: None *)
| Interval (prediction std_squared lower_bound upper_bound : option Q)
           (all_predictions : list Q).

(** [hasattr(self.model, 'estimators_')]. *)
Definition ensemble_of (o : pyobj)
  : option (Model * (list Q -> Q) * list (list Q -> Q)) :=
  match o with
  | PyModel m =>
    match estimators_ m with
    | Some (e, es) => Some (m, e, es)
    | None => None
    end
  | _ => None
  end.

(** [predict_with_confidence(self, crop, state, ..., season=None)]. *)
Definition predict_with_confidence (self : t) (rq : request)
  : option confidence :=
  if negb (is_loaded self) then None
  else
    match ensemble_of (model self) with
    | None => Some (PointOnly (predict self rq))
    | Some (m, e, es) =>
      except_Exception
        (feature_df ← feature_frame self rq;
         predictions ←
           mapR (fun estimator =>
                   ps ← estimator_predict m estimator feature_df; first ps)
                (e :: es);
         let mean_pred := mean predictions in
         let lower_bound := percentile predictions (5 # 2) in
         let upper_bound := percentile predictions (195 # 2) in
         Ok (Some (Interval mean_pred (variance predictions)
                            lower_bound upper_bound predictions)))
        None
    end.

End YieldPredictor.

(** *** Sample data *)
Module Samples.

Definition row (crop state_ : string) (area_ production_ rain fert pest yld : Q)
  : gmap string cell :=
  list_to_map
    [("Crop", Str crop); ("State", Str state_); ("Area", Num area_);
     ("Production", Num production_); ("Annual_Rainfall", Num rain);
     ("Fertilizer", Num fert); ("Pesticide", Num pest); ("Yield", Num yld)].

Definition table_columns : list string :=
  ["Crop"; "State"; "Area"; "Production"; "Annual_Rainfall"; "Fertilizer";
   "Pesticide"; "Yield"].

(** The table the encoders are fitted on: crops Rice and Wheat. *)
Definition training_table : DataFrame :=
  mk_df table_columns
        [row "Rice" "Assam" 10 20 1000 5 1 2;
         row "Wheat" "Assam" 12 30 900 6 1 (5 # 2)].

Definition fitted_preprocessor : DataPreprocessor.t :=
  (DataPreprocessor.encode_categorical_features
     training_table DataPreprocessor.new).2.

(** A batch whose second row names a crop the encoder never saw. *)
Definition batch_table : DataFrame :=
  mk_df table_columns
        [row "Wheat" "Assam" 12 30 900 6 1 0;
         row "Maize" "Assam" 8 10 800 4 1 0].

(** A model whose prediction is the crop code it is given. *)
Definition crop_code_model : Model :=
  mk_model DataPreprocessor.base_feature_columns (fun x => nth 0 x 0%Q) None.

Definition crop_code_predictor : YieldPredictor.t :=
  YieldPredictor.mk (PyModel crop_code_model)
                    (PyPreprocessor fitted_preprocessor)
                    (PyList DataPreprocessor.base_feature_columns) true.

Definition wheat_request : YieldPredictor.request :=
  YieldPredictor.mk_request "Wheat" "Assam" 12 30 900 6 1 None.

(** A trainer holding a fitted model, its preprocessor and the feature
    names, and the default artifact path of the sources. *)
Definition trained : ModelTrainer.t :=
  ModelTrainer.mk (PyPreprocessor fitted_preprocessor)
                  (PyModel crop_code_model)
                  (PyList DataPreprocessor.base_feature_columns).

Definition model_path : string := "models/saved_models/yield_model.pkl".

(** A bundle fitted with the season feature. *)
Definition season_model : Model :=
  mk_model (DataPreprocessor.base_feature_columns ++ ["Season_Encoded"])%list
           (fun x => nth 0 x 0%Q) None.

Definition season_predictor : YieldPredictor.t :=
  YieldPredictor.mk
    (PyModel season_model) (PyPreprocessor fitted_preprocessor)
    (PyList (DataPreprocessor.base_feature_columns ++ ["Season_Encoded"])%list)
    true.

(** A raw table of six records: one without a yield, one with an area far
    from the others. *)
Definition missing_yield (r : gmap string cell) : gmap string cell :=
  <["Yield" := NaN]> r.

Definition survey_table : DataFrame :=
  mk_df table_columns
        [row "Rice" "Assam" 10 20 1000 5 1 2;
         row "Rice" "Bihar" 11 20 1000 5 1 2;
         missing_yield (row "Rice" "Assam" 12 20 1000 5 1 2);
         row "Wheat" "Assam" 12 20 1000 5 1 2;
         row "Wheat" "Bihar" 13 20 1000 5 1 2;
         row "Maize" "Assam" 1000 20 1000 5 1 2].

Definition survey : DataPreprocessor.t :=
  DataPreprocessor.mk LabelEncoder.new LabelEncoder.new LabelEncoder.new
                      false (Some survey_table) None.

Definition survey_cleaned : DataFrame :=
  Eval vm_compute in
    match DataPreprocessor.clean_table survey_table with
    | Ok c => c
    | Raise _ => mk_df [] []
    end.



End Samples.

(** *** Requests that differ in one field, and the assembled features *)

Definition with_crop (c : string) (rq : YieldPredictor.request)
  : YieldPredictor.request :=
  YieldPredictor.mk_request
    c (YieldPredictor.state rq) (YieldPredictor.area rq)
    (YieldPredictor.production rq) (YieldPredictor.annual_rainfall rq)
    (YieldPredictor.fertilizer rq) (YieldPredictor.pesticide rq)
    (YieldPredictor.season rq).

Definition with_season (s : option string) (rq : YieldPredictor.request)
  : YieldPredictor.request :=
  YieldPredictor.mk_request
    (YieldPredictor.crop rq) (YieldPredictor.state rq)
    (YieldPredictor.area rq) (YieldPredictor.production rq)
    (YieldPredictor.annual_rainfall rq) (YieldPredictor.fertilizer rq)
    (YieldPredictor.pesticide rq) s.

(** The list [features] of [predict]: the two codes, the five numbers of
    the request and, when the bundle names [Season_Encoded], the season
    code. *)
Definition assembled_features (crop_encoded state_encoded season_encoded : Z)
    (rq : YieldPredictor.request) (names : list string) : list Q :=
  ([inject_Z crop_encoded; inject_Z state_encoded; YieldPredictor.area rq;
    YieldPredictor.production rq; YieldPredictor.annual_rainfall rq;
    YieldPredictor.fertilizer rq; YieldPredictor.pesticide rq]
   ++ (if bool_decide ("Season_Encoded" ∈ names)
       then [inject_Z season_encoded] else []))%list.

(** *** Records before and after cleaning *)

Definition fill_columns : list string :=
  ["Annual_Rainfall"; "Fertilizer"; "Pesticide"; "Season"].

(** [r'] is the record [r] after cleaning: every recorded (non-missing) cell
    is kept, and only missing cells of the four filled columns changed. *)
Definition cleaned_from (r r' : gmap string cell) : Prop :=
  forall c, cell_at c r' = cell_at c r
            \/ (cell_at c r = NaN /\ c ∈ fill_columns).

(** A record the cleaning leaves complete, for a table whose columns are
    [cols]. *)
Definition complete_record (cols : list string) (r : gmap string cell) : Prop :=
  (forall c, c ∈ ["Crop"; "State"] -> cell_at c r <> NaN)
  /\ (forall c, c ∈ DataPreprocessor.numerical_cols -> c ∈ cols ->
      exists x, cell_at c r = Num x)
  /\ ("Season" ∈ cols -> cell_at "Season" r <> NaN).

(** The steps of [clean_data], seen from the rows: every row of the table
    after the step stems from a row before it, in the same order. *)
Definition stems_from (df df' : DataFrame) : Prop :=
  columns df' = columns df
  /\ exists kept, sublist kept (rows df)
                  /\ Forall2 cleaned_from kept (rows df').

(** What a step keeps: a property of single cells of column [c] that holds
    for every row before the step holds for every row after it, when the
    step only drops rows or fills missing cells. *)
Definition column_all (c : string) (ok : cell -> Prop) (df : DataFrame)
  : Prop :=
  Forall (fun r => ok (cell_at c r)) (rows df).

(** *** Code columns of the batch path *)

(** Every cell of column [src] is a label the encoder has a code for. *)
Definition all_seen (src : string) (enc : LabelEncoder.t) (df : DataFrame)
  : Prop :=
  Forall (fun r => exists l, cell_at src r = Str l
                             /\ ~ DataPreprocessor.unseen l enc)
         (rows df).

(** The code column the batch path writes for [src], against the
    single-record path: the record's own code when the whole column has
    codes, 0 otherwise. *)
Definition batch_code (src : string) (enc : LabelEncoder.t) (df : DataFrame)
    (r : gmap string cell) (z : Z) : Prop :=
  (all_seen src enc df ->
   exists l, cell_at src r = Str l
             /\ DataPreprocessor.transform_single enc l = Ok z)
  /\ (~ all_seen src enc df -> z = 0).

Definition code_columns : list string :=
  ["Crop_Encoded"; "State_Encoded"; "Season_Encoded"].

(** *** A batch against single requests *)

(** The arguments [predict] takes for one record of a batch. *)
Definition request_of_row (r : gmap string cell)
  : option YieldPredictor.request :=
  match cell_at "Crop" r, cell_at "State" r, cell_at "Area" r,
        cell_at "Production" r, cell_at "Annual_Rainfall" r,
        cell_at "Fertilizer" r, cell_at "Pesticide" r with
  | Str crop, Str state, Num a, Num pr, Num ar, Num f, Num pe =>
    Some (YieldPredictor.mk_request
            crop state a pr ar f pe
            match cell_at "Season" r with
             | Str l => Some l
             | _ => None
             end)
  | _, _, _, _, _, _, _ => None
  end.

(** A batch the fitted encoders know: the five numeric feature columns are
    there, every crop and state has a code and, when the table has a
    [Season] column, so has every season, none of them empty. *)
Definition known_batch (p : DataPreprocessor.t) (data : DataFrame) : Prop :=
  (forall c, c ∈ ["Area"; "Production"; "Annual_Rainfall"; "Fertilizer";
                  "Pesticide"] -> c ∈ columns data)
  /\ all_seen "Crop" (DataPreprocessor.crop_encoder p) data
  /\ all_seen "State" (DataPreprocessor.state_encoder p) data
  /\ (if bool_decide ("Season" ∈ columns data)
      then all_seen "Season" (DataPreprocessor.season_encoder p) data
           /\ Forall (fun r => cell_at "Season" r <> Str "") (rows data)
      else "Season_Encoded" ∉ columns data).

(** *** The preprocessing pipeline (preprocess_data, ModelTrainer.load_data) *)
Module Pipeline.
Import DataPreprocessor.

(** [X_train, X_test, y_train, y_test]. *)
Definition splits : Type := DataFrame * DataFrame * list cell * list cell.

(** [load_data(self, file_path)] of the preprocessor; [csv] is the outcome
    of [pd.read_csv(file_path)].  The value returned ([None] on failure)
    and the object afterwards. *)
Definition load_data (self : DataPreprocessor.t) (csv : result DataFrame)
  : option DataFrame * DataPreprocessor.t :=
  match csv with
  | Ok d => (Some d,
             mk (crop_encoder self) (state_encoder self) (season_encoder self)
                (is_fitted self) (Some d) (cleaned_data self))
  | Raise _ => (None, self)
  end.

(** [explore_data(self)]: it only prints, but [describe()] refuses a table
    without columns and the three [nunique()] lines read the columns
    [Crop], [State] and [Season]. *)
Definition explore_data (self : DataPreprocessor.t) : result () :=
  match data self with
  | None => Ok ()
  | Some d =>
    match columns d with
    | [] => Raise ValueError
    | _ =>
      _ ← get_column "Crop" d;
      _ ← get_column "State" d;
      _ ← get_column "Season" d;
      Ok ()
    end
  end.

(** The object [preprocess_data] cleans: the one given, holding the table
    read. *)
Definition loaded (p : DataPreprocessor.t) (d : DataFrame)
  : DataPreprocessor.t :=
  DataPreprocessor.mk (crop_encoder p) (state_encoder p) (season_encoder p)
                      (is_fitted p) (Some d) (cleaned_data p).

Definition cleaned_with (p : DataPreprocessor.t) (d cleaned : DataFrame)
  : DataPreprocessor.t :=
  DataPreprocessor.mk (crop_encoder p) (state_encoder p) (season_encoder p)
                      (is_fitted p) (Some d) (Some cleaned).

Section Split.

(** [train_test_split(X, y, test_size=0.2, random_state=42)]: a fixed
    function of the table, which may refuse it. *)
Variable train_test_split : DataFrame -> list cell -> result splits.

(** [preprocess_data(self, file_path)]: the tuple returned (Python [None]
    when the file cannot be read), an exception that escapes, and the
    object afterwards. *)
Definition preprocess_data (self : DataPreprocessor.t) (csv : result DataFrame)
  : result (option (splits * list string)) * DataPreprocessor.t :=
  match load_data self csv with
  | (None, self0) => (Ok None, self0)
  | (Some _, self1) =>
    match explore_data self1 with
    | Raise e => (Raise e, self1)
    | Ok _ =>
      match clean_data self1 with
      | (Raise e, self2) => (Raise e, self2)
      | (Ok None, self2) => (Ok None, self2)
      | (Ok (Some cleaned), self2) =>
        match encode_categorical_features cleaned self2 with
        | (Raise e, self3) => (Raise e, self3)
        | (Ok encoded_data, self3) =>
          (('(X, y, feature_names) ← prepare_features encoded_data;
            parts ← train_test_split X y;
            Ok (Some (parts, feature_names))),
           self3)
        end
      end
    end
  end.

(** [ModelTrainer.load_data(self, file_path)]: the flag returned, the
    trainer afterwards and the four data sets the call assigns ([None] when
    it assigns none). *)
Definition trainer_load_data (self : ModelTrainer.t) (csv : result DataFrame)
  : bool * ModelTrainer.t * option splits :=
  match ModelTrainer.preprocessor self with
  | PyPreprocessor p =>
    let '(result, p') := preprocess_data p csv in
    let self' := ModelTrainer.mk (PyPreprocessor p') (ModelTrainer.model self)
                                 (ModelTrainer.feature_names self) in
    match result with
    | Ok (Some (parts, feature_names)) =>
      (true,
       ModelTrainer.mk (PyPreprocessor p') (ModelTrainer.model self)
                       (PyList feature_names),
       Some parts)
    | Ok None => (false, self', None)
    | Raise _ => (false, self', None)
    end
  | _ => (false, self, None)
  end.

End Split.
End Pipeline.

(** *** More sample data *)

(** The training table with its code columns, the batch with its code
    columns, and the training table with its predictions. *)
Definition training_encoded : DataFrame :=
  Eval vm_compute in
    match (DataPreprocessor.encode_categorical_features
             Samples.training_table DataPreprocessor.new).1 with
    | Ok c => c
    | Raise _ => mk_df [] []
    end.

Definition batch_encoded : DataFrame :=
  Eval vm_compute in
    match (DataPreprocessor.encode_categorical_features
             Samples.batch_table Samples.fitted_preprocessor).1 with
    | Ok c => c
    | Raise _ => mk_df [] []
    end.

Definition training_predicted : DataFrame :=
  Eval vm_compute in
    match (YieldPredictor.predict_batch
             Samples.crop_code_predictor (Ok Samples.training_table)).1 with
    | Some c => c
    | None => mk_df [] []
    end.

(** A split that keeps every record on both sides, the survey with a
    season for every record, the same without its [Fertilizer] column, and
    a fresh trainer after [load_data] on each of the two. *)
Definition keep_all (X : DataFrame) (y : list cell) : result Pipeline.splits :=
  Ok (X, X, y, y).

Definition season_survey : DataFrame :=
  mk_df (Samples.table_columns ++ ["Season"])%list
        (map (fun r => <["Season" := Str "Kharif"]> r)
             (rows Samples.survey_table)).

Definition unfertilized_survey : DataFrame :=
  select_columns ["Crop"; "State"; "Area"; "Production"; "Annual_Rainfall";
                  "Pesticide"; "Yield"; "Season"] season_survey.

Definition season_trained : bool * ModelTrainer.t * option Pipeline.splits :=
  Eval vm_compute in
    Pipeline.trainer_load_data keep_all ModelTrainer.new (Ok season_survey).

Definition unfertilized_trained
  : bool * ModelTrainer.t * option Pipeline.splits :=
  Eval vm_compute in
    Pipeline.trainer_load_data keep_all ModelTrainer.new
                               (Ok unfertilized_survey).

(** A table without the [Yield] column, and a table without the
    [Fertilizer] column with the feature names it yields. *)
Definition unlabelled_batch : DataFrame :=
  select_columns ["Crop"; "State"; "Area"; "Production"; "Annual_Rainfall";
                  "Fertilizer"; "Pesticide"] Samples.batch_table.

Definition six_features : DataFrame * list cell * list string :=
  Eval vm_compute in
    match DataPreprocessor.prepare_features
            (select_columns ["Crop_Encoded"; "State_Encoded"; "Area";
                             "Production"; "Annual_Rainfall"; "Pesticide";
                             "Yield"] training_encoded) with
    | Ok t => t
    | Raise _ => (mk_df [] [], [], [])
    end.

End CropYield.

(** * Properties of the FarmCom purchase ledger *)
Module FarmComSpec.
Import FarmCom.

Section Purchase.

Variables (id user_id qty : Z) (db : database) (r : item_row).
Hypothesis Hitem : marketplace_items db !! id = Some r.

Lemma select_item_found :
  select_item id db = Some (seller_id r, price r, quantity_available r).
Proof. unfold select_item. now rewrite Hitem. Qed.

Lemma stock_after_update (t : purchase_row) :
  stock_of id (update_quantity qty id (insert_purchase t db))
  = Some (quantity_available r - qty).
Proof.
  unfold stock_of, update_quantity, insert_purchase; simpl.
  rewrite lookup_alter_eq, Hitem. reflexivity.
Qed.

(** The accepting branch of [purchase_item]. *)
Lemma purchase_item_accepts :
  qty <= quantity_available r ->
  purchase_item id (Some user_id) (Some qty) db
  = (successful,
     update_quantity qty id
       (insert_purchase
          (mk_purchase id user_id (seller_id r) qty
                       (inject_Z qty * price r)%Q None) db)).
Proof.
  intros Hle. unfold purchase_item. rewrite select_item_found.
  destruct (Z.leb_spec qty (quantity_available r)); [reflexivity | lia].
Qed.

(** The accepting branch of [process_purchase]. *)
Lemma process_purchase_accepts (address : option string) :
  qty <= quantity_available r ->
  process_purchase (Some user_id) (Some id) (Some qty) address db
  = (Json true ("Successfully purchased " +:+ str_int qty
                  +:+ " units of " +:+ item_name r),
     update_quantity qty id
       (insert_purchase
          (mk_purchase id user_id (seller_id r) qty
                       (inject_Z qty * price r)%Q address) db)).
Proof.
  intros Hle. unfold process_purchase, select_item_named. rewrite Hitem.
  destruct (Z.leb_spec qty (quantity_available r)); [reflexivity | lia].
Qed.

(** The rejecting branch of both handlers. *)
Lemma purchase_item_rejects :
  quantity_available r < qty ->
  purchase_item id (Some user_id) (Some qty) db = (insufficient, db).
Proof.
  intros Hlt. unfold purchase_item. rewrite select_item_found.
  destruct (Z.leb_spec qty (quantity_available r)); [lia | reflexivity].
Qed.

Lemma process_purchase_rejects (address : option string) :
  quantity_available r < qty ->
  process_purchase (Some user_id) (Some id) (Some qty) address db
  = (Json false "Insufficient quantity available", db).
Proof.
  intros Hlt. unfold process_purchase, select_item_named. rewrite Hitem.
  destruct (Z.leb_spec qty (quantity_available r)); [lia | reflexivity].
Qed.

End Purchase.

Lemma accepted_purchased id user_id qty db r address :
  marketplace_items db !! id = Some r ->
  purchased id user_id qty r db
    (update_quantity qty id
       (insert_purchase
          (mk_purchase id user_id (seller_id r) qty
                       (inject_Z qty * price r)%Q address) db)).
Proof.
  intros Hitem. split.
  - now apply stock_after_update.
  - eexists. split; [reflexivity | now simpl].
Qed.

(** C1.  A purchase of at most the available quantity succeeds through
    either handler; afterwards the listing's stock is the former stock minus
    the requested quantity, and exactly one transaction has been appended,
    whose total amount is quantity times price. *)
Theorem purchase_within_stock
    (id user_id qty : Z) (address : option string)
    (db : database) (r : item_row) :
  marketplace_items db !! id = Some r ->
  qty <= quantity_available r ->
  (exists db',
      purchase_item id (Some user_id) (Some qty) db = (successful, db')
      /\ purchased id user_id qty r db db')
  /\ (exists msg db',
         process_purchase (Some user_id) (Some id) (Some qty) address db
         = (Json true msg, db')
         /\ purchased id user_id qty r db db').
Proof.
  intros Hitem Hle. split.
  - eexists. split; [exact (purchase_item_accepts _ user_id _ _ _ Hitem Hle) |].
    now apply accepted_purchased.
  - do 2 eexists.
    split; [exact (process_purchase_accepts _ user_id _ _ _ Hitem address Hle) |].
    now apply accepted_purchased.
Qed.

Lemma purchase_within_stock_witness :
  marketplace_items sample_db !! 1 = Some sample_item
  /\ 3 <= quantity_available sample_item
  /\ (exists db',
      purchase_item 1 (Some 2) (Some 3) sample_db = (successful, db')
      /\ purchased 1 2 3 sample_item sample_db db')
  /\ (exists msg db',
         process_purchase (Some 2) (Some 1) (Some 3) None sample_db
         = (Json true msg, db')
         /\ purchased 1 2 3 sample_item sample_db db').
Proof.
  split; [reflexivity | split; [simpl; lia |]].
  apply (purchase_within_stock 1 2 3 None sample_db sample_item).
  - reflexivity.
  - simpl. lia.
Defined.

(** C2.  A purchase of more than the available quantity is rejected as
    insufficient stock by either handler and the store is returned as it
    was: same stock, no transaction appended. *)
Theorem purchase_beyond_stock
    (id user_id qty : Z) (address : option string)
    (db : database) (r : item_row) :
  marketplace_items db !! id = Some r ->
  quantity_available r < qty ->
  purchase_item id (Some user_id) (Some qty) db = (insufficient, db)
  /\ process_purchase (Some user_id) (Some id) (Some qty) address db
     = (Json false "Insufficient quantity available", db).
Proof.
  intros Hitem Hlt. split.
  - exact (purchase_item_rejects _ user_id _ _ _ Hitem Hlt).
  - exact (process_purchase_rejects _ user_id _ _ _ Hitem address Hlt).
Qed.

(** The worked example of the specification: five units at price ten; a
    purchase of three succeeds, leaves two and records an amount of thirty;
    a second purchase of three is rejected and two units remain. *)
Example purchase_three_then_three :
  exists db1,
    purchase_item 1 (Some 2) (Some 3) sample_db = (successful, db1)
    /\ stock_of 1 db1 = Some 2
    /\ map total_amount (purchase_transactions db1) = [(3 * 10)%Q]
    /\ purchase_item 1 (Some 2) (Some 3) db1 = (insufficient, db1).
Proof.
  eexists. split; [reflexivity |]. split; [reflexivity |].
  split; reflexivity.
Qed.

Lemma purchase_beyond_stock_witness :
  marketplace_items sample_db !! 1 = Some sample_item
  /\ quantity_available sample_item < 6
  /\ purchase_item 1 (Some 2) (Some 6) sample_db = (insufficient, sample_db)
  /\ process_purchase (Some 2) (Some 1) (Some 6) None sample_db
     = (Json false "Insufficient quantity available", sample_db).
Proof.
  split; [reflexivity | split; [simpl; lia |]].
  apply (purchase_beyond_stock 1 2 6 None sample_db sample_item).
  - reflexivity.
  - simpl. lia.
Defined.

(** ** The stock invariant *)










(** ** Purchases that run at the same time, and one after the other *)

(** A call that runs its four statements without another call in between
    does what [purchase_item] does. *)
Lemma run_alone id user_id qty db :
  let '(resp, db') := purchase_item id (Some user_id) (Some qty) db in
  run [0; 0; 0; 0]%nat [start_call id user_id qty] db
  = ([mk_call id user_id qty (Finished resp)], db').
Proof.
  unfold purchase_item. simpl. unfold step_call at 1. simpl.
  destruct (select_item id db) as [[[seller p] available] |]; [| reflexivity].
  destruct (qty <=? available); reflexivity.
Qed.

(** C4 as stated fails, twice over.  Two calls for the whole stock of five
    whose SELECTs both run before either UPDATE are both accepted: two
    transactions are recorded and the stock ends at minus five.  And for a
    listing with no stock, calls for zero units are all accepted even when
    served one after the other. *)
Lemma concurrent_purchases_oversell :
  (stock_of 1 sample_db = Some 5
   /\ exists db',
        run [0; 1; 0; 0; 0; 1; 1; 1]%nat
            [start_call 1 2 5; start_call 1 3 5] sample_db
        = ([mk_call 1 2 5 (Finished successful);
            mk_call 1 3 5 (Finished successful)], db')
        /\ stock_of 1 db' = Some (-5)
        /\ length (purchase_transactions db') = 2%nat)
  /\ (stock_of 1 (update_quantity 5 1 sample_db) = Some 0
      /\ exists db',
           serve (purchases 1 0 [(2, ViaBuy); (3, ViaBuy)])
                 (update_quantity 5 1 sample_db)
           = ([successful; successful], db')
           /\ length (purchase_transactions db') = 2%nat).
Proof.
  split.
  - split; [reflexivity |].
    eexists. split; [vm_compute; reflexivity |].
    split; reflexivity.
  - split; [reflexivity |].
    eexists. split; [vm_compute; reflexivity | reflexivity].
Qed.

Lemma take_purchases k id qty (buyers : list (Z * route)) :
  take k (purchases id qty buyers) = purchases id qty (take k buyers).
Proof. apply firstn_map. Qed.

Lemma serve_purchases_cons id qty b (others : list (Z * route)) db :
  serve (purchases id qty (b :: others)) db
  = let '(resp, db1) := handle (purchase_via id qty b) db in
    let '(rs, db2) := serve (purchases id qty others) db1 in
    (resp :: rs, db2).
Proof. reflexivity. Qed.

(** Either route rejects a request beyond the stock and leaves the store
    alone. *)
Lemma purchase_via_rejects id qty r b db :
  marketplace_items db !! id = Some r ->
  quantity_available r < qty ->
  exists resp, handle (purchase_via id qty b) db = (resp, db) /\ rejected resp.
Proof.
  intros Hitem Hlt. destruct b as [u [| a]]; unfold purchase_via; cbn [fst snd handle].
  - rewrite (purchase_item_rejects _ u _ _ _ Hitem Hlt).
    eexists. split; [reflexivity | now left].
  - rewrite (process_purchase_rejects _ u _ _ _ Hitem a Hlt).
    eexists. split; [reflexivity | now right].
Qed.

(** Either route accepts a request within the stock. *)
Lemma purchase_via_accepts id qty r b db :
  marketplace_items db !! id = Some r ->
  qty <= quantity_available r ->
  exists resp t,
    handle (purchase_via id qty b) db
    = (resp, update_quantity qty id (insert_purchase t db))
    /\ accepted resp
    /\ purchased id b.1 qty r db
         (update_quantity qty id (insert_purchase t db)).
Proof.
  intros Hitem Hle. destruct b as [u [| a]]; unfold purchase_via; cbn [fst snd handle].
  - rewrite (purchase_item_accepts _ u _ _ _ Hitem Hle).
    do 2 eexists. split; [reflexivity |]. split; [now left |].
    now apply accepted_purchased.
  - rewrite (process_purchase_accepts _ u _ _ _ Hitem a Hle).
    do 2 eexists. split; [reflexivity |]. split; [right; eauto |].
    now apply accepted_purchased.
Qed.

Lemma serve_rejected id qty r (others : list (Z * route)) db :
  marketplace_items db !! id = Some r ->
  quantity_available r < qty ->
  exists rest,
    serve (purchases id qty others) db = (rest, db)
    /\ Forall rejected rest /\ length rest = length others.
Proof.
  intros Hitem Hlt. induction others as [| b others IH].
  - exists []. repeat split. constructor.
  - destruct IH as (rest & Hrest & Hrej & Hlen).
    destruct (purchase_via_rejects id qty r b db Hitem Hlt)
      as (resp & Hresp & Hr).
    exists (resp :: rest). rewrite serve_purchases_cons, Hresp, Hrest.
    split; [reflexivity |]. split; [now constructor | simpl; now f_equal].
Qed.

Lemma serve_sells_once id qty r buyer (others : list (Z * route)) db :
  marketplace_items db !! id = Some r ->
  quantity_available r = qty ->
  0 < qty ->
  exists first rest db',
    serve (purchases id qty (buyer :: others)) db = (first :: rest, db')
    /\ accepted first
    /\ Forall rejected rest /\ length rest = length others
    /\ purchased id buyer.1 qty r db db'
    /\ stock_of id db' = Some 0.
Proof.
  intros Hitem Hq Hpos.
  destruct (purchase_via_accepts id qty r buyer db Hitem)
    as (first & t & Hfirst & Hacc & Hpur); [lia |].
  pose proof (stock_after_update id qty db r Hitem t) as Hstock.
  unfold stock_of in Hstock.
  destruct (marketplace_items (update_quantity qty id _) !! id)
    as [r1 |] eqn:Hitem1; [| discriminate].
  injection Hstock as Hr1.
  destruct (serve_rejected id qty r1 others _ Hitem1)
    as (rest & Hrest & Hrej & Hlen); [lia |].
  exists first, rest. eexists.
  rewrite serve_purchases_cons, Hfirst, Hrest.
  split; [reflexivity |]. split; [exact Hacc |]. split; [exact Hrej |].
  split; [exact Hlen |]. split; [exact Hpur |].
  unfold stock_of. rewrite Hitem1. simpl. f_equal. lia.
Qed.

(** C4, amended.  When the purchase calls for a listing holding [qty > 0]
    units, each requesting [qty] through either route, are served one after
    the other, exactly the first is accepted (one transaction, stock lowered
    to zero), every later call is rejected as insufficient stock, and the
    stock is non-negative after every call.  (Nothing in the source makes
    the four statements of a call indivisible.) *)
Theorem serial_purchases_sell_once
    (id qty : Z) (buyer : Z * route) (others : list (Z * route))
    (db : database) (r : item_row) :
  marketplace_items db !! id = Some r ->
  quantity_available r = qty ->
  0 < qty ->
  (exists first rest db',
      serve (purchases id qty (buyer :: others)) db = (first :: rest, db')
      /\ accepted first
      /\ Forall rejected rest /\ length rest = length others
      /\ purchased id buyer.1 qty r db db'
      /\ stock_of id db' = Some 0)
  /\ forall k, exists stock,
       stock_of id (serve (take k (purchases id qty (buyer :: others))) db).2
       = Some stock /\ 0 <= stock.
Proof.
  intros Hitem Hq Hpos. split.
  - now apply serve_sells_once.
  - intros [| k].
    + exists qty. simpl. unfold stock_of. rewrite Hitem. simpl.
      split; [now f_equal | lia].
    + exists 0. split; [| lia].
      rewrite take_purchases.
      change (take (S k) (buyer :: others)) with (buyer :: take k others).
      destruct (serve_sells_once id qty r buyer (take k others) db
                  Hitem Hq Hpos) as (first & rest & db' & Hrun & Hrest).
      rewrite Hrun. apply Hrest.
Qed.

Lemma serial_purchases_sell_once_witness :
  marketplace_items sample_db !! 1 = Some sample_item
  /\ quantity_available sample_item = 5
  /\ 0 < 5
  /\ (exists first rest db',
        serve (purchases 1 5 [(2, ViaBuy); (3, ViaBuyItems None); (4, ViaBuy)])
              sample_db
        = (first :: rest, db')
        /\ accepted first
        /\ Forall rejected rest /\ length rest = 2%nat
        /\ purchased 1 2 5 sample_item sample_db db'
        /\ stock_of 1 db' = Some 0)
  /\ forall k, exists stock,
       stock_of 1 (serve (take k (purchases 1 5 [(2, ViaBuy);
                                                 (3, ViaBuyItems None);
                                                 (4, ViaBuy)])) sample_db).2
       = Some stock /\ 0 <= stock.
Proof.
  split; [reflexivity | split; [reflexivity | split; [lia |]]].
  apply (serial_purchases_sell_once 1 5 (2, ViaBuy)
           [(3, ViaBuyItems None); (4, ViaBuy)] sample_db sample_item).
  - reflexivity.
  - reflexivity.
  - lia.
Defined.

(** ** Requests for zero or fewer units *)

(** C10 as stated fails: a listing created with a negative quantity exists,
    and a request for zero units of it is rejected. *)
Lemma zero_units_rejected_below_zero_stock :
  exists db,
    handle (ReqSellItem (Some 7) POST negative_form) empty_db
    = (Redirect "dashboard"
                (Some ("Item listed for sale successfully!", "success")), db)
    /\ stock_of 1 db = Some (-5)
    /\ purchase_item 1 (Some 2) (Some 0) db = (insufficient, db)
    /\ process_purchase (Some 2) (Some 1) (Some 0) None db
       = (Json false "Insufficient quantity available", db).
Proof.
  eexists. split; [reflexivity |]. split; [reflexivity |].
  split; reflexivity.
Qed.

(** C10, amended.  The sufficiency test is [quantity <= available] and
    nothing else: a request for zero or fewer units of a listing whose
    stock is not below the requested quantity (every listing with
    non-negative stock is one) is accepted by either handler, one
    transaction is appended, and the stock changes by minus the quantity,
    so it does not decrease. *)
Theorem nonpositive_quantity_accepted
    (id user_id qty : Z) (address : option string)
    (db : database) (r : item_row) :
  marketplace_items db !! id = Some r ->
  qty <= 0 ->
  qty <= quantity_available r ->
  (exists db',
      purchase_item id (Some user_id) (Some qty) db = (successful, db')
      /\ purchased id user_id qty r db db'
      /\ forall stock, stock_of id db' = Some stock ->
                       quantity_available r <= stock)
  /\ (exists msg db',
         process_purchase (Some user_id) (Some id) (Some qty) address db
         = (Json true msg, db')
         /\ purchased id user_id qty r db db'
         /\ forall stock, stock_of id db' = Some stock ->
                          quantity_available r <= stock).
Proof.
  intros Hitem Hneg Hle.
  assert (Hup : forall t stock,
             stock_of id (update_quantity qty id (insert_purchase t db))
             = Some stock -> quantity_available r <= stock).
  { intros t stock. rewrite (stock_after_update id qty db r Hitem).
    intros [= <-]. lia. }
  split.
  - eexists. split; [exact (purchase_item_accepts _ user_id _ _ _ Hitem Hle) |].
    split; [now apply accepted_purchased | apply Hup].
  - do 2 eexists.
    split; [exact (process_purchase_accepts _ user_id _ _ _ Hitem address Hle) |].
    split; [now apply accepted_purchased | apply Hup].
Qed.

Lemma nonpositive_quantity_accepted_witness :
  marketplace_items sample_db !! 1 = Some sample_item
  /\ -3 <= 0
  /\ -3 <= quantity_available sample_item
  /\ (exists db',
        purchase_item 1 (Some 2) (Some (-3)) sample_db = (successful, db')
        /\ purchased 1 2 (-3) sample_item sample_db db'
        /\ forall stock, stock_of 1 db' = Some stock ->
                         quantity_available sample_item <= stock)
  /\ (exists msg db',
         process_purchase (Some 2) (Some 1) (Some (-3)) None sample_db
         = (Json true msg, db')
         /\ purchased 1 2 (-3) sample_item sample_db db'
         /\ forall stock, stock_of 1 db' = Some stock ->
                          quantity_available sample_item <= stock).
Proof.
  split; [reflexivity | split; [lia | split; [simpl; lia |]]].
  apply (nonpositive_quantity_accepted 1 2 (-3) None sample_db sample_item).
  - reflexivity.
  - lia.
  - simpl. lia.
Defined.

End FarmComSpec.

(** * Properties of the crop-yield encoder, cleaner, predictor and bundle *)
Module CropYieldSpec.
Import CropYield.

(** ** The label encoder *)
Section Encoder.
Import LabelEncoder DataPreprocessor.

Lemma index_of_None (s : string) (l : list string) :
  index_of s l = None <-> s ∉ l.
Proof.
  induction l as [| x l IH]; simpl.
  - split; [intros _; apply not_elem_of_nil | reflexivity].
  - rewrite not_elem_of_cons. destruct (String.eqb_spec s x) as [-> | Hne].
    + split; [discriminate | intros [Hx _]; now destruct Hx].
    + destruct (index_of s l); simpl.
      * split; [discriminate |]. intros [_ Hl]. now apply IH in Hl.
      * split; [| reflexivity]. intros _. split; [exact Hne | now apply IH].
Qed.

Lemma elem_of_insert_label (x s : string) (l : list string) :
  x ∈ insert_label s l <-> x = s \/ x ∈ l.
Proof.
  induction l as [| y l IH]; simpl.
  - rewrite list_elem_of_singleton. pose proof (not_elem_of_nil x). tauto.
  - destruct (String.compare s y) eqn:Hc.
    + apply String.compare_eq_iff in Hc. subst y.
      rewrite elem_of_cons. tauto.
    + rewrite !elem_of_cons. tauto.
    + rewrite !elem_of_cons, IH. tauto.
Qed.

(** [classes_] holds exactly the labels given to [fit]. *)
Lemma elem_of_unique (x : string) (l : list string) :
  x ∈ unique l <-> x ∈ l.
Proof.
  unfold unique. induction l as [| y l IH]; simpl; [reflexivity |].
  rewrite elem_of_insert_label, IH, elem_of_cons. reflexivity.
Qed.

Lemma mapR_label_of (y : list cell) (ls : list string) :
  mapR label_of y = Ok ls -> y = map Str ls.
Proof.
  revert ls. induction y as [| v y IH]; simpl; intros ls H.
  - now injection H as <-.
  - destruct v as [q | s |]; simpl in H; try discriminate.
    unfold mbind, result_bind in H. simpl in H.
    destruct (mapR label_of y) as [ls' |]; simpl in H; [| discriminate].
    injection H as <-. simpl. f_equal. now apply IH.
Qed.

(** After [fit], the labels without a code are those absent from the
    fitted column. *)
Lemma unseen_after_fit (y : list cell) (e e' : LabelEncoder.t) (l : string) :
  fit y e = Ok e' -> (unseen l e' <-> Str l ∉ y).
Proof.
  unfold fit, mbind, result_bind. simpl.
  destruct (mapR label_of y) as [ls |] eqn:Hls; simpl; [| discriminate].
  intros [= <-]. unfold unseen. simpl.
  apply mapR_label_of in Hls. subst y.
  rewrite elem_of_unique. rewrite list_elem_of_fmap.
  split.
  - intros Hn (s & [= <-] & Hs). now apply Hn.
  - intros Hn Hs. apply Hn. now exists l.
Qed.

(** One field of [encode_single_prediction]: a code always comes back, and
    it is 0 for a label without a code. *)
Lemma encoded_or_default (enc : LabelEncoder.t) (l : string) :
  exists z, except_ValueError (transform_single enc l) 0 = Ok z
            /\ (unseen l enc -> z = 0).
Proof.
  unfold transform_single, transform, unseen, mbind, result_bind.
  destruct (classes_ enc) as [classes |]; simpl.
  - destruct (index_of l classes) as [i |] eqn:Hi; simpl.
    + exists i. split; [reflexivity |]. intros Hun.
      apply index_of_None in Hun. congruence.
    + exists 0. split; reflexivity.
  - exists 0. split; reflexivity.
Qed.

(** [encode_single_prediction] returns for every input. *)
Lemma encode_single_prediction_total (p : DataPreprocessor.t)
    (crop state : string) (season : option string) :
  exists codes, encode_single_prediction p crop state season = Ok codes.
Proof.
  destruct (encoded_or_default (crop_encoder p) crop) as (c & Hc & _).
  destruct (encoded_or_default (state_encoder p) state) as (s & Hs & _).
  unfold encode_single_prediction. rewrite Hc. cbn [mbind result_bind bind].
  rewrite Hs. cbn [mbind result_bind bind].
  destruct (truthy season) as [l |].
  - destruct (encoded_or_default (season_encoder p) l) as (n & Hn & _).
    rewrite Hn. eexists. reflexivity.
  - eexists. reflexivity.
Qed.

(** C5.  [encode_single_prediction] never raises: it returns three codes
    whatever the labels, and the code of each label that was not present
    when its encoder was fitted is the sentinel 0. *)
Theorem unseen_label_encodes_to_zero
    (self : DataPreprocessor.t) (crop state : string)
    (season : option string) :
  exists crop_encoded state_encoded season_encoded,
    encode_single_prediction self crop state season
    = Ok (crop_encoded, state_encoded, season_encoded)
    /\ (unseen crop (crop_encoder self) -> crop_encoded = 0)
    /\ (unseen state (state_encoder self) -> state_encoded = 0)
    /\ (forall l, season = Some l -> unseen l (season_encoder self) ->
                  season_encoded = 0).
Proof.
  destruct (encoded_or_default (crop_encoder self) crop) as (c & Hc & Hc0).
  destruct (encoded_or_default (state_encoder self) state) as (s & Hs & Hs0).
  assert (exists n,
             match truthy season with
             | Some l =>
               except_ValueError (transform_single (season_encoder self) l) 0
             | None => Ok 0
             end = Ok n
             /\ (forall l, season = Some l -> unseen l (season_encoder self) ->
                           n = 0)) as (n & Hn & Hn0).
  { destruct season as [l |]; simpl.
    - destruct (String.eqb l "").
      + exists 0. split; [reflexivity | reflexivity].
      + destruct (encoded_or_default (season_encoder self) l) as (n & Hn & Hn0).
        exists n. split; [exact Hn |]. intros l' [= <-]. exact Hn0.
    - exists 0. split; [reflexivity | discriminate]. }
  exists c, s, n. unfold encode_single_prediction.
  rewrite Hc. simpl. rewrite Hs. simpl. rewrite Hn. simpl.
  repeat split; assumption.
Qed.

End Encoder.

(** ** Batch encoding *)
Section Batch.
Import LabelEncoder DataPreprocessor Samples.

Lemma mapR_Forall2 {A B} (f : A -> result B) (l : list A) (ys : list B) :
  mapR f l = Ok ys -> Forall2 (fun x y => f x = Ok y) l ys.
Proof.
  revert ys. induction l as [| x l IH]; simpl; intros ys H.
  - injection H as <-. constructor.
  - unfold mbind, result_bind in H.
    destruct (f x) as [y |] eqn:Hx; simpl in H; [| discriminate].
    destruct (mapR f l) as [ys' |]; simpl in H; [| discriminate].
    injection H as <-. constructor; [exact Hx | now apply IH].
Qed.

(** When [transform] accepts a whole column, each row carries the code the
    single-record path gives its label. *)
Lemma transform_rowwise (enc : LabelEncoder.t) (vs : list cell)
    (codes : list Z) :
  transform enc vs = Ok codes ->
  Forall2 (fun v z => exists l, v = Str l /\ transform_single enc l = Ok z)
          vs codes.
Proof.
  unfold transform, transform_single, transform.
  destruct (classes_ enc) as [classes |]; [| discriminate].
  intros H. apply mapR_Forall2 in H.
  induction H as [| v z vs codes Hv _ IH]; constructor; [| exact IH].
  destruct v as [q | l |]; simpl in Hv; try discriminate.
  exists l. split; [reflexivity |]. simpl. unfold mbind, result_bind. simpl.
  destruct (index_of l classes); simpl in *; [| discriminate].
  now injection Hv as <-.
Qed.

(** C6 at its failing input.  The encoders are fitted on the crops Rice and
    Wheat, so the single-record path encodes Wheat as 1 and the unseen Maize
    as 0.  For the batch [Wheat; Maize], [encode_categorical_features] writes
    0 into the whole [Crop_Encoded] column: the Wheat row loses its code, and
    [predict_batch] predicts from code 0 where [predict] on the same record
    predicts from code 1. *)
Theorem batch_fallback_overwrites_known_rows :
  is_fitted fitted_preprocessor = true
  /\ classes_ (crop_encoder fitted_preprocessor) = Some ["Rice"; "Wheat"]
  /\ encode_single_prediction fitted_preprocessor "Wheat" "Assam" None
     = Ok (1, 0, 0)
  /\ encode_single_prediction fitted_preprocessor "Maize" "Assam" None
     = Ok (0, 0, 0)
  /\ (encoded ← (encode_categorical_features batch_table
                    fitted_preprocessor).1;
      get_column "Crop_Encoded" encoded) = Ok [Num 0; Num 0]
  /\ YieldPredictor.predict crop_code_predictor wheat_request = Some 1%Q
  /\ (match (YieldPredictor.predict_batch crop_code_predictor
               (Ok batch_table)).1 with
      | Some out => get_column "Predicted_Yield" out
      | None => Raise KeyError
      end) = Ok [Num 0; Num 0].
Proof.
  repeat split; vm_compute; reflexivity.
Qed.

(** A table without a [Season] column yields no [Season_Encoded] feature,
    whatever the bundle was fitted with: a bundle fitted with the season
    feature then rejects the batch, and [predict_batch] returns [None]. *)
Lemma batch_without_season :
  (encoded ← (encode_categorical_features batch_table
                 fitted_preprocessor).1;
   '(_, _, available_features) ← prepare_features encoded;
   Ok available_features) = Ok base_feature_columns
  /\ (YieldPredictor.predict_batch season_predictor (Ok batch_table)).1
     = None.
Proof. split; vm_compute; reflexivity. Qed.

(** [prepare_features] reads the [Yield] column: a table to predict for
    that has none makes [predict_batch] return [None]. *)
Lemma batch_needs_yield_column :
  (YieldPredictor.predict_batch crop_code_predictor
     (Ok (select_columns ["Crop"; "State"; "Area"; "Production";
                          "Annual_Rainfall"; "Fertilizer"; "Pesticide"]
                         batch_table))).1 = None.
Proof. vm_compute. reflexivity. Qed.

End Batch.

(** ** The model bundle on disk *)
Section Bundle.
Import Samples.

Lemma save_model_writes (self : ModelTrainer.t) (path : string)
    (fs fs' : filesystem) :
  ModelTrainer.save_model self path fs = (true, fs') ->
  fs' !! path
  = Some (Pickle (<["model" := ModelTrainer.model self]>
                    (<["preprocessor" := ModelTrainer.preprocessor self]>
                       (<["feature_names" := ModelTrainer.feature_names self]>
                          ∅)))).
Proof.
  unfold ModelTrainer.save_model.
  destruct (ModelTrainer.is_None _); [discriminate |].
  destruct (makedirs _); [| discriminate].
  intros [= <-]. unfold joblib_dump. apply lookup_insert_eq.
Qed.

(** [save_model] succeeds for a trained model and a path with a directory
    part. *)
Lemma save_model_succeeds (self : ModelTrainer.t) (path : string)
    (fs : filesystem) :
  ModelTrainer.model self <> PyNone ->
  dirname path <> "" ->
  exists fs', ModelTrainer.save_model self path fs = (true, fs').
Proof.
  intros Hm Hd. unfold ModelTrainer.save_model, makedirs.
  destruct (ModelTrainer.model self); try (now destruct Hm); simpl;
    (destruct (String.eqb_spec (dirname path) ""); [now destruct Hd |]);
    eexists; reflexivity.
Qed.

(** A bare file name has no directory part: [os.makedirs('')] raises and
    [save_model] reports failure without writing. *)
Lemma save_model_bare_file_name (fs : filesystem) :
  ModelTrainer.save_model trained "yield_model.pkl" fs = (false, fs).
Proof. reflexivity. Qed.

(** C8.  After a successful [save_model], loading the same path (through
    [ModelTrainer.load_model] or [YieldPredictor.load_model], into any
    object) succeeds and yields the saved model, preprocessor and feature
    names. *)
Theorem save_then_load (self : ModelTrainer.t) (path : string)
    (fs fs' : filesystem) :
  ModelTrainer.save_model self path fs = (true, fs') ->
  (forall other : ModelTrainer.t,
      exists loaded,
        ModelTrainer.load_model other path fs' = (true, loaded)
        /\ loaded = self)
  /\ (forall other : YieldPredictor.t,
         exists loaded,
           YieldPredictor.load_model other path fs' = (true, loaded)
           /\ YieldPredictor.model loaded = ModelTrainer.model self
           /\ YieldPredictor.preprocessor loaded
              = ModelTrainer.preprocessor self
           /\ YieldPredictor.feature_names loaded
              = ModelTrainer.feature_names self
           /\ YieldPredictor.is_loaded loaded = true).
Proof.
  intros Hsave. apply save_model_writes in Hsave. split.
  - intros other. eexists.
    unfold ModelTrainer.load_model, joblib_load. rewrite Hsave.
    unfold getitem. simpl_map. simpl.
    split; [reflexivity | now destruct self].
  - intros other. eexists.
    unfold YieldPredictor.load_model, exists_, joblib_load. rewrite Hsave.
    unfold getitem. simpl_map. simpl.
    repeat split.
Qed.

Lemma save_then_load_witness :
  exists fs',
    ModelTrainer.save_model trained model_path ∅ = (true, fs')
    /\ (forall other : ModelTrainer.t,
           exists loaded,
             ModelTrainer.load_model other model_path fs' = (true, loaded)
             /\ loaded = trained)
    /\ (forall other : YieldPredictor.t,
           exists loaded,
             YieldPredictor.load_model other model_path fs' = (true, loaded)
             /\ YieldPredictor.model loaded = ModelTrainer.model trained
             /\ YieldPredictor.preprocessor loaded
                = ModelTrainer.preprocessor trained
             /\ YieldPredictor.feature_names loaded
                = ModelTrainer.feature_names trained
             /\ YieldPredictor.is_loaded loaded = true).
Proof.
  eexists. split; [reflexivity |].
  apply (save_then_load trained model_path ∅). reflexivity.
Defined.

End Bundle.

(** ** Data cleaning *)
Section Cleaning.
Import DataPreprocessor Samples.

Local Abbreviation nrows df := (length (rows df)).

Lemma bind_Ok {A B} (r : result A) (k : A -> result B) (b : B) :
  (x ← r; k x) = Ok b -> exists a, r = Ok a /\ k a = Ok b.
Proof.
  unfold mbind, result_bind. destruct r as [a |]; simpl; [| discriminate].
  intros H. now exists a.
Qed.

(** One round of the outlier loop never adds a row. *)
Lemma remove_outliers_rows (c : string) (df df' : DataFrame) :
  remove_outliers c df = Ok df' -> (nrows df' <= nrows df)%nat.
Proof.
  unfold remove_outliers. destruct (has_column c df).
  - intros H. apply bind_Ok in H as (Q1 & _ & H).
    apply bind_Ok in H as (Q3 & _ & H).
    destruct (iqr_bounds Q1 Q3) as [lower upper].
    injection H as <-. simpl. apply filter_length_le.
  - now intros [= <-].
Qed.

Lemma remove_outliers_all_raise (cols : list string) (e : exn) :
  fold_left (fun acc col => cleaned ← acc; remove_outliers col cleaned)
            cols (Raise e) = Raise e.
Proof. induction cols as [| c cols IH]; [reflexivity | exact IH]. Qed.

Lemma remove_outliers_all_app (l1 l2 : list string) (df out : DataFrame) :
  remove_outliers_all (l1 ++ l2) df = Ok out ->
  exists mid, remove_outliers_all l1 df = Ok mid
              /\ remove_outliers_all l2 mid = Ok out.
Proof.
  unfold remove_outliers_all. rewrite fold_left_app.
  destruct (fold_left _ l1 (Ok df)) as [mid | e].
  - intros H. now exists mid.
  - now rewrite remove_outliers_all_raise.
Qed.

Lemma remove_outliers_all_snoc (l : list string) (c : string)
    (df mid : DataFrame) :
  remove_outliers_all l df = Ok mid ->
  remove_outliers_all (l ++ [c]) df = remove_outliers c mid.
Proof.
  unfold remove_outliers_all. rewrite fold_left_app. now intros ->.
Qed.

Lemma remove_outliers_all_rows (cols : list string) (df out : DataFrame) :
  remove_outliers_all cols df = Ok out -> (nrows out <= nrows df)%nat.
Proof.
  revert out. induction cols as [| c cols IH] using rev_ind; intros out H.
  - now injection H as <-.
  - destruct (remove_outliers_all_app _ _ _ _ H) as (mid & Hmid & _).
    rewrite (remove_outliers_all_snoc _ _ _ _ Hmid) in H.
    apply remove_outliers_rows in H. specialize (IH mid Hmid). lia.
Qed.

(** Every round of a loop that completes starts from a table and leaves one
    with no more rows. *)
Lemma remove_outliers_all_steps (cols : list string) (df out : DataFrame) :
  remove_outliers_all cols df = Ok out ->
  forall k, exists before after,
    remove_outliers_all (take k cols) df = Ok before
    /\ remove_outliers_all (take (S k) cols) df = Ok after
    /\ (nrows after <= nrows before)%nat.
Proof.
  intros H k. destruct (cols !! k) as [c |] eqn:Hk.
  - rewrite <- (take_drop (S k) cols) in H.
    destruct (remove_outliers_all_app _ _ _ _ H) as (after & Hafter & _).
    rewrite (take_S_r _ _ _ Hk) in Hafter |- *.
    destruct (remove_outliers_all_app _ _ _ _ Hafter) as (before & Hb & _).
    exists before, after. split; [exact Hb |]. split; [exact Hafter |].
    rewrite (remove_outliers_all_snoc _ _ _ _ Hb) in Hafter.
    now apply remove_outliers_rows in Hafter.
  - apply lookup_ge_None in Hk.
    rewrite !take_ge by lia. exists out, out. auto.
Qed.

Lemma dropna_rows (cols : list string) (df df' : DataFrame) :
  dropna cols df = Ok df' -> (nrows df' <= nrows df)%nat.
Proof.
  unfold dropna. destruct (forallb _ cols); [| discriminate].
  intros [= <-]. simpl. apply filter_length_le.
Qed.

Lemma fillna_rows (c : string) (v : cell) (df : DataFrame) :
  nrows (fillna c v df) = nrows df.
Proof. unfold fillna. simpl. apply length_map. Qed.

Lemma fill_median_rows (c : string) (df df' : DataFrame) :
  fill_median c df = Ok df' -> nrows df' = nrows df.
Proof.
  unfold fill_median. destruct (has_column c df).
  - intros H. apply bind_Ok in H as (m & _ & H). injection H as <-.
    destruct m; [apply fillna_rows | reflexivity].
  - now intros [= <-].
Qed.

Lemma numeric_values_total (vs : list cell) :
  Forall not_text vs -> exists qs, numeric_values vs = Ok qs.
Proof.
  induction 1 as [| v vs Hv _ [qs IH]]; [now exists [] |].
  destruct v as [q | s |]; simpl; [| destruct Hv |].
  - rewrite IH. eexists. reflexivity.
  - now exists qs.
Qed.

Lemma column_quantile_total (p : Q) (c : string) (df : DataFrame) :
  has_column c df = true -> numeric_column c df ->
  exists o, column_quantile p c df = Ok o.
Proof.
  intros Hc Hnum. unfold column_quantile, get_column. rewrite Hc.
  unfold mbind, result_bind. cbn [bind].
  destruct (numeric_values_total (map (cell_at c) (rows df))) as [qs ->].
  { apply Forall_map. exact Hnum. }
  eexists. reflexivity.
Qed.

Lemma numeric_column_filter (c : string) (cols : list string)
    (f : gmap string cell -> bool) (df : DataFrame) :
  numeric_column c df ->
  numeric_column c (mk_df cols (List.filter f (rows df))).
Proof.
  unfold numeric_column. cbn [rows]. rewrite !List.Forall_forall.
  intros H r Hr. apply List.filter_In in Hr. now apply H.
Qed.

Lemma numeric_column_fillna (c c' : string) (v : cell) (df : DataFrame) :
  not_text v \/ c <> c' ->
  numeric_column c df -> numeric_column c (fillna c' v df).
Proof.
  unfold numeric_column, fillna. cbn [rows]. intros Hv H.
  apply Forall_map. eapply List.Forall_impl; [| exact H].
  intros r Hr. cbn beta. destruct (isna (cell_at c' r)); [| exact Hr].
  unfold cell_at. destruct (decide (c' = c)) as [-> | Hne].
  - rewrite lookup_insert_eq. simpl.
    destruct Hv as [Hv | Hv]; [exact Hv | now destruct Hv].
  - rewrite lookup_insert_ne by exact Hne. exact Hr.
Qed.

Lemma remove_outliers_total (c c' : string) (df : DataFrame) :
  numeric_column c df -> numeric_column c' df ->
  exists df', remove_outliers c df = Ok df' /\ numeric_column c' df'.
Proof.
  intros Hc Hc'. unfold remove_outliers.
  destruct (has_column c df) eqn:Hhas; [| now exists df].
  destruct (column_quantile_total (1 # 4) c df Hhas Hc) as [Q1 ->].
  destruct (column_quantile_total (3 # 4) c df Hhas Hc) as [Q3 ->].
  unfold mbind, result_bind. cbn [bind].
  destruct (iqr_bounds Q1 Q3) as [lower upper].
  eexists. split; [reflexivity |]. now apply numeric_column_filter.
Qed.

Lemma fill_median_total (c c' : string) (df : DataFrame) :
  numeric_column c df -> numeric_column c' df ->
  exists df', fill_median c df = Ok df' /\ numeric_column c' df'.
Proof.
  intros Hc Hc'. unfold fill_median.
  destruct (has_column c df) eqn:Hhas; [| now exists df].
  destruct (column_quantile_total (1 # 2) c df Hhas Hc) as [m Hm].
  unfold column_median. rewrite Hm. unfold mbind, result_bind. cbn [bind].
  eexists. split; [reflexivity |].
  destruct m; [| exact Hc']. apply numeric_column_fillna; [now left | exact Hc'].
Qed.

Lemma remove_outliers_all_total (cols all : list string) (df : DataFrame) :
  (forall c, In c cols -> In c all) ->
  numeric_table all df ->
  exists out, remove_outliers_all cols df = Ok out /\ numeric_table all out.
Proof.
  revert df. induction cols as [| c cols IH]; intros df Hsub Hnum.
  - now exists df.
  - assert (numeric_column c df) as Hc.
    { unfold numeric_table in Hnum. rewrite List.Forall_forall in Hnum.
      apply Hnum, Hsub. now left. }
    assert (exists df', remove_outliers c df = Ok df' /\ numeric_table all df')
      as (df' & Hdf' & Hnum').
    { destruct (remove_outliers_total c c df Hc Hc) as (df' & Hdf' & _).
      exists df'. split; [exact Hdf' |].
      unfold numeric_table in *. rewrite List.Forall_forall in *.
      intros c' Hc'.
      destruct (remove_outliers_total c c' df Hc (Hnum c' Hc'))
        as (df'' & Hdf'' & H''). congruence. }
    destruct (IH df') as (out & Hout & Hnout);
      [intros x Hx; apply Hsub; now right | exact Hnum' |].
    exists out. split; [| exact Hnout].
    unfold remove_outliers_all in *. cbn [fold_left].
    unfold mbind at 2, result_bind at 2. cbn [bind]. rewrite Hdf'. exact Hout.
Qed.

Lemma fill_median_table (c : string) (all : list string) (df : DataFrame) :
  In c all -> numeric_table all df ->
  exists df', fill_median c df = Ok df' /\ numeric_table all df'.
Proof.
  intros Hin Hnum. unfold numeric_table in *. rewrite List.Forall_forall in Hnum.
  pose proof (Hnum c Hin) as Hc.
  destruct (fill_median_total c c df Hc Hc) as (df' & Hdf' & _).
  exists df'. split; [exact Hdf' |]. apply List.Forall_forall. intros c' Hc'.
  destruct (fill_median_total c c' df Hc (Hnum c' Hc')) as (df'' & Hdf'' & H'').
  congruence.
Qed.

(** [clean_data] returns a table whenever the critical columns are present
    and the numeric columns hold no text. *)
Lemma clean_table_returns (d : DataFrame) :
  forallb (fun c => has_column c d) critical_columns = true ->
  numeric_table numerical_cols d ->
  exists cleaned, clean_table d = Ok cleaned.
Proof.
  intros Hcrit Hnum. unfold clean_table, dropna. rewrite Hcrit.
  unfold mbind, result_bind. cbn [bind].
  match goal with
  | |- context [fill_median _ ?d1] =>
    assert (numeric_table numerical_cols d1) as Hnum1
  end.
  { unfold numeric_table in *. eapply List.Forall_impl; [| exact Hnum].
    intros c Hc. now apply numeric_column_filter. }
  destruct (fill_median_table "Annual_Rainfall" numerical_cols _
              ltac:(simpl; tauto) Hnum1) as (d2 & -> & Hnum2).
  cbn [bind].
  destruct (fill_median_table "Fertilizer" numerical_cols _
              ltac:(simpl; tauto) Hnum2) as (d3 & -> & Hnum3).
  cbn [bind].
  destruct (fill_median_table "Pesticide" numerical_cols _
              ltac:(simpl; tauto) Hnum3) as (d4 & -> & Hnum4).
  cbn [bind].
  match goal with
  | |- context [remove_outliers_all _ ?d5] =>
    assert (numeric_table numerical_cols d5) as Hnum5
  end.
  { destruct (has_column "Season" d4); [| exact Hnum4].
    unfold numeric_table in *. rewrite List.Forall_forall in *.
    intros c Hc. apply numeric_column_fillna; [| now apply Hnum4].
    right. simpl in Hc. intuition (subst; discriminate). }
  destruct (remove_outliers_all_total numerical_cols numerical_cols _
              (fun c H => H) Hnum5) as (out & Hout & _).
  now exists out.
Qed.

(** C9.  When [clean_data] returns a table, the table entering the outlier
    loop has no more rows than the loaded data, every round of the loop
    (one per numeric column, each on the table the previous round left)
    returns a table with at most as many rows as it was given, and the
    cleaned table has at most as many rows as the original. *)
Theorem outlier_removal_monotonic
    (self self' : DataPreprocessor.t) (cleaned : DataFrame) :
  clean_data self = (Ok (Some cleaned), self') ->
  exists original filled,
    data self = Some original
    /\ (nrows filled <= nrows original)%nat
    /\ remove_outliers_all numerical_cols filled = Ok cleaned
    /\ (forall k, exists before after,
           remove_outliers_all (take k numerical_cols) filled = Ok before
           /\ remove_outliers_all (take (S k) numerical_cols) filled = Ok after
           /\ (nrows after <= nrows before)%nat)
    /\ (nrows cleaned <= nrows original)%nat.
Proof.
  unfold clean_data. destruct (data self) as [d |]; [| discriminate].
  destruct (clean_table d) as [c |] eqn:Hc; [| discriminate].
  intros [= -> _]. unfold clean_table in Hc.
  apply bind_Ok in Hc as (d1 & H1 & Hc). apply dropna_rows in H1.
  apply bind_Ok in Hc as (d2 & H2 & Hc). apply fill_median_rows in H2.
  apply bind_Ok in Hc as (d3 & H3 & Hc). apply fill_median_rows in H3.
  apply bind_Ok in Hc as (d4 & H4 & Hc). apply fill_median_rows in H4.
  set (d5 := if has_column "Season" d4
             then fillna "Season" (Str "Unknown") d4 else d4) in Hc.
  assert (nrows d5 = nrows d4) as H5.
  { unfold d5. destruct (has_column "Season" d4);
      [apply fillna_rows | reflexivity]. }
  exists d, d5. split; [reflexivity |]. split; [lia |].
  split; [exact Hc |]. split.
  - now apply remove_outliers_all_steps with cleaned.
  - apply remove_outliers_all_rows in Hc. lia.
Qed.

Lemma outlier_removal_monotonic_witness :
  clean_data survey
  = (Ok (Some survey_cleaned),
     DataPreprocessor.mk LabelEncoder.new LabelEncoder.new LabelEncoder.new
                         false (Some survey_table) (Some survey_cleaned))
  /\ nrows survey_table = 6%nat
  /\ nrows survey_cleaned = 4%nat
  /\ exists original filled,
       data survey = Some original
       /\ (nrows filled <= nrows original)%nat
       /\ remove_outliers_all numerical_cols filled = Ok survey_cleaned
       /\ (forall k, exists before after,
              remove_outliers_all (take k numerical_cols) filled = Ok before
              /\ remove_outliers_all (take (S k) numerical_cols) filled
                 = Ok after
              /\ (nrows after <= nrows before)%nat)
       /\ (nrows survey_cleaned <= nrows original)%nat.
Proof.
  assert (clean_data survey
          = (Ok (Some survey_cleaned),
             DataPreprocessor.mk LabelEncoder.new LabelEncoder.new
               LabelEncoder.new false (Some survey_table)
               (Some survey_cleaned))) as Hrun
    by (vm_compute; reflexivity).
  split; [exact Hrun |]. split; [reflexivity |]. split; [reflexivity |].
  exact (outlier_removal_monotonic _ _ _ Hrun).
Defined.

End Cleaning.

(** ** Order statistics and the confidence interval *)
Section Confidence.
Import Samples.
Local Open Scope Q_scope.













Section Interpolate.

Variable s : list Q.
Hypothesis Hsorted : StronglySorted Qle s.
Hypothesis Hne : (0 < length s)%nat.




End Interpolate.






Lemma mapR_length {A B} (f : A -> result B) (l : list A) (ys : list B) :
  mapR f l = Ok ys -> length ys = length l.
Proof.
  revert ys. induction l as [| x l IH]; simpl; intros ys H.
  - now injection H as <-.
  - unfold mbind, result_bind in H.
    destruct (f x) as [y |]; simpl in H; [| discriminate].
    destruct (mapR f l) as [ys' |]; simpl in H; [| discriminate].
    injection H as <-. simpl. f_equal. now apply IH.
Qed.

Import YieldPredictor.

Lemma mapR_total {A B} (f : A -> result B) (l : list A) :
  (forall x, In x l -> exists y, f x = Ok y) ->
  exists ys, mapR f l = Ok ys.
Proof.
  induction l as [| x l IH]; intros H; [now exists [] |].
  destruct (H x (or_introl eq_refl)) as [y Hy].
  destruct IH as [ys Hys]; [intros z Hz; apply H; now right |].
  exists (y :: ys). simpl. rewrite Hy. cbn [mbind result_bind bind].
  now rewrite Hys.
Qed.

Lemma lookup_zip_Num (names : list string) (vals : list Q) (c : string) :
  length vals = length names -> In c names ->
  exists q, (list_to_map (zip names (map Num vals)) : gmap string cell) !! c
            = Some (Num q).
Proof.
  revert vals. induction names as [| n names IH]; intros vals Hlen Hin;
    [destruct Hin |].
  destruct vals as [| v vals]; [discriminate |]. simpl.
  destruct (decide (n = c)) as [-> | Hne].
  - exists v. apply lookup_insert_eq.
  - rewrite lookup_insert_ne by exact Hne.
    destruct Hin as [-> | Hin]; [now destruct Hne |].
    apply IH; [simpl in Hlen; lia | exact Hin].
Qed.

Lemma feature_vectors_single (names : list string) (vals : list Q)
    (df : DataFrame) :
  single_row_frame vals names = Ok df ->
  length (columns df) = length names
  /\ exists xs, feature_vectors df = Ok [xs].
Proof.
  unfold single_row_frame.
  destruct (Nat.eqb_spec (length vals) (length names)) as [Hlen |];
    [| discriminate].
  intros [= <-]. split; [reflexivity |].
  unfold feature_vectors. cbn [rows columns mapR].
  destruct (mapR_total
              (fun c => number_of
                          (cell_at c (list_to_map (zip names (map Num vals)))))
              names) as [xs Hxs].
  { intros c Hc. destruct (lookup_zip_Num names vals c Hlen Hc) as [q Hq].
    exists q. unfold cell_at. now rewrite Hq. }
  exists xs. rewrite Hxs. reflexivity.
Qed.

(** A loaded ensemble bundle whose feature names have the length of the
    assembled feature vector always gets its interval back, one prediction
    per member. *)
Lemma predict_with_confidence_returns
    (self : YieldPredictor.t) (rq : request) (m : Model)
    (e : list Q -> Q) (es : list (list Q -> Q))
    (p : DataPreprocessor.t) (names : list string) :
  is_loaded self = true ->
  model self = PyModel m ->
  estimators_ m = Some (e, es) ->
  preprocessor self = PyPreprocessor p ->
  feature_names self = PyList names ->
  length names
  = (if bool_decide ("Season_Encoded" ∈ names) then 8 else 7)%nat ->
  length (feature_names_in_ m) = length names ->
  exists mean_pred sd lower upper all,
    predict_with_confidence self rq
    = Some (Interval mean_pred sd lower upper all)
    /\ length all = S (length es).
Proof.
  intros Hl Hm He Hp Hn Hlen Hfit.
  unfold predict_with_confidence, ensemble_of. rewrite Hl, Hm, He.
  cbn [negb].
  assert (exists df, feature_frame self rq = Ok df
                     /\ length (columns df) = length names
                     /\ exists xs, feature_vectors df = Ok [xs])
    as (df & Hdf & Hcols & xs & Hxs).
  { unfold feature_frame. rewrite Hp, Hn. cbn [as_preprocessor as_names].
    cbn [mbind result_bind bind].
    destruct (encode_single_prediction_total p (crop rq) (state rq) (season rq))
      as [[[c s] n] ->].
    unfold mbind, result_bind. cbn [bind].
    match goal with
    | |- exists df, single_row_frame ?v ?n = Ok df /\ _ =>
      destruct (single_row_frame v n) as [df |] eqn:Hdf
    end.
    - exists df. split; [reflexivity |].
      now apply feature_vectors_single in Hdf.
    - exfalso. unfold single_row_frame in Hdf.
      destruct (bool_decide ("Season_Encoded" ∈ names));
        rewrite Hlen in Hdf; discriminate. }
  rewrite Hdf. cbn [mbind result_bind bind].
  match goal with
  | |- context [mapR ?f (e :: es)] =>
    destruct (mapR_total f (e :: es)) as [all Hall]
  end.
  { intros est _. unfold estimator_predict. rewrite Hcols, Hfit.
    rewrite Nat.eqb_refl. unfold mbind, result_bind. rewrite Hxs.
    eexists. reflexivity. }
  rewrite Hall. unfold mbind, result_bind. cbn [bind except_Exception].
  do 5 eexists. split; [reflexivity |].
  now apply mapR_length in Hall.
Qed.




End Confidence.

End CropYieldSpec.

(** * Further properties of the FarmCom store *)
Module FarmComStore.
Import FarmCom.

(** ** Requests that do not succeed *)

(** A request that carries no session, or whose response does not announce
    success, leaves the store exactly as it was: listings, identifier
    counter and transaction log. *)
Theorem unsuccessful_request_changes_nothing (rq : request) (db : database) :
  requester rq = None \/ succeeded (handle rq db).1 = false ->
  (handle rq db).2 = db.
Proof.
  intros H.
  destruct rq as [id s q | s pid q a | s m f | s m f | id s m f | id s];
    cbn [handle requester] in *.
  - unfold purchase_item in *. destruct s as [u |]; [| reflexivity].
    destruct H as [H | H]; [discriminate |].
    destruct q as [qty |]; [| reflexivity].
    destruct (select_item id db) as [[[seller p] available] |]; [| reflexivity].
    destruct (qty <=? available); [discriminate | reflexivity].
  - unfold process_purchase in *. destruct s as [u |]; [| reflexivity].
    destruct H as [H | H]; [discriminate |].
    destruct q as [qty |]; [| reflexivity].
    destruct (select_item_named pid db) as [[[[seller p] available] name] |];
      [| reflexivity].
    destruct pid as [id |]; [| reflexivity].
    destruct (qty <=? available); [discriminate | reflexivity].
  - unfold sell_item in *. destruct s as [u |]; [| reflexivity].
    destruct H as [H | H]; [discriminate |].
    destruct m; [reflexivity |].
    destruct (f_price f); [| reflexivity].
    destruct (f_quantity f); [| reflexivity].
    destruct (10 <? _); [reflexivity | discriminate].
  - unfold add_item in *. destruct s as [u |]; [| reflexivity].
    destruct H as [H | H]; [discriminate |].
    destruct m; [reflexivity |].
    destruct (f_price f); [| reflexivity].
    destruct (f_quantity f); [discriminate | reflexivity].
  - unfold edit_listing in *. destruct s as [u |]; [| reflexivity].
    destruct H as [H | H]; [discriminate |].
    destruct (marketplace_items db !! id); [| reflexivity].
    destruct (_ =? _); [| reflexivity].
    destruct m; [reflexivity |].
    destruct (f_price f); [| reflexivity].
    destruct (f_quantity f); [discriminate | reflexivity].
  - unfold delete_listing in *. destruct s as [u |]; [| reflexivity].
    destruct H as [H | H]; [discriminate |].
    destruct (marketplace_items db !! id); [| reflexivity].
    destruct (_ =? _); [discriminate | reflexivity].
Qed.

Lemma unsuccessful_request_changes_nothing_witness :
  succeeded (handle (ReqPurchaseItem 1 (Some 2) (Some 6)) sample_db).1 = false
  /\ (handle (ReqPurchaseItem 1 (Some 2) (Some 6)) sample_db).2 = sample_db
  /\ (handle (ReqDeleteListing 1 None) sample_db).2 = sample_db.
Proof.
  split; [reflexivity |]. split.
  - apply unsuccessful_request_changes_nothing. right. reflexivity.
  - apply unsuccessful_request_changes_nothing. left. reflexivity.
Defined.

(** ** What a purchase touches *)

Lemma update_quantity_lookup qty id t db k :
  marketplace_items (update_quantity qty id (insert_purchase t db)) !! k
  = if decide (id = k)
    then (fun r => set_quantity_available (quantity_available r - qty) r)
           <$> marketplace_items db !! id
    else marketplace_items db !! k.
Proof. simpl. rewrite lookup_alter. now destruct (decide (id = k)). Qed.

(** What either purchase handler does to the store: nothing, or one
    transaction for the named listing and that listing's stock lowered. *)
Lemma purchase_outcome (rq : request) (db : database) :
  is_purchase rq = true ->
  (handle rq db).2 = db
  \/ exists id r t,
       purchase_target rq = Some id
       /\ marketplace_items db !! id = Some r
       /\ item_id t = id
       /\ (handle rq db).2
          = update_quantity (quantity t) id (insert_purchase t db).
Proof.
  intros Hp. destruct rq as [id s q | s pid q a | | | |]; try discriminate;
    cbn [handle purchase_target].
  - unfold purchase_item, select_item. destruct s as [u |]; [| now left].
    destruct q as [qty |]; [| now left].
    destruct (marketplace_items db !! id) as [r |] eqn:Hr; [| now left].
    destruct (qty <=? quantity_available r); [| now left].
    right.
    exists id, r, (mk_purchase id u (seller_id r) qty
                               (inject_Z qty * price r)%Q None).
    split; [reflexivity |]. split; [exact Hr |]. split; reflexivity.
  - unfold process_purchase, select_item_named.
    destruct s as [u |]; [| now left].
    destruct q as [qty |]; [| now left].
    destruct pid as [id |]; [| now left].
    destruct (marketplace_items db !! id) as [r |] eqn:Hr; [| now left].
    destruct (qty <=? quantity_available r); [| now left].
    right.
    exists id, r, (mk_purchase id u (seller_id r) qty
                               (inject_Z qty * price r)%Q a).
    split; [reflexivity |]. split; [exact Hr |]. split; reflexivity.
Qed.

(** A purchase request, accepted or not, changes no listing but the one it
    names and, of that one, nothing but [quantity_available]: seller, name,
    price and the rest stay; no listing appears or disappears and the
    identifier counter does not move. *)
Theorem purchase_changes_only_stock (rq : request) (db : database) :
  is_purchase rq = true ->
  next_item_id (handle rq db).2 = next_item_id db
  /\ (forall k, purchase_target rq <> Some k ->
                marketplace_items (handle rq db).2 !! k
                = marketplace_items db !! k)
  /\ (forall k, marketplace_items db !! k = None ->
                marketplace_items (handle rq db).2 !! k = None)
  /\ (forall k r, marketplace_items db !! k = Some r ->
                  exists q, marketplace_items (handle rq db).2 !! k
                            = Some (set_quantity_available q r)).
Proof.
  intros Hp.
  destruct (purchase_outcome rq db Hp)
    as [-> | (id & r0 & t & Htarget & Hr0 & _ & ->)].
  - split; [reflexivity |]. split; [reflexivity |]. split; [auto |].
    intros k r Hr. exists (quantity_available r). rewrite Hr.
    now destruct r.
  - split; [reflexivity |]. split; [| split].
    + intros k Hk. rewrite update_quantity_lookup.
      destruct (decide (id = k)) as [<- | _]; [now destruct Hk | reflexivity].
    + intros k Hk. rewrite update_quantity_lookup.
      destruct (decide (id = k)) as [<- | _]; [now rewrite Hk | exact Hk].
    + intros k r Hr. rewrite update_quantity_lookup.
      destruct (decide (id = k)) as [<- | _].
      * rewrite Hr. simpl. eexists. reflexivity.
      * exists (quantity_available r). rewrite Hr. now destruct r.
Qed.

Lemma purchase_changes_only_stock_witness :
  next_item_id (handle (ReqPurchaseItem 1 (Some 2) (Some 3)) sample_db).2 = 2
  /\ marketplace_items (handle (ReqPurchaseItem 1 (Some 2) (Some 3))
                               sample_db).2 !! 1
     = Some (set_quantity_available 2 sample_item).
Proof.
  destruct (purchase_changes_only_stock
              (ReqPurchaseItem 1 (Some 2) (Some 3)) sample_db eq_refl)
    as (Hnext & _ & _ & _).
  split; [exact Hnext | reflexivity].
Defined.

(** ** Units in stock and units sold *)

Lemma units_sold_insert id t db :
  units_sold id (insert_purchase t db)
  = units_sold id db + (if item_id t =? id then quantity t else 0).
Proof.
  unfold units_sold, insert_purchase. simpl.
  induction (purchase_transactions db) as [| x l IH]; simpl.
  - destruct (item_id t =? id); lia.
  - rewrite IH. destruct (item_id x =? id); lia.
Qed.

Lemma purchase_conserves (rq : request) (db : database) id r :
  is_purchase rq = true ->
  marketplace_items db !! id = Some r ->
  exists r',
    marketplace_items (handle rq db).2 !! id = Some r'
    /\ quantity_available r' + units_sold id (handle rq db).2
       = quantity_available r + units_sold id db.
Proof.
  intros Hp Hr.
  destruct (purchase_outcome rq db Hp)
    as [-> | (id0 & r0 & t & _ & Hr0 & Ht & ->)].
  - now exists r.
  - rewrite update_quantity_lookup.
    change (units_sold id (update_quantity (quantity t) id0
                             (insert_purchase t db)))
      with (units_sold id (insert_purchase t db)).
    rewrite units_sold_insert, Ht.
    destruct (decide (id0 = id)) as [-> | Hne].
    + rewrite Hr. simpl. eexists. split; [reflexivity |]. simpl.
      rewrite Z.eqb_refl. lia.
    + exists r. split; [exact Hr |].
      destruct (Z.eqb_spec id0 id); [contradiction | lia].
Qed.

(** Over any sequence of purchase requests (either route, any buyers, any
    quantities, accepted or rejected) the units a listing has in stock plus
    the units the transaction log records as sold of it stay constant. *)
Theorem purchases_conserve_units
    (rqs : list request) (db : database) (id : Z) (r : item_row) :
  Forall (fun rq => is_purchase rq = true) rqs ->
  marketplace_items db !! id = Some r ->
  exists r',
    marketplace_items (serve rqs db).2 !! id = Some r'
    /\ quantity_available r' + units_sold id (serve rqs db).2
       = quantity_available r + units_sold id db.
Proof.
  intros Hall. revert db r.
  induction Hall as [| rq rest Hrq _ IH]; intros db r Hr.
  - now exists r.
  - simpl. destruct (purchase_conserves rq db id r Hrq Hr) as (r1 & Hr1 & H1).
    destruct (handle rq db) as [resp db1]. simpl in *.
    destruct (IH db1 r1 Hr1) as (r' & Hr' & H').
    destruct (serve rest db1) as [rs db2]. simpl in *.
    exists r'. split; [exact Hr' | lia].
Qed.

Lemma purchases_conserve_units_witness :
  exists r',
    marketplace_items
      (serve [ReqPurchaseItem 1 (Some 2) (Some 3);
              ReqProcessPurchase (Some 3) (Some 1) (Some 4) None;
              ReqPurchaseItem 1 (Some 4) (Some (-1))] sample_db).2 !! 1
    = Some r'
    /\ quantity_available r'
       + units_sold 1
           (serve [ReqPurchaseItem 1 (Some 2) (Some 3);
                   ReqProcessPurchase (Some 3) (Some 1) (Some 4) None;
                   ReqPurchaseItem 1 (Some 4) (Some (-1))] sample_db).2
       = quantity_available sample_item + units_sold 1 sample_db.
Proof.
  apply purchases_conserve_units.
  - repeat constructor.
  - reflexivity.
Defined.

(** ** The transaction log *)

Lemma handle_appends (rq : request) (db : database) :
  exists new,
    purchase_transactions (handle rq db).2
    = (purchase_transactions db ++ new)%list
    /\ (length new <= 1)%nat
    /\ (succeeded (handle rq db).1 = false -> new = []).
Proof.
  destruct (is_purchase rq) eqn:Hp.
  - destruct (purchase_outcome rq db Hp) as [H | (id & r & t & _ & _ & _ & H)].
    + exists []. rewrite H, app_nil_r. repeat split; auto.
    + destruct (succeeded (handle rq db).1) eqn:Hs.
      * exists [t]. rewrite H. repeat split; [simpl; lia | discriminate].
      * exists []. rewrite (unsuccessful_request_changes_nothing rq db)
          by now right.
        rewrite app_nil_r. repeat split; auto.
  - exists []. rewrite app_nil_r. split; [| split; [simpl; lia | reflexivity]].
    destruct rq as [| | s m f | s m f | id s m f | id s]; try discriminate;
      cbn [handle].
    + unfold sell_item. destruct s; [| reflexivity]. destruct m; [reflexivity |].
      destruct (f_price f), (f_quantity f); try reflexivity.
      now destruct (10 <? _).
    + unfold add_item. destruct s; [| reflexivity]. destruct m; [reflexivity |].
      now destruct (f_price f), (f_quantity f).
    + unfold edit_listing. destruct s; [| reflexivity].
      destruct (marketplace_items db !! id); [| reflexivity].
      destruct (_ =? _); [| reflexivity]. destruct m; [reflexivity |].
      now destruct (f_price f), (f_quantity f).
    + unfold delete_listing. destruct s; [| reflexivity].
      destruct (marketplace_items db !! id); [| reflexivity].
      now destruct (_ =? _).
Qed.

(** The transaction log is append-only: whatever requests are served
    (purchases, listings, edits, deletions), the log afterwards is the log
    before followed by at most one new record per request.  Deleting or
    editing a listing never removes or rewrites its past transactions. *)
Theorem transactions_append_only (rqs : list request) (db : database) :
  exists new,
    purchase_transactions (serve rqs db).2
    = (purchase_transactions db ++ new)%list
    /\ (length new <= length rqs)%nat.
Proof.
  revert db. induction rqs as [| rq rest IH]; intros db.
  - exists []. now rewrite app_nil_r.
  - simpl. destruct (handle_appends rq db) as (n1 & H1 & Hlen1 & _).
    destruct (handle rq db) as [resp db1]. simpl in *.
    destruct (IH db1) as (n2 & H2 & Hlen2).
    destruct (serve rest db1) as [rs db2]. simpl in *.
    exists (n1 ++ n2)%list. rewrite H2, H1, <- app_assoc.
    split; [reflexivity |]. rewrite length_app. lia.
Qed.

(** ** Listing identifiers *)

Lemma handle_ids (rq : request) (db : database) :
  ids_below_counter db ->
  ids_below_counter (handle rq db).2
  /\ next_item_id db <= next_item_id (handle rq db).2.
Proof.
  intros Hinv.
  assert (forall r, ids_below_counter (insert_item r db)
                    /\ next_item_id db <= next_item_id (insert_item r db))
    as Hins.
  { intros r. split; [| simpl; lia].
    apply map_Forall_insert_2; [simpl; lia |].
    intros k x Hk. specialize (Hinv k x Hk). simpl in *. lia. }
  destruct (is_purchase rq) eqn:Hp.
  - destruct (purchase_changes_only_stock rq db Hp) as (Hn & _ & Hnone & _).
    split; [| lia]. intros k x Hk. rewrite Hn.
    destruct (marketplace_items db !! k) as [r |] eqn:Hr.
    + exact (Hinv k r Hr).
    + rewrite (Hnone k Hr) in Hk. discriminate.
  - destruct rq as [| | s m f | s m f | id s m f | id s]; try discriminate;
      cbn [handle].
    + unfold sell_item. destruct s; [| (split; [exact Hinv | simpl; lia])].
      destruct m; [(split; [exact Hinv | simpl; lia]) |].
      destruct (f_price f), (f_quantity f); try ((split; [exact Hinv | simpl; lia])).
      destruct (10 <? _); [(split; [exact Hinv | simpl; lia]) | apply Hins].
    + unfold add_item. destruct s; [| (split; [exact Hinv | simpl; lia])].
      destruct m; [(split; [exact Hinv | simpl; lia]) |].
      destruct (f_price f), (f_quantity f); try ((split; [exact Hinv | simpl; lia])).
      apply Hins.
    + unfold edit_listing. destruct s; [| (split; [exact Hinv | simpl; lia])].
      destruct (marketplace_items db !! id); [| (split; [exact Hinv | simpl; lia])].
      destruct (_ =? _); [| (split; [exact Hinv | simpl; lia])].
      destruct m; [(split; [exact Hinv | simpl; lia]) |].
      destruct (f_price f), (f_quantity f); try ((split; [exact Hinv | simpl; lia])).
      split; [| simpl; lia]. intros k x Hk. simpl in Hk.
      rewrite lookup_alter in Hk. destruct (decide (id = k)) as [<- | _].
      * destruct (marketplace_items db !! id) as [r0 |] eqn:Hr0;
          [| discriminate].
        exact (Hinv id r0 Hr0).
      * exact (Hinv k x Hk).
    + unfold delete_listing. destruct s; [| (split; [exact Hinv | simpl; lia])].
      destruct (marketplace_items db !! id); [| (split; [exact Hinv | simpl; lia])].
      destruct (_ =? _); [| (split; [exact Hinv | simpl; lia])].
      split; [| simpl; lia]. now apply map_Forall_delete.
Qed.

Lemma serve_ids (rqs : list request) (db : database) :
  ids_below_counter db ->
  ids_below_counter (serve rqs db).2
  /\ next_item_id db <= next_item_id (serve rqs db).2.
Proof.
  revert db. induction rqs as [| rq rest IH]; intros db Hinv.
  - split; [exact Hinv | simpl; lia].
  - simpl. destruct (handle_ids rq db Hinv) as [H1 Hn1].
    destruct (handle rq db) as [resp db1]. simpl in *.
    destruct (IH db1 H1) as [H2 Hn2].
    destruct (serve rest db1) as [rs db2]. simpl in *.
    split; [exact H2 | lia].
Qed.

(** Listing identifiers are never reused.  In every store reached from the
    empty one, each listing's identifier is below the counter, and the
    counter never goes down whatever is served next, deletions included:
    a later listing cannot take the identifier of a present or deleted
    one, so old transactions never point at a newer listing. *)
Theorem listing_ids_never_reused (before after : list request) :
  ids_below_counter (serve before empty_db).2
  /\ ids_below_counter (serve after (serve before empty_db).2).2
  /\ next_item_id (serve before empty_db).2
     <= next_item_id (serve after (serve before empty_db).2).2.
Proof.
  assert (ids_below_counter empty_db) as H0 by apply map_Forall_empty.
  destruct (serve_ids before empty_db H0) as [H1 _].
  destruct (serve_ids after _ H1) as [H2 Hn].
  repeat split; assumption.
Qed.

(** ** Whose listings a request can change *)

(** Creating, editing and deleting are owner-only: such a request from
    user [u] leaves every listing of another seller exactly as it was (a
    new listing never takes an identifier in use; edit and delete refuse a
    listing whose seller is not [u]). *)
Theorem other_sellers_listings_untouched
    (rq : request) (db : database) (u k : Z) (r : item_row) :
  ids_below_counter db ->
  requester rq = Some u ->
  is_purchase rq = false ->
  marketplace_items db !! k = Some r ->
  seller_id r <> u ->
  marketplace_items (handle rq db).2 !! k = Some r.
Proof.
  intros Hinv Hu Hp Hr Hne.
  assert (forall x, marketplace_items (insert_item x db) !! k = Some r)
    as Hins.
  { intros x. simpl. rewrite lookup_insert_ne; [exact Hr |].
    specialize (Hinv k r Hr). simpl in Hinv. lia. }
  destruct rq as [| | s m f | s m f | id s m f | id s]; try discriminate;
    cbn [handle requester] in *; subst s.
  - unfold sell_item. destruct m; [exact Hr |].
    destruct (f_price f), (f_quantity f); try exact Hr.
    destruct (10 <? _); [exact Hr | apply Hins].
  - unfold add_item. destruct m; [exact Hr |].
    destruct (f_price f), (f_quantity f); try exact Hr. apply Hins.
  - unfold edit_listing.
    destruct (marketplace_items db !! id) as [l |] eqn:Hl; [| exact Hr].
    destruct (Z.eqb_spec (seller_id l) u) as [Hown |]; [| exact Hr].
    destruct m; [exact Hr |].
    destruct (f_price f), (f_quantity f); try exact Hr.
    simpl. rewrite lookup_alter_ne; [exact Hr |].
    intros ->. rewrite Hl in Hr. injection Hr as ->. contradiction.
  - unfold delete_listing.
    destruct (marketplace_items db !! id) as [l |] eqn:Hl; [| exact Hr].
    destruct (Z.eqb_spec (seller_id l) u) as [Hown |]; [| exact Hr].
    simpl. rewrite lookup_delete_ne; [exact Hr |].
    intros ->. rewrite Hl in Hr. injection Hr as ->. contradiction.
Qed.

Lemma sample_db_ids : ids_below_counter sample_db.
Proof.
  intros k x Hk. cbn [sample_db marketplace_items] in Hk.
  apply lookup_singleton_Some in Hk as [<- _]. simpl. lia.
Qed.

Lemma other_sellers_listings_untouched_witness :
  marketplace_items (handle (ReqDeleteListing 1 (Some 8)) sample_db).2 !! 1
  = Some sample_item
  /\ marketplace_items (handle (ReqEditListing 1 (Some 8) POST rice_form)
                               sample_db).2 !! 1
     = Some sample_item
  /\ marketplace_items (handle (ReqSellItem (Some 8) POST rice_form)
                               sample_db).2 !! 1
     = Some sample_item.
Proof.
  pose proof sample_db_ids as Hinv.
  split; [| split];
    apply (other_sellers_listings_untouched _ sample_db 8 1 sample_item);
    try reflexivity; try exact Hinv; simpl; lia.
Defined.

(** ** The life of a listing *)

(** A listing put up through [sell_item] with a category of at most ten
    characters is stored under a fresh identifier with the submitted fields
    (the category through the short-name table), no listing already present
    changes, and it can be bought at once: a request for no more than the
    listed quantity is accepted and charged quantity times the listed
    price. *)
Theorem listed_then_bought
    (u buyer n q : Z) (p : Q) (f : listing_form) (db : database) :
  ids_below_counter db ->
  f_price f = Some p ->
  f_quantity f = Some q ->
  (String.length (f_category f) <= 10)%nat ->
  n <= q ->
  exists db1,
    sell_item (Some u) POST f db
    = (Redirect "dashboard"
                (Some ("Item listed for sale successfully!", "success")), db1)
    /\ marketplace_items db1 !! next_item_id db = Some (listed_row u f p q)
    /\ (forall k r, marketplace_items db !! k = Some r ->
                    marketplace_items db1 !! k = Some r)
    /\ exists db2,
         purchase_item (next_item_id db) (Some buyer) (Some n) db1
         = (successful, db2)
         /\ purchased (next_item_id db) buyer n (listed_row u f p q) db1 db2.
Proof.
  intros Hinv Hp Hq Hcat Hn. eexists. unfold sell_item. rewrite Hp, Hq.
  destruct (Z.ltb_spec 10 (Z.of_nat (String.length (f_category f))));
    [lia |].
  split; [reflexivity |].
  assert (marketplace_items (insert_item (listed_row u f p q) db)
            !! next_item_id db = Some (listed_row u f p q)) as Hnew
    by apply lookup_insert_eq.
  split; [exact Hnew |]. split.
  - intros k r Hr. simpl. rewrite lookup_insert_ne; [exact Hr |].
    specialize (Hinv k r Hr). simpl in Hinv. lia.
  - eexists. split.
    + exact (FarmComSpec.purchase_item_accepts _ buyer _ _ _ Hnew Hn).
    + now apply FarmComSpec.accepted_purchased.
Qed.

Lemma listed_then_bought_witness :
  exists db1,
    sell_item (Some 8) POST rice_form sample_db
    = (Redirect "dashboard"
                (Some ("Item listed for sale successfully!", "success")), db1)
    /\ marketplace_items db1 !! 2 = Some (listed_row 8 rice_form 10%Q 5)
    /\ category (listed_row 8 rice_form 10%Q 5) = "Grain"
    /\ exists db2,
         purchase_item 2 (Some 3) (Some 5) db1 = (successful, db2)
         /\ purchased 2 3 5 (listed_row 8 rice_form 10%Q 5) db1 db2.
Proof.
  pose proof sample_db_ids as Hinv.
  destruct (listed_then_bought 8 3 5 5 10%Q rice_form sample_db Hinv
              eq_refl eq_refl ltac:(simpl; lia) ltac:(lia))
    as (db1 & H1 & Hnew & _ & Hbuy).
  exists db1. split; [exact H1 |]. split; [exact Hnew |].
  split; [reflexivity | exact Hbuy].
Defined.

(** When its seller deletes a listing, the listing is gone and every other
    one stays; the transaction log is kept as it is, and from then on each
    purchase request for that identifier is rejected as insufficient
    stock, whatever the quantity. *)
Theorem deleted_listing_is_gone
    (id u : Z) (r : item_row) (db : database) :
  marketplace_items db !! id = Some r ->
  seller_id r = u ->
  exists db1,
    delete_listing id (Some u) db
    = (Redirect "my_listings"
                (Some ("Listing deleted successfully!", "success")), db1)
    /\ marketplace_items db1 !! id = None
    /\ (forall k, k <> id ->
                  marketplace_items db1 !! k = marketplace_items db !! k)
    /\ purchase_transactions db1 = purchase_transactions db
    /\ forall buyer n,
         purchase_item id (Some buyer) (Some n) db1 = (insufficient, db1).
Proof.
  intros Hr Hu. eexists. unfold delete_listing. rewrite Hr, Hu, Z.eqb_refl.
  split; [reflexivity |]. split; [apply lookup_delete_eq |]. split.
  - intros k Hk. simpl. now rewrite lookup_delete_ne.
  - split; [reflexivity |]. intros buyer n.
    unfold purchase_item, select_item. simpl.
    now rewrite lookup_delete_eq.
Qed.

Lemma deleted_listing_is_gone_witness :
  exists db1,
    delete_listing 1 (Some 7) sample_db
    = (Redirect "my_listings"
                (Some ("Listing deleted successfully!", "success")), db1)
    /\ marketplace_items db1 !! 1 = None
    /\ (forall k, k <> 1 ->
                  marketplace_items db1 !! k = marketplace_items sample_db !! k)
    /\ purchase_transactions db1 = purchase_transactions sample_db
    /\ forall buyer n,
         purchase_item 1 (Some buyer) (Some n) db1 = (insufficient, db1).
Proof.
  apply (deleted_listing_is_gone 1 7 sample_item sample_db); reflexivity.
Defined.

(** ** Calls that run at the same time *)

Lemma step_call_conserves (c : call) (db : database) id r :
  marketplace_items db !! id = Some r ->
  exists r',
    marketplace_items (step_call c db).2 !! id = Some r'
    /\ quantity_available r' + units_sold id (step_call c db).2
       - pending id (step_call c db).1
       = quantity_available r + units_sold id db - pending id c.
Proof.
  intros Hr. unfold step_call, pending.
  destruct c as [item user qty p]. cbn [call_pc call_item call_quantity].
  destruct p as [| seller price | | | resp]; cbn [call_pc call_item
    call_quantity at_pc fst snd].
  - destruct (select_item item db) as [[[seller price] available] |];
      [destruct (qty <=? available) |]; simpl; exists r; split; auto; lia.
  - exists r. split; [exact Hr |].
    rewrite units_sold_insert. simpl. destruct (item =? id); lia.
  - change (units_sold id (update_quantity qty item db))
      with (units_sold id db).
    cbn [update_quantity marketplace_items]. rewrite lookup_alter.
    destruct (decide (item = id)) as [-> | Hne].
    + rewrite Hr. simpl. eexists. split; [reflexivity |]. simpl.
      rewrite Z.eqb_refl. lia.
    + exists r. split; [exact Hr |].
      destruct (Z.eqb_spec item id); [contradiction | lia].
  - exists r. split; [exact Hr | simpl; lia].
  - exists r. split; [exact Hr | simpl; lia].
Qed.

Lemma in_flight_insert id (cs : list call) (i : nat) (c c' : call) :
  cs !! i = Some c ->
  in_flight id (<[i := c']> cs) = in_flight id cs - pending id c + pending id c'.
Proof.
  revert i. induction cs as [| x cs IH]; intros i Hi; [discriminate |].
  destruct i as [| i]; simpl in *.
  - injection Hi as ->. lia.
  - rewrite (IH i Hi). lia.
Qed.

Lemma run_conserves (schedule : list nat) (cs : list call) (db : database)
    id r :
  marketplace_items db !! id = Some r ->
  exists r',
    marketplace_items (run schedule cs db).2 !! id = Some r'
    /\ quantity_available r' + units_sold id (run schedule cs db).2
       - in_flight id (run schedule cs db).1
       = quantity_available r + units_sold id db - in_flight id cs.
Proof.
  revert cs db r. induction schedule as [| i rest IH]; intros cs db r Hr.
  - now exists r.
  - simpl. destruct (cs !! i) as [c |] eqn:Hc; [| now apply IH].
    destruct (step_call_conserves c db id r Hr) as (r1 & Hr1 & H1).
    destruct (step_call c db) as [c' db1]. simpl in *.
    destruct (IH (<[i := c']> cs) db1 r1 Hr1) as (r' & Hr' & H').
    exists r'. split; [exact Hr' |].
    rewrite H', (in_flight_insert id cs i c c' Hc). lia.
Qed.

Lemma in_flight_finished id (cs : list call) :
  Forall finished cs -> in_flight id cs = 0.
Proof.
  induction 1 as [| c cs [resp Hc] _ IH]; [reflexivity |].
  simpl. unfold pending at 1. rewrite Hc, IH. reflexivity.
Qed.

(** Whatever the interleaving of the statements of concurrent
    [purchase_item] calls, units are neither lost nor invented: for calls
    that all start at their SELECT, once every call has finished the stock
    of a listing plus the units the log records as sold of it is what it
    was at the start.  (A race can drive the stock below zero, but only by
    recording as many extra units sold.) *)
Theorem interleaved_purchases_conserve_units
    (schedule : list nat) (buyers : list (Z * Z * Z)) (db : database)
    (id : Z) (r : item_row) :
  marketplace_items db !! id = Some r ->
  Forall finished
         (run schedule (map (fun b => start_call b.1.1 b.1.2 b.2) buyers) db).1 ->
  exists r',
    marketplace_items
      (run schedule (map (fun b => start_call b.1.1 b.1.2 b.2) buyers) db).2
      !! id = Some r'
    /\ quantity_available r'
       + units_sold id
           (run schedule (map (fun b => start_call b.1.1 b.1.2 b.2) buyers)
                db).2
       = quantity_available r + units_sold id db.
Proof.
  intros Hr Hfin.
  destruct (run_conserves schedule
              (map (fun b => start_call b.1.1 b.1.2 b.2) buyers) db id r Hr)
    as (r' & Hr' & H).
  exists r'. split; [exact Hr' |].
  rewrite (in_flight_finished id _ Hfin) in H.
  assert (in_flight id (map (fun b => start_call b.1.1 b.1.2 b.2) buyers) = 0)
    as H0.
  { clear. induction buyers as [| b l IH]; [reflexivity |].
    simpl. rewrite IH. reflexivity. }
  rewrite H0 in H. lia.
Qed.

Lemma interleaved_purchases_conserve_units_witness :
  exists r',
    marketplace_items
      (run [0; 1; 0; 0; 0; 1; 1; 1]%nat
           (map (fun b => start_call b.1.1 b.1.2 b.2) [(1, 2, 5); (1, 3, 5)])
           sample_db).2 !! 1 = Some r'
    /\ quantity_available r'
       + units_sold 1
           (run [0; 1; 0; 0; 0; 1; 1; 1]%nat
                (map (fun b => start_call b.1.1 b.1.2 b.2)
                     [(1, 2, 5); (1, 3, 5)]) sample_db).2
       = quantity_available sample_item + units_sold 1 sample_db.
Proof.
  apply (interleaved_purchases_conserve_units
           [0; 1; 0; 0; 0; 1; 1; 1]%nat [(1, 2, 5); (1, 3, 5)] sample_db 1
           sample_item).
  - reflexivity.
  - repeat constructor; eexists; vm_compute; reflexivity.
Defined.

End FarmComStore.

(** * Properties of the serving path (model_prediction.py) *)
Module CropYieldServing.
Import CropYield.
Import LabelEncoder DataPreprocessor YieldPredictor.


(** The crop and state codes do not depend on the season argument. *)
Lemma encode_single_prediction_codes (p : DataPreprocessor.t)
    (crop state : string) :
  exists c s,
    except_ValueError (transform_single (crop_encoder p) crop) 0 = Ok c
    /\ except_ValueError (transform_single (state_encoder p) state) 0 = Ok s
    /\ forall season, exists n,
         encode_single_prediction p crop state season = Ok (c, s, n).
Proof.
  destruct (CropYieldSpec.encoded_or_default (crop_encoder p) crop)
    as (c & Hc & _).
  destruct (CropYieldSpec.encoded_or_default (state_encoder p) state)
    as (s & Hs & _).
  exists c, s. split; [exact Hc |]. split; [exact Hs |]. intros season.
  unfold encode_single_prediction, mbind, result_bind.
  rewrite Hc, Hs. cbn [bind].
  destruct (truthy season) as [l |].
  - destruct (CropYieldSpec.encoded_or_default (season_encoder p) l)
      as (n & -> & _).
    eexists. reflexivity.
  - eexists. reflexivity.
Qed.

Lemma feature_frame_unfold (self : YieldPredictor.t) (rq : request)
    (p : DataPreprocessor.t) (names : list string) (c s n : Z) :
  preprocessor self = PyPreprocessor p ->
  feature_names self = PyList names ->
  encode_single_prediction p (crop rq) (state rq) (season rq) = Ok (c, s, n) ->
  feature_frame self rq
  = single_row_frame (assembled_features c s n rq names) names.
Proof.
  intros Hp Hn He. unfold feature_frame, mbind, result_bind.
  rewrite Hp, Hn. cbn [as_preprocessor as_names bind]. rewrite He.
  cbn [bind]. unfold assembled_features.
  destruct (bool_decide ("Season_Encoded" ∈ names)); [reflexivity |].
  now rewrite app_nil_r.
Qed.


(** Both prediction entry points read the request only through
    [feature_frame]. *)
Lemma predictions_from_frame (self : YieldPredictor.t) (rq rq' : request) :
  feature_frame self rq = feature_frame self rq' ->
  predict self rq = predict self rq'
  /\ predict_with_confidence self rq = predict_with_confidence self rq'.
Proof.
  intros H. unfold predict_with_confidence, predict. rewrite H.
  split; reflexivity.
Qed.

(** A crop the encoder has no code for is encoded as 0, the code of
    the first class: both prediction entry points answer for it exactly as
    they answer for the first (smallest) crop the encoder was fitted on,
    all other inputs equal. *)
Theorem unseen_crop_predicted_as_first_class
    (self : YieldPredictor.t) (rq : request) (p : DataPreprocessor.t)
    (first_class unseen_crop : string) (others : list string) :
  preprocessor self = PyPreprocessor p ->
  classes_ (crop_encoder p) = Some (first_class :: others) ->
  unseen_crop ∉ first_class :: others ->
  predict self (with_crop unseen_crop rq)
  = predict self (with_crop first_class rq)
  /\ predict_with_confidence self (with_crop unseen_crop rq)
     = predict_with_confidence self (with_crop first_class rq).
Proof.
  intros Hp Hcl Hun. apply predictions_from_frame.
  unfold feature_frame, mbind, result_bind. rewrite Hp.
  cbn [as_preprocessor bind with_crop crop state season].
  assert (forall st se,
             encode_single_prediction p unseen_crop st se
             = encode_single_prediction p first_class st se) as ->;
    [| reflexivity].
  intros st se. unfold encode_single_prediction.
  assert (except_ValueError (transform_single (crop_encoder p) unseen_crop) 0
          = Ok 0) as ->.
  { destruct (CropYieldSpec.encoded_or_default (crop_encoder p) unseen_crop)
      as (z & Hz & Hz0).
    rewrite Hz. f_equal. apply Hz0. unfold unseen. now rewrite Hcl. }
  assert (except_ValueError (transform_single (crop_encoder p) first_class) 0
          = Ok 0) as ->; [| reflexivity].
  unfold transform_single, transform. rewrite Hcl. simpl.
  now rewrite String.eqb_refl.
Qed.

(** When the loaded feature names do not contain [Season_Encoded],
    the season argument has no influence on either prediction. *)
Theorem season_ignored_without_season_feature
    (self : YieldPredictor.t) (rq : request) (names : list string)
    (s1 s2 : option string) :
  feature_names self = PyList names ->
  "Season_Encoded" ∉ names ->
  predict self (with_season s1 rq) = predict self (with_season s2 rq)
  /\ predict_with_confidence self (with_season s1 rq)
     = predict_with_confidence self (with_season s2 rq).
Proof.
  intros Hn Hs. apply predictions_from_frame.
  destruct (preprocessor self) as [| | p |] eqn:Hp;
    try (unfold feature_frame; rewrite Hp; reflexivity).
  destruct (encode_single_prediction_codes p (crop rq) (state rq))
    as (c & s & _ & _ & Henc).
  destruct (Henc s1) as [n1 H1]. destruct (Henc s2) as [n2 H2].
  rewrite (feature_frame_unfold self (with_season s1 rq) p names c s n1 Hp Hn H1).
  rewrite (feature_frame_unfold self (with_season s2 rq) p names c s n2 Hp Hn H2).
  unfold assembled_features. rewrite bool_decide_eq_false_2 by exact Hs.
  reflexivity.
Qed.


Lemma mapR_ext_in {A B} (f g : A -> result B) (l : list A) :
  (forall x, In x l -> f x = g x) -> mapR f l = mapR g l.
Proof.
  induction l as [| x l IH]; intros H; [reflexivity |].
  simpl. rewrite (H x (or_introl eq_refl)), IH; [reflexivity |].
  intros y Hy. apply H. now right.
Qed.

(** A one-row table built from distinct names gives its values back in the
    order of the names. *)
Lemma feature_vectors_single_row (names : list string) (vals : list Q) :
  List.NoDup names ->
  length vals = length names ->
  feature_vectors (mk_df names [list_to_map (zip names (map Num vals))])
  = Ok [vals].
Proof.
  intros Hnd Hlen. unfold feature_vectors. cbn [rows columns mapR].
  assert (mapR (fun c => number_of
                           (cell_at c (list_to_map (zip names (map Num vals)))))
               names = Ok vals) as ->; [| reflexivity].
  revert vals Hlen. induction Hnd as [| n names Hn Hnd IH]; intros vals Hlen.
  - destruct vals; [reflexivity | discriminate].
  - destruct vals as [| v vals]; [discriminate |].
    change (list_to_map (zip (n :: names) (map Num (v :: vals))))
      with (<[n := Num v]> (list_to_map (zip names (map Num vals))
                             : gmap string cell)).
    cbn [mapR].
    rewrite (mapR_ext_in _ (fun c => number_of
               (cell_at c (list_to_map (zip names (map Num vals)))))).
    + unfold cell_at at 2. rewrite lookup_insert_eq.
      cbn [default number_of]. unfold mbind, result_bind. cbn [bind].
      rewrite (IH vals) by (simpl in Hlen; lia). reflexivity.
    + intros c Hc. unfold cell_at. rewrite lookup_insert_ne; [reflexivity |].
      intros ->. now apply Hn.
Qed.

Lemma predict_returns_inv
    (self : YieldPredictor.t) (rq : request) (y : Q) :
  predict self rq = Some y ->
  exists p m names c s n,
    is_loaded self = true
    /\ preprocessor self = PyPreprocessor p
    /\ model self = PyModel m
    /\ feature_names self = PyList names
    /\ encode_single_prediction p (crop rq) (state rq) (season rq)
       = Ok (c, s, n)
    /\ length names
       = (if bool_decide ("Season_Encoded" ∈ names) then 8 else 7)%nat
    /\ feature_names_in_ m = names
    /\ (List.NoDup names ->
        y = predict_fn m (assembled_features c s n rq names)).
Proof.
  unfold predict. destruct (is_loaded self); cbn [negb]; [| discriminate].
  destruct (preprocessor self) as [| | p |] eqn:Hp;
    try (unfold feature_frame; rewrite Hp; discriminate).
  destruct (feature_names self) as [| | | names] eqn:Hn;
    try (unfold feature_frame, mbind, result_bind; rewrite Hp, Hn;
         cbn [as_preprocessor bind];
         destruct (encode_single_prediction p _ _ _) as [[[? ?] ?] |];
         discriminate).
  destruct (encode_single_prediction_codes p (crop rq) (state rq))
    as (c & s & _ & _ & Henc).
  destruct (Henc (season rq)) as [n He].
  rewrite (feature_frame_unfold self rq p names c s n Hp Hn He).
  unfold single_row_frame.
  destruct (Nat.eqb_spec (length (assembled_features c s n rq names))
                         (length names)) as [Hlen |]; [| discriminate].
  unfold mbind, result_bind. cbn [bind].
  destruct (model self) as [| m | |] eqn:Hm; try discriminate.
  cbn [as_model bind]. unfold model_predict. cbn [columns].
  destruct (bool_decide_reflect (names = feature_names_in_ m)) as [Hfit |];
    [| discriminate].
  intros H. exists p, m, names, c, s, n.
  split; [reflexivity |]. split; [reflexivity |]. split; [reflexivity |].
  split; [reflexivity |]. split; [exact He |]. split.
  - rewrite <- Hlen. unfold assembled_features. rewrite length_app.
    now destruct (bool_decide ("Season_Encoded" ∈ names)).
  - split; [now symmetry |]. intros Hnd.
    rewrite (feature_vectors_single_row names _ Hnd Hlen) in H.
    unfold mbind, result_bind in H. cbn in H. now injection H as <-.
Qed.

(** What a returned prediction is.  [predict] returns a number only
    for a loaded bundle holding a preprocessor, a model and a list of
    feature names of length 7 (8 with [Season_Encoded]) equal to the names
    the model was fitted with; for distinct names the number is the model's
    answer on the assembled features, matched to the names by position. *)
Theorem predict_feeds_model_positionally
    (self : YieldPredictor.t) (rq : request) (y : Q) :
  predict self rq = Some y ->
  exists p m names c s n,
    is_loaded self = true
    /\ preprocessor self = PyPreprocessor p
    /\ model self = PyModel m
    /\ feature_names self = PyList names
    /\ encode_single_prediction p (crop rq) (state rq) (season rq)
       = Ok (c, s, n)
    /\ length names
       = (if bool_decide ("Season_Encoded" ∈ names) then 8 else 7)%nat
    /\ feature_names_in_ m = names
    /\ (List.NoDup names ->
        y = predict_fn m (assembled_features c s n rq names)).
Proof. exact (predict_returns_inv self rq y). Qed.

Lemma unseen_crop_predicted_as_first_class_witness :
  predict Samples.crop_code_predictor (with_crop "Maize" Samples.wheat_request)
  = predict Samples.crop_code_predictor (with_crop "Rice" Samples.wheat_request)
  /\ predict_with_confidence Samples.crop_code_predictor
       (with_crop "Maize" Samples.wheat_request)
     = predict_with_confidence Samples.crop_code_predictor
         (with_crop "Rice" Samples.wheat_request).
Proof.
  apply (unseen_crop_predicted_as_first_class
           Samples.crop_code_predictor Samples.wheat_request
           Samples.fitted_preprocessor "Rice" "Maize" ["Wheat"]).
  - reflexivity.
  - vm_compute. reflexivity.
  - apply (bool_decide_unpack _). vm_compute. exact I.
Defined.

Lemma season_ignored_without_season_feature_witness :
  predict Samples.crop_code_predictor
          (with_season (Some "Kharif") Samples.wheat_request)
  = predict Samples.crop_code_predictor
            (with_season None Samples.wheat_request)
  /\ predict_with_confidence Samples.crop_code_predictor
       (with_season (Some "Kharif") Samples.wheat_request)
     = predict_with_confidence Samples.crop_code_predictor
         (with_season None Samples.wheat_request).
Proof.
  apply (season_ignored_without_season_feature
           Samples.crop_code_predictor Samples.wheat_request
           base_feature_columns (Some "Kharif") None).
  - reflexivity.
  - apply (bool_decide_unpack _). vm_compute. exact I.
Defined.

Lemma predict_feeds_model_positionally_witness :
  exists p m names c s n,
    is_loaded Samples.crop_code_predictor = true
    /\ preprocessor Samples.crop_code_predictor = PyPreprocessor p
    /\ model Samples.crop_code_predictor = PyModel m
    /\ feature_names Samples.crop_code_predictor = PyList names
    /\ encode_single_prediction p (crop Samples.wheat_request)
         (state Samples.wheat_request) (season Samples.wheat_request)
       = Ok (c, s, n)
    /\ length names
       = (if bool_decide ("Season_Encoded" ∈ names) then 8 else 7)%nat
    /\ feature_names_in_ m = names
    /\ (List.NoDup names ->
        1%Q = predict_fn m (assembled_features c s n Samples.wheat_request
                                               names)).
Proof.
  apply (predict_feeds_model_positionally
           Samples.crop_code_predictor Samples.wheat_request 1%Q).
  vm_compute. reflexivity.
Defined.

End CropYieldServing.

(** * Properties of the bundle on disk (save_model, load_model) *)
Module CropYieldPersistence.
Import CropYield.
Import YieldPredictor.







(** [load_model] of the predictor succeeds exactly when the path holds a
    pickled dict with the three entries, which then fill the object.  A
    failed load never changes [is_loaded] or [feature_names], and leaves
    the whole object alone unless the file is a dict with a [model]
    entry. *)
Theorem load_model_outcome (self : YieldPredictor.t) (path : string)
    (fs : filesystem) :
  ((load_model self path fs).1 = true
   <-> exists d m p f,
         fs !! path = Some (Pickle d)
         /\ d !! "model" = Some m /\ d !! "preprocessor" = Some p
         /\ d !! "feature_names" = Some f
         /\ (load_model self path fs).2 = mk m p f true)
  /\ ((load_model self path fs).1 = false ->
      is_loaded (load_model self path fs).2 = is_loaded self
      /\ feature_names (load_model self path fs).2 = feature_names self
      /\ ((forall d, fs !! path = Some (Pickle d) -> d !! "model" = None) ->
          (load_model self path fs).2 = self)).
Proof.
  unfold load_model, exists_, joblib_load, getitem.
  destruct (fs !! path) as [[d |] |] eqn:Hf; cbn [negb fst snd].
  - destruct (d !! "model") as [m |] eqn:Hm; cbn [fst snd].
    + destruct (d !! "preprocessor") as [p |] eqn:Hp; cbn [fst snd].
      * destruct (d !! "feature_names") as [f |] eqn:Hn; cbn [fst snd].
        -- split; [| discriminate].
           split; [intros _ | reflexivity].
           exists d, m, p, f. repeat (split; [reflexivity || assumption |]).
           reflexivity.
        -- split.
           ++ split; [discriminate |].
              intros (d' & m' & p' & f' & [= <-] & _ & _ & Hn' & _).
              congruence.
           ++ intros _. split; [reflexivity |]. split; [reflexivity |].
              intros H. specialize (H d eq_refl). congruence.
      * split.
        -- split; [discriminate |].
           intros (d' & m' & p' & f' & [= <-] & _ & Hp' & _). congruence.
        -- intros _. split; [reflexivity |]. split; [reflexivity |].
           intros H. specialize (H d eq_refl). congruence.
    + split.
      * split; [discriminate |].
        intros (d' & m' & p' & f' & [= <-] & Hm' & _). congruence.
      * intros _. repeat split.
  - split.
    + split; [discriminate |]. intros (d & m & p & f & [=] & _).
    + intros _. repeat split.
  - split.
    + split; [discriminate |]. intros (d & m & p & f & [=] & _).
    + intros _. repeat split.
Qed.

Lemma failed_load_keeps_flag (self : YieldPredictor.t) (path : string)
    (fs : filesystem) :
  (load_model self path fs).1 = false ->
  is_loaded (load_model self path fs).2 = is_loaded self.
Proof.
  unfold load_model, exists_, joblib_load, getitem.
  destruct (fs !! path) as [[d |] |]; cbn [negb fst snd]; try reflexivity.
  destruct (d !! "model"); cbn [fst snd]; [| reflexivity].
  destruct (d !! "preprocessor"); cbn [fst snd]; [| reflexivity].
  destruct (d !! "feature_names"); cbn [fst snd]; [discriminate | reflexivity].
Qed.

(** A predictor that was never loaded and whose load fails answers
    nothing: the three prediction entry points return [None]. *)
Theorem failed_load_predicts_nothing (self : YieldPredictor.t)
    (path : string) (fs : filesystem) (rq : request) (csv : result DataFrame) :
  is_loaded self = false ->
  (load_model self path fs).1 = false ->
  predict (load_model self path fs).2 rq = None
  /\ predict_with_confidence (load_model self path fs).2 rq = None
  /\ (predict_batch (load_model self path fs).2 csv).1 = None.
Proof.
  intros Hl Hf. apply failed_load_keeps_flag in Hf. rewrite Hl in Hf.
  unfold predict, predict_with_confidence, predict_batch. rewrite Hf.
  repeat split.
Qed.

End CropYieldPersistence.

(** * Properties of clean_data, row by row *)
Module CropYieldCleaning.
Import CropYield.
Import DataPreprocessor.

Lemma list_filter_sublist {A} (f : A -> bool) (l : list A) :
  sublist (List.filter f l) l.
Proof.
  induction l as [| x l IH]; simpl; [constructor |].
  destruct (f x); now constructor.
Qed.

Lemma Forall_of_sublist {A} (P : A -> Prop) (k l : list A) :
  sublist k l -> Forall P l -> Forall P k.
Proof.
  induction 1 as [| x k l _ IH | x k l _ IH]; intros H;
    [constructor | |]; inversion H; subst; auto.
Qed.

Lemma Forall2_sublist_r {A B} (R : A -> B -> Prop) (l : list A)
    (k k' : list B) :
  Forall2 R l k -> sublist k' k ->
  exists l', sublist l' l /\ Forall2 R l' k'.
Proof.
  intros H Hs. revert l H.
  induction Hs as [| y k' k _ IH | y k' k _ IH]; intros l H.
  - exists []. split; [apply sublist_nil_l | constructor].
  - inversion H as [| x ? l0 ? Hx Hl]; subst.
    destruct (IH l0 Hl) as (l' & Hl' & HF).
    exists (x :: l'). split; now constructor.
  - inversion H as [| x ? l0 ? Hx Hl]; subst.
    destruct (IH l0 Hl) as (l' & Hl' & HF).
    exists l'. split; [now constructor | exact HF].
Qed.

Lemma cleaned_from_refl (r : gmap string cell) : cleaned_from r r.
Proof. intros c. now left. Qed.

Lemma cleaned_from_trans (r1 r2 r3 : gmap string cell) :
  cleaned_from r1 r2 -> cleaned_from r2 r3 -> cleaned_from r1 r3.
Proof.
  intros H12 H23 c. destruct (H23 c) as [-> | [Hn Hc]]; [apply H12 |].
  destruct (H12 c) as [Heq | ?]; [| now right].
  right. split; [congruence | exact Hc].
Qed.

Lemma Forall2_cleaned_refl (l : list (gmap string cell)) :
  Forall2 cleaned_from l l.
Proof. induction l; constructor; [apply cleaned_from_refl | assumption]. Qed.

Lemma stems_from_refl (df : DataFrame) : stems_from df df.
Proof.
  split; [reflexivity |]. exists (rows df). split; [reflexivity |].
  apply Forall2_cleaned_refl.
Qed.

Lemma Forall2_cleaned_trans (l1 l2 l3 : list (gmap string cell)) :
  Forall2 cleaned_from l1 l2 -> Forall2 cleaned_from l2 l3 ->
  Forall2 cleaned_from l1 l3.
Proof.
  intros H. revert l3. induction H as [| x y l1 l2 Hxy _ IH]; intros l3 H3;
    inversion H3; subst; constructor;
    [eapply cleaned_from_trans; eassumption | now apply IH].
Qed.

Lemma stems_from_trans (d1 d2 d3 : DataFrame) :
  stems_from d1 d2 -> stems_from d2 d3 -> stems_from d1 d3.
Proof.
  intros [Hc1 (k1 & Hs1 & H1)] [Hc2 (k2 & Hs2 & H2)].
  split; [congruence |].
  destruct (Forall2_sublist_r _ _ _ _ H1 Hs2) as (k & Hk & HF).
  exists k. split; [now transitivity k1 |].
  eapply Forall2_cleaned_trans; eassumption.
Qed.

Lemma stems_from_filter (f : gmap string cell -> bool) (df : DataFrame) :
  stems_from df (mk_df (columns df) (List.filter f (rows df))).
Proof.
  split; [reflexivity |]. exists (List.filter f (rows df)).
  split; [apply list_filter_sublist | apply Forall2_cleaned_refl].
Qed.

Lemma cell_at_insert (c c' : string) (v : cell) (r : gmap string cell) :
  cell_at c (<[c' := v]> r) = if decide (c' = c) then v else cell_at c r.
Proof.
  unfold cell_at. destruct (decide (c' = c)) as [-> | Hne].
  - now rewrite lookup_insert_eq.
  - now rewrite lookup_insert_ne.
Qed.

Lemma stems_from_fillna (c : string) (v : cell) (df : DataFrame) :
  c ∈ fill_columns -> stems_from df (fillna c v df).
Proof.
  intros Hc. split; [reflexivity |]. exists (rows df).
  split; [reflexivity |]. unfold fillna. cbn [rows].
  induction (rows df) as [| r l IH]; constructor; [| exact IH].
  intros c'. destruct (isna (cell_at c r)) eqn:Hna; [| now left].
  rewrite cell_at_insert. destruct (decide (c = c')) as [<- | _]; [| now left].
  right. split; [| exact Hc]. now destruct (cell_at c r).
Qed.

Lemma stems_from_fill_median (c : string) (df df' : DataFrame) :
  c ∈ fill_columns -> fill_median c df = Ok df' -> stems_from df df'.
Proof.
  intros Hc. unfold fill_median. destruct (has_column c df).
  - intros H. apply CropYieldSpec.bind_Ok in H as (m & _ & H).
    injection H as <-. destruct m; [now apply stems_from_fillna |].
    apply stems_from_refl.
  - intros [= <-]. apply stems_from_refl.
Qed.

Lemma stems_from_remove_outliers (c : string) (df df' : DataFrame) :
  remove_outliers c df = Ok df' -> stems_from df df'.
Proof.
  unfold remove_outliers. destruct (has_column c df).
  - intros H. apply CropYieldSpec.bind_Ok in H as (Q1 & _ & H).
    apply CropYieldSpec.bind_Ok in H as (Q3 & _ & H).
    destruct (iqr_bounds Q1 Q3) as [lower upper].
    injection H as <-. apply stems_from_filter.
  - intros [= <-]. apply stems_from_refl.
Qed.

Lemma stems_from_remove_outliers_all (cols : list string)
    (df out : DataFrame) :
  remove_outliers_all cols df = Ok out -> stems_from df out.
Proof.
  revert out. induction cols as [| c cols IH] using rev_ind; intros out H.
  - injection H as <-. apply stems_from_refl.
  - destruct (CropYieldSpec.remove_outliers_all_app _ _ _ _ H)
      as (mid & Hmid & _).
    rewrite (CropYieldSpec.remove_outliers_all_snoc _ _ _ _ Hmid) in H.
    eapply stems_from_trans; [apply IH, Hmid |].
    now apply stems_from_remove_outliers in H.
Qed.

Lemma stems_from_dropna (cols : list string) (df df' : DataFrame) :
  dropna cols df = Ok df' -> stems_from df df'.
Proof.
  unfold dropna. destruct (forallb _ cols); [| discriminate].
  intros [= <-]. apply stems_from_filter.
Qed.

Lemma clean_table_stems (d out : DataFrame) :
  clean_table d = Ok out -> stems_from d out.
Proof.
  unfold clean_table. intros H.
  apply CropYieldSpec.bind_Ok in H as (d1 & H1 & H).
  apply CropYieldSpec.bind_Ok in H as (d2 & H2 & H).
  apply CropYieldSpec.bind_Ok in H as (d3 & H3 & H).
  apply CropYieldSpec.bind_Ok in H as (d4 & H4 & H).
  apply stems_from_dropna in H1.
  apply stems_from_fill_median in H2; [| apply list_elem_of_In; simpl; tauto].
  apply stems_from_fill_median in H3; [| apply list_elem_of_In; simpl; tauto].
  apply stems_from_fill_median in H4; [| apply list_elem_of_In; simpl; tauto].
  apply stems_from_remove_outliers_all in H.
  assert (stems_from d4 (if has_column "Season" d4
                         then fillna "Season" (Str "Unknown") d4 else d4))
    as H5.
  { destruct (has_column "Season" d4); [| apply stems_from_refl].
    apply stems_from_fillna. apply list_elem_of_In; simpl; tauto. }
  exact (stems_from_trans _ _ _ H1
           (stems_from_trans _ _ _ H2
              (stems_from_trans _ _ _ H3
                 (stems_from_trans _ _ _ H4
                    (stems_from_trans _ _ _ H5 H))))).
Qed.

(** Cleaning never alters a recorded value: the cleaned table has the
    columns of the raw one, and its rows are, in order, rows of the raw
    table in which at most missing cells of [Annual_Rainfall],
    [Fertilizer], [Pesticide] and [Season] were filled. *)
Theorem cleaning_keeps_recorded_values (d out : DataFrame) :
  clean_table d = Ok out ->
  columns out = columns d
  /\ exists kept, sublist kept (rows d)
                  /\ Forall2 cleaned_from kept (rows out).
Proof. exact (clean_table_stems d out). Qed.


Lemma column_all_stems (c : string) (ok : cell -> Prop) (df df' : DataFrame) :
  ~ ok NaN ->
  stems_from df df' -> column_all c ok df -> column_all c ok df'.
Proof.
  intros Hna [_ (kept & Hs & HF)] H. unfold column_all in *.
  apply (Forall_of_sublist _ _ _ Hs) in H. clear Hs.
  induction HF as [| r r' k k' Hr _ IH]; [constructor |].
  inversion H as [| ? ? Hok Hk]; subst. constructor; [| now apply IH].
  destruct (Hr c) as [-> | [Hn _]]; [exact Hok |].
  rewrite Hn in Hok. contradiction.
Qed.

Lemma column_all_dropna (cols : list string) (c : string)
    (df df' : DataFrame) :
  dropna cols df = Ok df' -> c ∈ cols ->
  column_all c (fun v => v <> NaN) df'.
Proof.
  unfold dropna. destruct (forallb _ cols); [| discriminate].
  intros [= <-] Hc. unfold column_all. cbn [rows].
  apply List.Forall_forall. intros r Hr.
  apply filter_In in Hr as [_ Hr].
  rewrite forallb_forall in Hr. apply list_elem_of_In in Hc.
  specialize (Hr c Hc). now destruct (cell_at c r).
Qed.

Lemma dropna_columns (cols : list string) (c : string) (df df' : DataFrame) :
  dropna cols df = Ok df' -> c ∈ cols -> c ∈ columns df.
Proof.
  unfold dropna. destruct (forallb _ cols) eqn:Hall; [| discriminate].
  intros _ Hc. rewrite forallb_forall in Hall. apply list_elem_of_In in Hc.
  specialize (Hall c Hc). unfold has_column in Hall.
  now apply bool_decide_eq_true in Hall.
Qed.

Lemma column_all_remove_outliers (c : string) (df df' : DataFrame) :
  remove_outliers c df = Ok df' -> c ∈ columns df ->
  column_all c (fun v => exists x, v = Num x) df'.
Proof.
  unfold remove_outliers, has_column. intros H Hc.
  rewrite bool_decide_eq_true_2 in H by exact Hc.
  apply CropYieldSpec.bind_Ok in H as (Q1 & _ & H).
  apply CropYieldSpec.bind_Ok in H as (Q3 & _ & H).
  destruct (iqr_bounds Q1 Q3) as [lower upper].
  injection H as <-. unfold column_all. cbn [rows].
  apply List.Forall_forall. intros r Hr. apply filter_In in Hr as [_ Hr].
  unfold within in Hr.
  destruct lower, upper, (cell_at c r) as [x | |]; try discriminate.
  now exists x.
Qed.

(** After the outlier loop, each of its columns that the table has holds
    numbers only. *)
Lemma column_all_remove_outliers_all (cols : list string) (c : string)
    (df out : DataFrame) :
  remove_outliers_all cols df = Ok out -> c ∈ cols -> c ∈ columns df ->
  column_all c (fun v => exists x, v = Num x) out.
Proof.
  revert out. induction cols as [| c' cols IH] using rev_ind;
    intros out H Hc Hcol.
  - now apply elem_of_nil in Hc.
  - destruct (CropYieldSpec.remove_outliers_all_app _ _ _ _ H)
      as (mid & Hmid & _).
    rewrite (CropYieldSpec.remove_outliers_all_snoc _ _ _ _ Hmid) in H.
    destruct (decide (c = c')) as [<- | Hne].
    + apply (column_all_remove_outliers c mid out H).
      apply stems_from_remove_outliers_all in Hmid as [-> _]. exact Hcol.
    + apply (column_all_stems c _ mid out).
      * intros [x Hx]. discriminate.
      * now apply stems_from_remove_outliers in H.
      * apply IH; [exact Hmid | | exact Hcol].
        apply elem_of_app in Hc as [Hc | Hc]; [exact Hc |].
        apply list_elem_of_singleton in Hc. contradiction.
Qed.

Lemma column_all_fillna (c : string) (v : cell) (df : DataFrame) :
  v <> NaN -> column_all c (fun w => w <> NaN) (fillna c v df).
Proof.
  intros Hv. unfold column_all, fillna. cbn [rows].
  apply List.Forall_forall. intros r' Hr. apply in_map_iff in Hr as (r & <- & _).
  destruct (isna (cell_at c r)) eqn:Hna.
  - rewrite cell_at_insert. now rewrite decide_True.
  - now destruct (cell_at c r).
Qed.

(** Every cleaned record is complete: crop and state are present, each
    numerical column the table has holds a number, and the season, when
    the table has the column, is present. *)
Theorem cleaned_records_are_complete (d out : DataFrame) :
  clean_table d = Ok out ->
  Forall (complete_record (columns d)) (rows out).
Proof.
  unfold clean_table. intros H.
  apply CropYieldSpec.bind_Ok in H as (d1 & H1 & H).
  apply CropYieldSpec.bind_Ok in H as (d2 & H2 & H).
  apply CropYieldSpec.bind_Ok in H as (d3 & H3 & H).
  apply CropYieldSpec.bind_Ok in H as (d4 & H4 & H).
  set (d5 := if has_column "Season" d4
             then fillna "Season" (Str "Unknown") d4 else d4) in H.
  pose proof (stems_from_dropna _ _ _ H1) as S1.
  pose proof (stems_from_fill_median "Annual_Rainfall" _ _
                ltac:(apply list_elem_of_In; simpl; tauto) H2) as S2.
  pose proof (stems_from_fill_median "Fertilizer" _ _
                ltac:(apply list_elem_of_In; simpl; tauto) H3) as S3.
  pose proof (stems_from_fill_median "Pesticide" _ _
                ltac:(apply list_elem_of_In; simpl; tauto) H4) as S4.
  assert (stems_from d4 d5) as S5.
  { subst d5. destruct (has_column "Season" d4); [| apply stems_from_refl].
    apply stems_from_fillna. apply list_elem_of_In; simpl; tauto. }
  pose proof (stems_from_remove_outliers_all _ _ _ H) as S6.
  pose proof (stems_from_trans _ _ _ S2
                (stems_from_trans _ _ _ S3
                   (stems_from_trans _ _ _ S4
                      (stems_from_trans _ _ _ S5 S6)))) as S26.
  assert (columns d5 = columns d) as Hcols.
  { destruct (stems_from_trans _ _ _ S1
                (stems_from_trans _ _ _ S2
                   (stems_from_trans _ _ _ S3
                      (stems_from_trans _ _ _ S4 S5)))) as [Hc _].
    exact Hc. }
  assert (forall c, c ∈ ["Crop"; "State"] ->
                    column_all c (fun v => v <> NaN) out) as Hlabels.
  { intros c Hc. apply (column_all_stems c _ d1 out); [congruence | exact S26 |].
    apply (column_all_dropna critical_columns c d d1 H1).
    unfold critical_columns. apply list_elem_of_In.
    apply list_elem_of_In in Hc. simpl in *. tauto. }
  assert (forall c, c ∈ numerical_cols -> c ∈ columns d ->
                    column_all c (fun v => exists x, v = Num x) out) as Hnum.
  { intros c Hc Hcol.
    apply (column_all_remove_outliers_all numerical_cols c d5 out H Hc).
    now rewrite Hcols. }
  assert ("Season" ∈ columns d ->
          column_all "Season" (fun v => v <> NaN) out) as Hseason.
  { intros Hs. apply (column_all_stems "Season" _ d5 out);
      [congruence | exact S6 |].
    subst d5. unfold has_column. rewrite bool_decide_eq_true_2.
    - now apply column_all_fillna.
    - destruct (stems_from_trans _ _ _ S1
                  (stems_from_trans _ _ _ S2
                     (stems_from_trans _ _ _ S3 S4))) as [-> _].
      exact Hs. }
  apply List.Forall_forall. intros r Hr. unfold complete_record.
  split; [| split].
  - intros c Hc. specialize (Hlabels c Hc). unfold column_all in Hlabels.
    rewrite List.Forall_forall in Hlabels. now apply Hlabels.
  - intros c Hc Hcol. specialize (Hnum c Hc Hcol). unfold column_all in Hnum.
    rewrite List.Forall_forall in Hnum. now apply Hnum.
  - intros Hs. specialize (Hseason Hs). unfold column_all in Hseason.
    rewrite List.Forall_forall in Hseason. now apply Hseason.
Qed.

End CropYieldCleaning.

(** * Properties of the label codes (encode_categorical_features) *)
Module CropYieldCodes.
Import CropYield.
Import LabelEncoder DataPreprocessor.

Lemma index_of_lookup (s : string) (l : list string) (i : Z) :
  index_of s l = Some i -> 0 <= i /\ l !! Z.to_nat i = Some s.
Proof.
  revert i. induction l as [| x l IH]; intros i; simpl; [discriminate |].
  destruct (String.eqb_spec s x) as [-> | _].
  - intros [= <-]. split; [lia | reflexivity].
  - destruct (index_of s l) as [j |]; simpl; [| discriminate].
    intros [= <-]. destruct (IH j eq_refl) as [Hj Hl]. split; [lia |].
    rewrite Z2Nat.inj_succ by lia. exact Hl.
Qed.

Lemma transform_single_lookup (enc : LabelEncoder.t) (l : string) (z : Z) :
  transform_single enc l = Ok z ->
  exists classes, classes_ enc = Some classes
                  /\ 0 <= z /\ classes !! Z.to_nat z = Some l.
Proof.
  unfold transform_single, transform, mbind, result_bind.
  destruct (classes_ enc) as [classes |]; [| discriminate].
  simpl. destruct (index_of l classes) as [i |] eqn:Hi; [| discriminate].
  simpl. intros [= <-]. exists classes. split; [reflexivity |].
  now apply index_of_lookup.
Qed.

Lemma transform_single_seen (enc : LabelEncoder.t) (l : string) :
  ~ unseen l enc -> exists z, transform_single enc l = Ok z.
Proof.
  unfold unseen, transform_single, transform, mbind, result_bind.
  destruct (classes_ enc) as [classes |]; [| intros H; now destruct H].
  intros H. simpl. destruct (index_of l classes) as [i |] eqn:Hi.
  - now exists i.
  - apply CropYieldSpec.index_of_None in Hi. contradiction.
Qed.

Lemma encode_single_prediction_fields (p : DataPreprocessor.t)
    (crop state : string) (season : option string) (c s n : Z) :
  encode_single_prediction p crop state season = Ok (c, s, n) ->
  except_ValueError (transform_single (crop_encoder p) crop) 0 = Ok c
  /\ except_ValueError (transform_single (state_encoder p) state) 0 = Ok s
  /\ match truthy season with
     | Some l => except_ValueError (transform_single (season_encoder p) l) 0
     | None => Ok 0
     end = Ok n.
Proof.
  unfold encode_single_prediction. intros E.
  apply CropYieldSpec.bind_Ok in E as (c' & Hc & E).
  apply CropYieldSpec.bind_Ok in E as (s' & Hs & E).
  apply CropYieldSpec.bind_Ok in E as (n' & Hn & E).
  injection E as -> -> ->. auto.
Qed.

Lemma seen_codes_decode (enc : LabelEncoder.t) (l1 l2 : string) (z : Z) :
  ~ unseen l1 enc -> ~ unseen l2 enc ->
  except_ValueError (transform_single enc l1) 0 = Ok z ->
  except_ValueError (transform_single enc l2) 0 = Ok z ->
  l1 = l2.
Proof.
  intros H1 H2 E1 E2.
  destruct (transform_single_seen _ _ H1) as [z1 Hz1].
  destruct (transform_single_seen _ _ H2) as [z2 Hz2].
  rewrite Hz1 in E1. rewrite Hz2 in E2.
  injection E1 as ->. injection E2 as ->.
  apply transform_single_lookup in Hz1 as (k1 & Hk1 & _ & Hl1).
  apply transform_single_lookup in Hz2 as (k2 & Hk2 & _ & Hl2).
  congruence.
Qed.

(** Labels that have a code never share it: two crops (or two states)
    known to the encoder and encoded to the same number are the same
    label. *)
Theorem seen_labels_get_distinct_codes (p : DataPreprocessor.t)
    (crop1 crop2 state1 state2 : string) (season1 season2 : option string)
    (c1 c2 s1 s2 n1 n2 : Z) :
  encode_single_prediction p crop1 state1 season1 = Ok (c1, s1, n1) ->
  encode_single_prediction p crop2 state2 season2 = Ok (c2, s2, n2) ->
  (~ unseen crop1 (crop_encoder p) -> ~ unseen crop2 (crop_encoder p) ->
   c1 = c2 -> crop1 = crop2)
  /\ (~ unseen state1 (state_encoder p) -> ~ unseen state2 (state_encoder p) ->
      s1 = s2 -> state1 = state2).
Proof.
  intros E1 E2.
  apply encode_single_prediction_fields in E1 as (Hc1 & Hs1 & _).
  apply encode_single_prediction_fields in E2 as (Hc2 & Hs2 & _).
  split; intros U1 U2 <-; eapply seen_codes_decode; eassumption.
Qed.

(** *** Encoding a column *)

(** A column that [transform] accepts: every row gets, under [dst], the
    code the single-record path gives the label it holds under [src]. *)
Lemma encoded_column (enc : LabelEncoder.t) (src dst : string)
    (df : DataFrame) (codes : list Z) :
  transform enc (map (cell_at src) (rows df)) = Ok codes ->
  Forall2 (fun r r' =>
             exists l z, cell_at src r = Str l
                         /\ transform_single enc l = Ok z
                         /\ r' = <[dst := Num (inject_Z z)]> r)
          (rows df) (rows (set_column dst (code_cells codes) df)).
Proof.
  intros H. apply CropYieldSpec.transform_rowwise in H.
  unfold set_column, code_cells. cbn [rows].
  remember (rows df) as rs eqn:Hrs. clear Hrs.
  revert codes H. induction rs as [| r rs IH]; intros codes H.
  - inversion H; subst. constructor.
  - inversion H as [| v z vs zs (l & Hv & Hz) Hrest]; subst.
    simpl. constructor; [| now apply IH].
    exists l, z. auto.
Qed.

(** [transform] accepts a column whose every cell is a label with a code
    (before [fit] no label has one); its only failures are
    [ValueError]s. *)
Lemma transform_accepts (enc : LabelEncoder.t) (vs : list cell) :
  Forall (fun v => exists l, v = Str l /\ ~ unseen l enc) vs ->
  (exists codes, transform enc vs = Ok codes) \/ vs = [].
Proof.
  unfold transform, unseen.
  destruct (classes_ enc) as [classes |].
  - intros H. left. apply CropYieldSpec.mapR_total. intros v Hv.
    rewrite List.Forall_forall in H. destruct (H v Hv) as (l & -> & Hl).
    simpl. destruct (index_of l classes) as [i |] eqn:Hi; [now exists i |].
    apply CropYieldSpec.index_of_None in Hi. contradiction.
  - intros H. right. destruct vs as [| v vs]; [reflexivity |].
    inversion H as [| ? ? (l & _ & Hl) _]; subst. now destruct Hl.
Qed.

Lemma transform_raises_ValueError (enc : LabelEncoder.t) (vs : list cell)
    (e : exn) :
  transform enc vs = Raise e -> is_ValueError e = true.
Proof.
  unfold transform. destruct (classes_ enc) as [classes |];
    [| now intros [= <-]].
  induction vs as [| v vs IH]; simpl; [discriminate |].
  unfold mbind, result_bind.
  destruct (encode_label classes v) as [z |] eqn:Hv; cbn [bind].
  - destruct (mapR (encode_label classes) vs); cbn [bind];
      [discriminate |]. intros [= <-]. now apply IH.
  - intros [= <-]. destruct v as [q | l |]; simpl in Hv;
      try (now injection Hv as <-).
    destruct (index_of l classes); [discriminate | now injection Hv as <-].
Qed.


Lemma all_seen_transform (src : string) (enc : LabelEncoder.t)
    (df : DataFrame) (codes : list Z) :
  transform enc (map (cell_at src) (rows df)) = Ok codes ->
  all_seen src enc df.
Proof.
  intros H. apply CropYieldSpec.transform_rowwise in H. unfold all_seen.
  remember (rows df) as rs eqn:Hrs. clear Hrs.
  revert codes H. induction rs as [| r rs IH]; intros codes H;
    [constructor |].
  inversion H as [| v z vs zs (l & Hv & Hz) Hrest]; subst.
  constructor; [| now apply (IH zs)].
  exists l. split; [exact Hv |]. intros Hun.
  destruct (CropYieldSpec.encoded_or_default enc l) as (z' & Hz' & H0).
  apply transform_single_lookup in Hz as (classes & Hcl & _ & Hl).
  unfold unseen in Hun. rewrite Hcl in Hun. apply Hun.
  now apply list_elem_of_lookup_2 in Hl.
Qed.

(** One column of the batch path. *)
Lemma transform_column_rows (src dst : string) (enc : LabelEncoder.t)
    (df df' : DataFrame) :
  transform_column src dst enc df = Ok df' ->
  Forall2 (fun r r' => exists z, r' = <[dst := Num (inject_Z z)]> r
                                 /\ batch_code src enc df r z)
          (rows df) (rows df').
Proof.
  unfold transform_column, get_column, mbind, result_bind.
  destruct (has_column src df); cbn [bind]; [| discriminate].
  destruct (transform enc (map (cell_at src) (rows df))) as [codes | e]
    eqn:Ht.
  - intros [= <-]. pose proof (all_seen_transform _ _ _ _ Ht) as Hall.
    apply (encoded_column enc src dst) in Ht.
    eapply Forall2_impl; [exact Ht |].
    intros r r' (l & z & Hl & Hz & ->). exists z. split; [reflexivity |].
    split; [| contradiction]. intros _. now exists l.
  - rewrite (transform_raises_ValueError _ _ _ Ht). intros [= <-].
    unfold set_column_scalar. cbn [rows].
    assert (rows df = [] \/ ~ all_seen src enc df) as [-> | Hnot].
    { destruct (rows df) as [| r rs] eqn:Hrows; [now left |]. right.
      intros Hall. unfold all_seen in Hall. rewrite Hrows in Hall.
      apply (List.Forall_map (cell_at src)
               (fun v => exists l, v = Str l /\ ~ unseen l enc)) in Hall.
      apply transform_accepts in Hall as [[codes Hc] | Hnil];
        [congruence | discriminate]. }
    + constructor.
    + clear Ht. induction (rows df) as [| r rs IH]; [constructor |].
      constructor; [| exact IH].
      exists 0. split; [reflexivity |]. split; [contradiction | reflexivity].
Qed.


(** One column of the fitting path. *)
Lemma fit_column_rows (src dst : string) (enc enc' : LabelEncoder.t)
    (df df' : DataFrame) :
  fit_column src dst enc df = (Ok df', enc') ->
  Forall2 (fun r r' =>
             exists l z, cell_at src r = Str l
                         /\ transform_single enc' l = Ok z
                         /\ r' = <[dst := Num (inject_Z z)]> r)
          (rows df) (rows df').
Proof.
  unfold fit_column, get_column, fit_transform.
  destruct (has_column src df); [| discriminate].
  destruct (fit (map (cell_at src) (rows df)) enc) as [e1 |];
    [| discriminate].
  destruct (transform e1 (map (cell_at src) (rows df))) as [codes |] eqn:Ht;
    [| discriminate].
  intros [= <- <-]. now apply encoded_column.
Qed.

Lemma column_after_step (dst : string) (df df' : DataFrame)
    (R : gmap string cell -> gmap string cell -> Prop) :
  Forall2 R (rows df) (rows df') ->
  (forall r r', R r r' -> exists v, r' = <[dst := v]> r) ->
  forall c, c <> dst ->
  Forall2 (fun r r' => cell_at c r' = cell_at c r) (rows df) (rows df').
Proof.
  intros H HR c Hc. eapply Forall2_impl; [exact H |].
  intros r r' Hr. destruct (HR r r' Hr) as [v ->].
  rewrite CropYieldCleaning.cell_at_insert. now rewrite decide_False by congruence.
Qed.

Lemma all_seen_same_cells (src : string) (enc : LabelEncoder.t)
    (df df' : DataFrame) :
  Forall2 (fun r r' => cell_at src r' = cell_at src r) (rows df) (rows df') ->
  all_seen src enc df' <-> all_seen src enc df.
Proof.
  unfold all_seen. induction 1 as [| r r' k k' Hr _ IH].
  - split; constructor.
  - rewrite !Forall_cons, IH, Hr. reflexivity.
Qed.

Lemma Forall2_compose {A} (R1 R2 R : A -> A -> Prop) (l1 l2 l3 : list A) :
  (forall a b c, R1 a b -> R2 b c -> R a c) ->
  Forall2 R1 l1 l2 -> Forall2 R2 l2 l3 -> Forall2 R l1 l3.
Proof.
  intros HR H. revert l3. induction H as [| a b l1 l2 Hab _ IH]; intros l3 H3;
    inversion H3; subst; constructor; [eapply HR; eassumption | now apply IH].
Qed.


Lemma Forall2_compose3 {A} (R1 R2 R3 R : A -> A -> Prop)
    (l1 l2 l3 l4 : list A) :
  (forall a b c d, R1 a b -> R2 b c -> R3 c d -> R a d) ->
  Forall2 R1 l1 l2 -> Forall2 R2 l2 l3 -> Forall2 R3 l3 l4 ->
  Forall2 R l1 l4.
Proof.
  intros HR H12 H23 H34.
  apply (Forall2_compose (fun a c => exists b, R1 a b /\ R2 b c) R3 R
                         l1 l3 l4); [| | exact H34].
  - intros a c d (b & Hab & Hbc) Hcd. eapply HR; eassumption.
  - apply (Forall2_compose R1 R2 _ l1 l2 l3); [| exact H12 | exact H23].
    intros a b c Hab Hbc. now exists b.
Qed.

Lemma encode_single_prediction_of_codes (p : DataPreprocessor.t)
    (crop state : string) (c s : Z) :
  transform_single (crop_encoder p) crop = Ok c ->
  transform_single (state_encoder p) state = Ok s ->
  (forall season, exists n,
      encode_single_prediction p crop state season = Ok (c, s, n))
  /\ (forall l n, l <> "" ->
      transform_single (season_encoder p) l = Ok n ->
      encode_single_prediction p crop state (Some l) = Ok (c, s, n)).
Proof.
  intros Hc Hs. unfold encode_single_prediction, mbind, result_bind.
  rewrite Hc, Hs. cbn [except_ValueError bind]. split.
  - intros season. destruct (truthy season) as [l |]; [| now exists 0].
    destruct (CropYieldSpec.encoded_or_default (season_encoder p) l)
      as (n & -> & _).
    now exists n.
  - intros l n Hl Hn. cbn [truthy].
    destruct (String.eqb_spec l "") as [| _]; [contradiction |].
    now rewrite Hn.
Qed.

Lemma has_column_set_column (c dst : string) (vs : list cell)
    (df : DataFrame) :
  c <> dst -> has_column c (set_column dst vs df) = has_column c df.
Proof.
  intros Hne. unfold set_column, has_column at 1. cbn [columns].
  destruct (has_column dst df); [reflexivity |]. unfold has_column.
  apply bool_decide_ext. rewrite elem_of_app, list_elem_of_singleton.
  tauto.
Qed.

Lemma fit_column_has_column (c src dst : string) (enc enc' : LabelEncoder.t)
    (df df' : DataFrame) :
  c <> dst -> fit_column src dst enc df = (Ok df', enc') ->
  has_column c df' = has_column c df.
Proof.
  intros Hne. unfold fit_column.
  destruct (get_column src df); [| discriminate].
  destruct (fit_transform _ enc) as [[codes |] e1]; [| discriminate].
  intros [= <- _]. now apply has_column_set_column.
Qed.

(** The codes written while fitting are the codes served later.  After
    [encode_categorical_features] has fitted the encoders on a table, each
    row holds, in its code columns, exactly the codes that
    [encode_single_prediction] returns for the row's crop, state and
    (non-empty) season; all other cells are untouched. *)
Theorem training_codes_are_serving_codes (df out : DataFrame)
    (p p' : DataPreprocessor.t) :
  is_fitted p = false ->
  encode_categorical_features df p = (Ok out, p') ->
  is_fitted p' = true
  /\ Forall2
       (fun r r' =>
          (forall c, c ∉ code_columns -> cell_at c r' = cell_at c r)
          /\ exists crop state c s,
               cell_at "Crop" r = Str crop /\ cell_at "State" r = Str state
               /\ cell_at "Crop_Encoded" r' = Num (inject_Z c)
               /\ cell_at "State_Encoded" r' = Num (inject_Z s)
               /\ (forall season, exists n,
                      encode_single_prediction p' crop state season
                      = Ok (c, s, n))
               /\ ("Season" ∈ columns df ->
                   exists l n,
                     cell_at "Season" r = Str l
                     /\ cell_at "Season_Encoded" r' = Num (inject_Z n)
                     /\ (l <> "" ->
                         encode_single_prediction p' crop state (Some l)
                         = Ok (c, s, n))))
       (rows df) (rows out).
Proof.
  intros Hf. unfold encode_categorical_features. rewrite Hf. cbn [negb].
  destruct (fit_column "Crop" "Crop_Encoded" (crop_encoder p) df)
    as [[df1 |] ce] eqn:H1; [| discriminate].
  destruct (fit_column "State" "State_Encoded" (state_encoder p) df1)
    as [[df2 |] se] eqn:H2; [| discriminate].
  assert (has_column "Season" df2 = has_column "Season" df) as Hseason.
  { assert ("Season" <> "State_Encoded") as N2 by discriminate.
    assert ("Season" <> "Crop_Encoded") as N1 by discriminate.
    rewrite (fit_column_has_column _ _ _ _ _ _ _ N2 H2).
    exact (fit_column_has_column _ _ _ _ _ _ _ N1 H1). }
  apply fit_column_rows in H1. apply fit_column_rows in H2.
  destruct (has_column "Season" df2) eqn:Hs2.
  - destruct (fit_column "Season" "Season_Encoded" (season_encoder p) df2)
      as [[df3 |] ne] eqn:H3; [| discriminate].
    apply fit_column_rows in H3.
    intros [= <- <-]. split; [reflexivity |].
    eapply Forall2_compose3; [| exact H1 | exact H2 | exact H3].
    intros r r1 r2 r3 (l1 & z1 & Hl1 & Hz1 & ->)
           (l2 & z2 & Hl2 & Hz2 & ->) (l3 & z3 & Hl3 & Hz3 & ->).
    rewrite !CropYieldCleaning.cell_at_insert in *. cbn in Hl2, Hl3.
    split.
    + intros c Hc. rewrite !CropYieldCleaning.cell_at_insert.
      unfold code_columns in Hc. rewrite !not_elem_of_cons in Hc.
      destruct Hc as (? & ? & ? & _).
      now rewrite !decide_False by congruence.
    + exists l1, l2, z1, z2. cbn.
      destruct (encode_single_prediction_of_codes
                  (mk ce se ne true (data p) (cleaned_data p)) l1 l2 z1 z2
                  Hz1 Hz2) as [Hany Hsome].
      repeat (split; [reflexivity || assumption |]).
      intros _. exists l3, z3.
      split; [exact Hl3 |]. split; [reflexivity |].
      intros Hne. now apply Hsome.
  - intros [= <- <-]. split; [reflexivity |].
    eapply Forall2_compose; [| exact H1 | exact H2].
    intros r r1 r2 (l1 & z1 & Hl1 & Hz1 & ->) (l2 & z2 & Hl2 & Hz2 & ->).
    rewrite !CropYieldCleaning.cell_at_insert in *. cbn in Hl2.
    split.
    + intros c Hc. rewrite !CropYieldCleaning.cell_at_insert.
      unfold code_columns in Hc. rewrite !not_elem_of_cons in Hc.
      destruct Hc as (? & ? & ? & _).
      now rewrite !decide_False by congruence.
    + exists l1, l2, z1, z2. cbn.
      destruct (encode_single_prediction_of_codes
                  (mk ce se (season_encoder p) true (data p) (cleaned_data p))
                  l1 l2 z1 z2 Hz1 Hz2) as [Hany _].
      repeat (split; [reflexivity || assumption |]).
      intros Hin. exfalso. symmetry in Hseason. unfold has_column in Hseason.
      apply bool_decide_eq_false in Hseason. contradiction.
Qed.


Lemma transform_column_has_column (c src dst : string) (enc : LabelEncoder.t)
    (df df' : DataFrame) :
  c <> dst -> transform_column src dst enc df = Ok df' ->
  has_column c df' = has_column c df.
Proof.
  intros Hne. unfold transform_column.
  destruct (vs ← get_column src df; transform enc vs) as [codes | e].
  - intros [= <-]. now apply has_column_set_column.
  - destruct (is_ValueError e); [| discriminate]. intros [= <-].
    unfold set_column_scalar, has_column at 1. cbn [columns].
    destruct (has_column dst df); [reflexivity |]. unfold has_column.
    apply bool_decide_ext. rewrite elem_of_app, list_elem_of_singleton.
    tauto.
Qed.

(** The verdict of [batch_code] on a later table of the pipeline is its
    verdict on the original one, as long as column [src] was not touched. *)
Lemma batch_code_earlier (src : string) (enc : LabelEncoder.t)
    (df df' : DataFrame) (r r' : gmap string cell) (z : Z) :
  Forall2 (fun r r' => cell_at src r' = cell_at src r) (rows df) (rows df') ->
  cell_at src r' = cell_at src r ->
  batch_code src enc df' r' z -> batch_code src enc df r z.
Proof.
  intros Hrows Hr [Hyes Hno]. apply (all_seen_same_cells src enc) in Hrows.
  split.
  - intros Hall. rewrite <- Hr. apply Hyes. now apply Hrows.
  - intros Hall. apply Hno. intros H. apply Hall. now apply Hrows.
Qed.

Lemma encode_transform_rows (df out : DataFrame)
    (p p' : DataPreprocessor.t) :
  is_fitted p = true ->
  encode_categorical_features df p = (Ok out, p') ->
  p' = p
  /\ Forall2
       (fun r r' =>
          (forall c, c ∉ code_columns -> cell_at c r' = cell_at c r)
          /\ (exists z, cell_at "Crop_Encoded" r' = Num (inject_Z z)
                        /\ batch_code "Crop" (crop_encoder p) df r z)
          /\ (exists z, cell_at "State_Encoded" r' = Num (inject_Z z)
                        /\ batch_code "State" (state_encoder p) df r z)
          /\ ("Season" ∈ columns df ->
              exists z, cell_at "Season_Encoded" r' = Num (inject_Z z)
                        /\ batch_code "Season" (season_encoder p) df r z))
       (rows df) (rows out).
Proof.
  intros Hf. unfold encode_categorical_features. rewrite Hf. cbn [negb].
  intros [= H <-]. split; [reflexivity |].
  apply CropYieldSpec.bind_Ok in H as (df1 & H1 & H).
  apply CropYieldSpec.bind_Ok in H as (df2 & H2 & H).
  assert (has_column "Season" df2 = has_column "Season" df) as Hseason.
  { assert ("Season" <> "State_Encoded") as N2 by discriminate.
    assert ("Season" <> "Crop_Encoded") as N1 by discriminate.
    rewrite (transform_column_has_column _ _ _ _ _ _ N2 H2).
    exact (transform_column_has_column _ _ _ _ _ _ N1 H1). }
  apply transform_column_rows in H1. apply transform_column_rows in H2.
  assert (forall c, c <> "Crop_Encoded" ->
            Forall2 (fun r r' => cell_at c r' = cell_at c r)
                    (rows df) (rows df1)) as K1.
  { apply (column_after_step "Crop_Encoded" df df1 _ H1).
    intros r r' (z & -> & _). eauto. }
  assert (forall c, c <> "State_Encoded" ->
            Forall2 (fun r r' => cell_at c r' = cell_at c r)
                    (rows df1) (rows df2)) as K2.
  { apply (column_after_step "State_Encoded" df1 df2 _ H2).
    intros r r' (z & -> & _). eauto. }
  assert (forall c, c <> "Crop_Encoded" -> c <> "State_Encoded" ->
            Forall2 (fun r r' => cell_at c r' = cell_at c r)
                    (rows df) (rows df2)) as K12.
  { intros c N1 N2.
    eapply Forall2_compose; [| apply (K1 c N1) | apply (K2 c N2)].
    intros a b d Hab Hbd. cbn in *. congruence. }
  destruct (has_column "Season" df2) eqn:Hs2.
  - apply transform_column_rows in H.
    eapply Forall2_compose3; [| exact H1 | exact H2 | exact H].
    intros r r1 r2 r3 (z1 & -> & B1) (z2 & -> & B2) (z3 & -> & B3).
    split; [| split; [| split]].
    + intros c Hc. rewrite !CropYieldCleaning.cell_at_insert.
      unfold code_columns in Hc. rewrite !not_elem_of_cons in Hc.
      destruct Hc as (? & ? & ? & _).
      now rewrite !decide_False by congruence.
    + exists z1. rewrite !CropYieldCleaning.cell_at_insert. split; [reflexivity | exact B1].
    + exists z2. rewrite !CropYieldCleaning.cell_at_insert. split; [reflexivity |].
      eapply (batch_code_earlier "State" _ df df1 r _ z2);
        [apply K1; discriminate | | exact B2].
      rewrite CropYieldCleaning.cell_at_insert. reflexivity.
    + intros _. exists z3. rewrite !CropYieldCleaning.cell_at_insert. split; [reflexivity |].
      eapply (batch_code_earlier "Season" _ df df2 r _ z3);
        [apply K12; discriminate | | exact B3].
      rewrite !CropYieldCleaning.cell_at_insert. reflexivity.
  - injection H as <-.
    eapply Forall2_compose; [| exact H1 | exact H2].
    intros r r1 r2 (z1 & -> & B1) (z2 & -> & B2).
    split; [| split; [| split]].
    + intros c Hc. rewrite !CropYieldCleaning.cell_at_insert.
      unfold code_columns in Hc. rewrite !not_elem_of_cons in Hc.
      destruct Hc as (? & ? & ? & _).
      now rewrite !decide_False by congruence.
    + exists z1. rewrite !CropYieldCleaning.cell_at_insert. split; [reflexivity | exact B1].
    + exists z2. rewrite !CropYieldCleaning.cell_at_insert. split; [reflexivity |].
      eapply (batch_code_earlier "State" _ df df1 r _ z2);
        [apply K1; discriminate | | exact B2].
      rewrite CropYieldCleaning.cell_at_insert. reflexivity.
    + intros Hin. exfalso. symmetry in Hseason. unfold has_column in Hseason.
      apply bool_decide_eq_false in Hseason. contradiction.
Qed.

(** The batch path with fitted encoders, column by column: when every
    label of the column has a code, each row gets the code of its own
    label; otherwise the whole column is 0.  The encoders and all other
    cells are untouched. *)
Theorem batch_codes_all_or_nothing (df out : DataFrame)
    (p p' : DataPreprocessor.t) :
  is_fitted p = true ->
  encode_categorical_features df p = (Ok out, p') ->
  p' = p
  /\ Forall2
       (fun r r' =>
          (forall c, c ∉ code_columns -> cell_at c r' = cell_at c r)
          /\ (exists z, cell_at "Crop_Encoded" r' = Num (inject_Z z)
                        /\ batch_code "Crop" (crop_encoder p) df r z)
          /\ (exists z, cell_at "State_Encoded" r' = Num (inject_Z z)
                        /\ batch_code "State" (state_encoder p) df r z)
          /\ ("Season" ∈ columns df ->
              exists z, cell_at "Season_Encoded" r' = Num (inject_Z z)
                        /\ batch_code "Season" (season_encoder p) df r z))
       (rows df) (rows out).
Proof. exact (encode_transform_rows df out p p'). Qed.

End CropYieldCodes.

(** * Batch prediction against single prediction *)
Module CropYieldBatch.
Import CropYield.
Import LabelEncoder DataPreprocessor YieldPredictor.
Import CropYieldCodes CropYieldCleaning CropYieldServing.

Lemma transform_column_dst (src dst : string) (enc : LabelEncoder.t)
    (df df' : DataFrame) :
  transform_column src dst enc df = Ok df' -> has_column dst df' = true.
Proof.
  assert (forall cols : list string,
             bool_decide (dst ∈ (if has_column dst df then columns df
                                 else (columns df ++ [dst])%list)) = true)
    as Hin.
  { intros _. destruct (has_column dst df) eqn:Hd; [exact Hd |].
    apply bool_decide_eq_true. apply elem_of_app. right.
    now apply list_elem_of_singleton. }
  unfold transform_column.
  destruct (vs ← get_column src df; transform enc vs) as [codes | e].
  - intros [= <-]. exact (Hin []).
  - destruct (is_ValueError e); [| discriminate]. intros [= <-].
    exact (Hin []).
Qed.

(** The columns of the table the batch path encodes. *)
Lemma encode_transform_columns (df out : DataFrame)
    (p p' : DataPreprocessor.t) :
  is_fitted p = true ->
  encode_categorical_features df p = (Ok out, p') ->
  (forall c, c ∉ code_columns -> has_column c out = has_column c df)
  /\ has_column "Crop_Encoded" out = true
  /\ has_column "State_Encoded" out = true
  /\ has_column "Season_Encoded" out
     = has_column "Season" df || has_column "Season_Encoded" df.
Proof.
  intros Hf. unfold encode_categorical_features. rewrite Hf. cbn [negb].
  intros [= H _].
  apply CropYieldSpec.bind_Ok in H as (df1 & H1 & H).
  apply CropYieldSpec.bind_Ok in H as (df2 & H2 & H).
  assert (forall c, c <> "Crop_Encoded" -> c <> "State_Encoded" ->
                    has_column c df2 = has_column c df) as H12.
  { intros c N1 N2.
    rewrite (transform_column_has_column _ _ _ _ _ _ N2 H2).
    exact (transform_column_has_column _ _ _ _ _ _ N1 H1). }
  assert (has_column "Crop_Encoded" df2 = true) as Hce.
  { assert ("Crop_Encoded" <> "State_Encoded") as N by discriminate.
    rewrite (transform_column_has_column _ _ _ _ _ _ N H2).
    exact (transform_column_dst _ _ _ _ _ H1). }
  pose proof (transform_column_dst _ _ _ _ _ H2) as Hse.
  destruct (has_column "Season" df2) eqn:Hs2.
  - assert (forall c, c <> "Season_Encoded" ->
                      has_column c out = has_column c df2) as H3.
    { intros c N3. exact (transform_column_has_column _ _ _ _ _ _ N3 H). }
    split; [| split; [| split]].
    + intros c Hc. unfold code_columns in Hc. rewrite !not_elem_of_cons in Hc.
      destruct Hc as (? & ? & ? & _). rewrite H3 by assumption.
      now apply H12.
    + rewrite H3 by discriminate. exact Hce.
    + rewrite H3 by discriminate. exact Hse.
    + rewrite (transform_column_dst _ _ _ _ _ H).
      rewrite <- (H12 "Season") by discriminate. now rewrite Hs2.
  - injection H as <-. split; [| split; [| split]].
    + intros c Hc. unfold code_columns in Hc. rewrite !not_elem_of_cons in Hc.
      destruct Hc as (? & ? & ? & _). now apply H12.
    + exact Hce.
    + exact Hse.
    + rewrite <- (H12 "Season") by discriminate. rewrite Hs2.
      now apply H12.
Qed.

Lemma mapR_cons_Ok {A B} (f : A -> result B) (a : A) (l : list A)
    (x : list B) :
  mapR f (a :: l) = Ok x ->
  exists y ys, f a = Ok y /\ mapR f l = Ok ys /\ x = y :: ys.
Proof.
  simpl. intros H. apply CropYieldSpec.bind_Ok in H as (y & Hy & H).
  apply CropYieldSpec.bind_Ok in H as (ys & Hys & H).
  injection H as <-. now exists y, ys.
Qed.

Lemma number_of_Ok (v : cell) (q : Q) : number_of v = Ok q -> v = Num q.
Proof. destruct v; simpl; congruence. Qed.

(** [df[cols]] keeps the cells of the listed columns. *)
Lemma cell_at_select (cols : list string) (c : string)
    (r : gmap string cell) :
  c ∈ cols ->
  cell_at c (filter (fun kv : string * cell => kv.1 ∈ cols) r) = cell_at c r.
Proof.
  intros Hc. unfold cell_at. rewrite map_lookup_filter.
  destruct (r !! c) as [v |]; [| reflexivity]. simpl.
  rewrite option_guard_True by exact Hc. reflexivity.
Qed.

(** [predict] on a consistent bundle, from the codes of the request. *)
Lemma predict_of_codes (self : YieldPredictor.t) (rq : request)
    (p : DataPreprocessor.t) (m : Model) (c s n : Z) :
  is_loaded self = true ->
  preprocessor self = PyPreprocessor p ->
  model self = PyModel m ->
  feature_names self = PyList (feature_names_in_ m) ->
  List.NoDup (feature_names_in_ m) ->
  encode_single_prediction p (crop rq) (state rq) (season rq) = Ok (c, s, n) ->
  length (assembled_features c s n rq (feature_names_in_ m))
  = length (feature_names_in_ m) ->
  predict self rq
  = Some (predict_fn m (assembled_features c s n rq (feature_names_in_ m))).
Proof.
  intros Hl Hp Hm Hn Hnd He Hlen. unfold predict. rewrite Hl. cbn [negb].
  rewrite (feature_frame_unfold self rq p _ c s n Hp Hn He).
  unfold single_row_frame. rewrite Hlen, Nat.eqb_refl.
  unfold mbind, result_bind. cbn [bind]. rewrite Hm. cbn [as_model bind].
  unfold model_predict. cbn [columns].
  rewrite bool_decide_eq_true_2 by reflexivity.
  rewrite (feature_vectors_single_row _ _ Hnd Hlen).
  reflexivity.
Qed.


Lemma except_Exception_Some {A} (r : result (option A)) (a : A) :
  except_Exception r None = Some a -> r = Ok (Some a).
Proof. destruct r; simpl; congruence. Qed.

Lemma set_column_rows_Forall2 {A} (S : gmap string cell -> A -> Prop)
    (f : A -> cell) (dst : string) (df : DataFrame) (xs : list A) :
  Forall2 S (rows df) xs ->
  Forall2 (fun r r' => exists x, S r x /\ r' = <[dst := f x]> r)
          (rows df) (rows (set_column dst (map f xs) df)).
Proof.
  unfold set_column. cbn [rows].
  induction 1 as [| r x rs xs Hrx _ IH]; simpl; constructor; [| exact IH].
  now exists x.
Qed.

Lemma Forall2_with_Forall {A B} (P : A -> Prop) (R : A -> B -> Prop)
    (l : list A) (k : list B) :
  Forall P l -> Forall2 R l k -> Forall2 (fun a b => P a /\ R a b) l k.
Proof.
  intros HP HR. induction HR as [| a b l k Hab _ IH]; constructor;
    inversion HP; subst; auto.
Qed.

(** Batch and single predictions agree on a known batch.  For a loaded,
    consistent bundle (the feature names are those of the model) with
    fitted encoders, when [predict_batch] returns a table for a batch whose
    labels all have codes, every row carries under [Predicted_Yield]
    exactly what [predict] returns for that record. *)
Theorem batch_agrees_with_single (self self' : YieldPredictor.t)
    (p : DataPreprocessor.t) (m : Model) (data out : DataFrame) :
  is_loaded self = true ->
  preprocessor self = PyPreprocessor p ->
  is_fitted p = true ->
  model self = PyModel m ->
  feature_names self = PyList (feature_names_in_ m) ->
  known_batch p data ->
  predict_batch self (Ok data) = (Some out, self') ->
  Forall2 (fun r r' =>
             exists rq y, request_of_row r = Some rq
                          /\ predict self rq = Some y
                          /\ r' = <["Predicted_Yield" := Num y]> r)
          (rows data) (rows out).
Proof.
  intros Hl Hp Hf Hm Hn (Hcols & Hcrop & Hstate & Hseason) H.
  unfold predict_batch in H. rewrite Hl, Hp in H. cbn [negb] in H.
  destruct (encode_categorical_features data p) as [encoded p''] eqn:He.
  injection H as H _. apply except_Exception_Some in H.
  apply CropYieldSpec.bind_Ok in H as (enc & -> & H).
  apply CropYieldSpec.bind_Ok in H as ([[X y] avail] & Hprep & H).
  rewrite Hm in H. cbn [as_model] in H.
  apply CropYieldSpec.bind_Ok in H as (m' & [= <-] & H).
  apply CropYieldSpec.bind_Ok in H as (preds & Hpred & H).
  injection H as <-.
  destruct (encode_transform_columns data enc p p'' Hf He)
    as (Hother & Hce & Hse & Hne).
  pose proof (encode_transform_rows data enc p p'' Hf He) as [_ Hrows].
  (* the feature names *)
  set (names := (base_feature_columns
                 ++ (if has_column "Season" data then ["Season_Encoded"]
                     else []))%list).
  assert (has_column "Season_Encoded" enc = has_column "Season" data) as Hne'.
  { rewrite Hne. unfold has_column.
    destruct (bool_decide ("Season" ∈ columns data)); [reflexivity |].
    cbn [orb]. now apply bool_decide_eq_false. }
  assert (forall c, c ∈ ["Area"; "Production"; "Annual_Rainfall";
                         "Fertilizer"; "Pesticide"] ->
                    has_column c enc = true) as Hnum.
  { intros c Hc. rewrite Hother.
    - apply bool_decide_eq_true. now apply Hcols.
    - unfold code_columns. intros Hcode.
      apply list_elem_of_In in Hc, Hcode. simpl in Hc, Hcode.
      destruct Hc as [<- | [<- | [<- | [<- | [<- | []]]]]];
        destruct Hcode as [? | [? | [? | []]]]; discriminate. }
  assert (avail = names /\ X = select_columns names enc) as [-> ->].
  { unfold prepare_features in Hprep.
    apply CropYieldSpec.bind_Ok in Hprep as (y' & _ & Hprep).
    injection Hprep as <- _ <-. subst names.
    destruct (has_column "Season" data); rewrite Hne';
      unfold base_feature_columns; cbn [app List.filter];
      rewrite ?Hne', Hce, Hse;
      rewrite !Hnum by (apply list_elem_of_In; simpl; tauto);
      split; reflexivity. }
  assert (List.NoDup names) as Hnd.
  { subst names. unfold base_feature_columns.
    destruct (has_column "Season" data); cbn [app];
      repeat (constructor; [simpl; intuition discriminate |]);
      constructor. }
  (* the model's answers *)
  unfold model_predict in Hpred. cbn [select_columns columns] in Hpred.
  destruct (bool_decide_reflect (names = feature_names_in_ m)) as [Hnames |];
    [| discriminate].
  apply CropYieldSpec.bind_Ok in Hpred as (xs & Hxs & Hpred).
  injection Hpred as <-.
  unfold feature_vectors in Hxs. cbn [select_columns columns rows] in Hxs.
  apply CropYieldSpec.mapR_Forall2 in Hxs.
  apply Forall2_fmap_l in Hxs.
  rewrite map_map.
  eapply Forall2_impl;
    [apply (set_column_rows_Forall2
              (fun r x => exists rq, request_of_row r = Some rq
                                     /\ predict self rq
                                        = Some (predict_fn m x))
              (fun x => Num (predict_fn m x)))
    | intros r r' (x & (rq & Hrq & Hpr) & ->);
      exists rq, (predict_fn m x); auto].
  assert (Forall (fun r => has_column "Season" data = true ->
                           cell_at "Season" r <> Str "") (rows data))
    as Hnonempty.
  { unfold has_column. destruct (bool_decide ("Season" ∈ columns data)).
    - destruct Hseason as [_ Hs]. eapply List.Forall_impl; [| exact Hs]. auto.
    - apply List.Forall_forall. discriminate. }
  apply (Forall2_with_Forall _ _ _ _ Hnonempty) in Hrows.
  eapply Forall2_trans; [| exact Hrows | exact Hxs].
  clear Hrows Hxs Hnonempty.
  intros r e x
         (Hne0 & Hkeep & (zc & Hzc & Bc) & (zs & Hzs & Bs) & Bn) Hx.
  cbn [compose] in Hx.
  rewrite (CropYieldServing.mapR_ext_in _ (fun c => number_of (cell_at c e))) in Hx.
  2:{ intros c Hc. rewrite cell_at_select; [reflexivity |].
      now apply list_elem_of_In. }
  destruct Bc as [Bc _]. destruct (Bc Hcrop) as (crop & Hcrop_r & Hzc').
  destruct Bs as [Bs _]. destruct (Bs Hstate) as (st & Hstate_r & Hzs').
  destruct (encode_single_prediction_of_codes p crop st zc zs Hzc' Hzs')
    as [Hany Hsome].
  assert (forall c, c ∈ ["Area"; "Production"; "Annual_Rainfall";
                         "Fertilizer"; "Pesticide"] ->
                    cell_at c e = cell_at c r) as Hsame.
  { intros c Hc. apply Hkeep. unfold code_columns. intros Hcode.
    apply list_elem_of_In in Hc, Hcode. simpl in Hc, Hcode.
    destruct Hc as [<- | [<- | [<- | [<- | [<- | []]]]]];
      destruct Hcode as [? | [? | [? | []]]]; discriminate. }
  subst names. unfold base_feature_columns in *.
  destruct (has_column "Season" data) eqn:Hsd; cbn [app] in Hx |- *.
  - apply mapR_cons_Ok in Hx as (q1 & x1 & H1 & Hx & ->).
    apply mapR_cons_Ok in Hx as (q2 & x2 & H2 & Hx & ->).
    apply mapR_cons_Ok in Hx as (q3 & x3 & H3 & Hx & ->).
    apply mapR_cons_Ok in Hx as (q4 & x4 & H4 & Hx & ->).
    apply mapR_cons_Ok in Hx as (q5 & x5 & H5 & Hx & ->).
    apply mapR_cons_Ok in Hx as (q6 & x6 & H6 & Hx & ->).
    apply mapR_cons_Ok in Hx as (q7 & x7 & H7 & Hx & ->).
    apply mapR_cons_Ok in Hx as (q8 & x8 & H8 & Hx & ->).
    injection Hx as <-.
    apply number_of_Ok in H1, H2, H3, H4, H5, H6, H7, H8.
    rewrite Hsame in H3, H4, H5, H6, H7
      by (apply list_elem_of_In; simpl; tauto).
    assert ("Season" ∈ columns data) as Hin.
    { unfold has_column in Hsd. now apply bool_decide_eq_true in Hsd. }
    destruct (Bn Hin) as (zn & Hzn & [Bn' _]).
    rewrite bool_decide_eq_true_2 in Hseason by exact Hin.
    destruct (Bn' (proj1 Hseason)) as (l & Hlr & Hzn').
    assert (l <> "") as Hl0.
    { intros ->. now apply (Hne0 eq_refl). }
    exists (mk_request crop st q3 q4 q5 q6 q7 (Some l)). split.
    + unfold request_of_row.
      now rewrite Hcrop_r, Hstate_r, H3, H4, H5, H6, H7, Hlr.
    + rewrite Hzc in H1. rewrite Hzs in H2. rewrite Hzn in H8.
      injection H1 as <-. injection H2 as <-. injection H8 as <-.
      rewrite (predict_of_codes self _ p m zc zs zn Hl Hp Hm Hn).
      * rewrite <- Hnames. reflexivity.
      * now rewrite <- Hnames.
      * now apply Hsome.
      * rewrite <- Hnames. reflexivity.
  - apply mapR_cons_Ok in Hx as (q1 & x1 & H1 & Hx & ->).
    apply mapR_cons_Ok in Hx as (q2 & x2 & H2 & Hx & ->).
    apply mapR_cons_Ok in Hx as (q3 & x3 & H3 & Hx & ->).
    apply mapR_cons_Ok in Hx as (q4 & x4 & H4 & Hx & ->).
    apply mapR_cons_Ok in Hx as (q5 & x5 & H5 & Hx & ->).
    apply mapR_cons_Ok in Hx as (q6 & x6 & H6 & Hx & ->).
    apply mapR_cons_Ok in Hx as (q7 & x7 & H7 & Hx & ->).
    injection Hx as <-.
    apply number_of_Ok in H1, H2, H3, H4, H5, H6, H7.
    rewrite Hsame in H3, H4, H5, H6, H7
      by (apply list_elem_of_In; simpl; tauto).
    set (rq := mk_request crop st q3 q4 q5 q6 q7
                 match cell_at "Season" r with
                 | Str l => Some l
                 | _ => None
                 end).
    exists rq. split.
    + unfold request_of_row.
      now rewrite Hcrop_r, Hstate_r, H3, H4, H5, H6, H7.
    + rewrite Hzc in H1. rewrite Hzs in H2.
      injection H1 as <-. injection H2 as <-.
      destruct (Hany (season rq)) as [n Henc].
      rewrite (predict_of_codes self rq p m zc zs n Hl Hp Hm Hn).
      * rewrite <- Hnames. reflexivity.
      * now rewrite <- Hnames.
      * exact Henc.
      * rewrite <- Hnames. reflexivity.
Qed.

End CropYieldBatch.

(** * Feature columns between training and serving *)
Module CropYieldFeatures.
Import CropYield.
Import LabelEncoder DataPreprocessor YieldPredictor.
Import CropYieldCodes CropYieldCleaning CropYieldServing CropYieldBatch.

(** Encoding adds code columns only. *)
Lemma encode_keeps_other_columns (df out : DataFrame)
    (p p' : DataPreprocessor.t) (c : string) :
  encode_categorical_features df p = (Ok out, p') ->
  c ∉ code_columns -> has_column c out = has_column c df.
Proof.
  intros H Hc.
  destruct (is_fitted p) eqn:Hf.
  - destruct (encode_transform_columns df out p p' Hf H) as [Hother _].
    now apply Hother.
  - unfold code_columns in Hc. rewrite !not_elem_of_cons in Hc.
    destruct Hc as (N1 & N2 & N3 & _).
    unfold encode_categorical_features in H. rewrite Hf in H. cbn [negb] in H.
    destruct (fit_column "Crop" "Crop_Encoded" (crop_encoder p) df)
      as [[df1 |] ce] eqn:H1; [| discriminate].
    destruct (fit_column "State" "State_Encoded" (state_encoder p) df1)
      as [[df2 |] se] eqn:H2; [| discriminate].
    pose proof (fit_column_has_column c _ _ _ _ _ _ N1 H1) as K1.
    pose proof (fit_column_has_column c _ _ _ _ _ _ N2 H2) as K2.
    destruct (has_column "Season" df2).
    + destruct (fit_column "Season" "Season_Encoded" (season_encoder p) df2)
        as [[df3 |] ne] eqn:H3; [| discriminate].
      pose proof (fit_column_has_column c _ _ _ _ _ _ N3 H3) as K3.
      injection H as <- _. congruence.
    + injection H as <- _. congruence.
Qed.

(** [predict_batch] reads the target column: for a table without a
    [Yield] column it returns [None], whatever the bundle. *)
Theorem batch_prediction_needs_yield_column (self : YieldPredictor.t)
    (data : DataFrame) :
  "Yield" ∉ columns data ->
  (predict_batch self (Ok data)).1 = None.
Proof.
  intros Hy. unfold predict_batch.
  destruct (is_loaded self); cbn [negb]; [| reflexivity].
  destruct (preprocessor self) as [| | p |]; try reflexivity.
  destruct (encode_categorical_features data p) as [encoded p'] eqn:He.
  cbn [fst]. destruct encoded as [enc | e]; [| reflexivity].
  assert (has_column "Yield" enc = false) as Hno.
  { rewrite (encode_keeps_other_columns data enc p p' "Yield" He).
    - unfold has_column. now apply bool_decide_eq_false.
    - apply (bool_decide_unpack _). vm_compute. exact I. }
  unfold mbind, result_bind. cbn [bind].
  unfold prepare_features, get_column. rewrite Hno. reflexivity.
Qed.

Lemma filter_length_lt {A} (f : A -> bool) (l : list A) (x : A) :
  In x l -> f x = false -> (length (List.filter f l) < length l)%nat.
Proof.
  induction l as [| a l IH]; intros Hin Hx; [destruct Hin |].
  simpl. destruct Hin as [-> | Hin].
  - rewrite Hx. pose proof (filter_length_le f l). lia.
  - specialize (IH Hin Hx). destruct (f a); simpl; lia.
Qed.

(** The feature names [prepare_features] hands to training. *)
Lemma prepare_features_names (df X : DataFrame) (y : list cell)
    (names : list string) :
  prepare_features df = Ok (X, y, names) ->
  names = (List.filter (fun col => has_column col df) base_feature_columns
           ++ (if has_column "Season_Encoded" df then ["Season_Encoded"]
               else []))%list.
Proof.
  assert (prepare_features df
          = (y ← get_column "Yield" df;
             Ok (select_columns
                   (List.filter (fun col => has_column col df)
                                base_feature_columns
                    ++ (if has_column "Season_Encoded" df
                        then ["Season_Encoded"] else []))%list df,
                 y,
                 (List.filter (fun col => has_column col df)
                              base_feature_columns
                  ++ (if has_column "Season_Encoded" df
                      then ["Season_Encoded"] else []))%list))) as ->.
  { unfold prepare_features. cbv zeta.
    destruct (has_column "Season_Encoded" df) eqn:Hs.
    - rewrite List.filter_app. cbn [List.filter]. rewrite Hs. reflexivity.
    - rewrite app_nil_r. reflexivity. }
  intros H. apply CropYieldSpec.bind_Ok in H as (y' & _ & H).
  now injection H as _ _ <-.
Qed.

Lemma short_feature_names_never_served (df X : DataFrame)
    (y : list cell) (names : list string) (c : string)
    (self : YieldPredictor.t) (rq : request) :
  prepare_features df = Ok (X, y, names) ->
  c ∈ base_feature_columns -> c ∉ columns df ->
  feature_names self = PyList names ->
  predict self rq = None.
Proof.
  intros Hprep Hc Hmiss Hn.
  apply prepare_features_names in Hprep.
  destruct (predict self rq) as [v |] eqn:Hpred; [| reflexivity].
  exfalso. apply predict_returns_inv in Hpred
    as (p & m & names' & zc & zs & zn & _ & _ & _ & Hn' & _ & Hlen & _).
  rewrite Hn in Hn'. injection Hn' as <-.
  assert (length (List.filter (fun col => has_column col df)
                              base_feature_columns) < 7)%nat as Hlt.
  { apply (filter_length_lt _ base_feature_columns c).
    - now apply list_elem_of_In.
    - unfold has_column. now apply bool_decide_eq_false. }
  assert ("Season_Encoded" ∉ List.filter (fun col => has_column col df)
                                         base_feature_columns) as Hnot.
  { intros Hin. apply list_elem_of_In, filter_In in Hin as [Hin _].
    simpl in Hin. intuition discriminate. }
  subst names. rewrite length_app in Hlen.
  destruct (has_column "Season_Encoded" df).
  - rewrite bool_decide_eq_true_2 in Hlen.
    + change (length ["Season_Encoded"]) with 1%nat in Hlen. lia.
    + apply elem_of_app. right. now apply list_elem_of_singleton.
  - rewrite app_nil_r in Hlen. rewrite bool_decide_eq_false_2 in Hlen.
    + change (length (@nil string)) with 0%nat in Hlen. lia.
    + exact Hnot.
Qed.

(** Training accepts a table that lacks one of the seven base feature
    columns, but a bundle carrying the feature names [prepare_features]
    then returns can never answer [predict]: the request always supplies
    more values than there are names. *)
Theorem missing_feature_column_never_served (df X : DataFrame)
    (y : list cell) (names : list string) (c : string)
    (self : YieldPredictor.t) (rq : request) :
  prepare_features df = Ok (X, y, names) ->
  c ∈ base_feature_columns -> c ∉ columns df ->
  feature_names self = PyList names ->
  predict self rq = None.
Proof.
  exact (short_feature_names_never_served df X y names c self rq).
Qed.

End CropYieldFeatures.

(** * The training pipeline (preprocess_data, ModelTrainer.load_data) *)
Module CropYieldPipeline.
Import CropYield.
Import LabelEncoder DataPreprocessor YieldPredictor Pipeline.
Import CropYieldCodes CropYieldCleaning CropYieldServing CropYieldBatch.
Import CropYieldFeatures.

Section PipelineFacts.

Variable train_test_split : DataFrame -> list cell -> result splits.

(** A successful [load_data] of the trainer went through every stage. *)
Lemma trainer_load_data_inv (self self' : ModelTrainer.t) (d : DataFrame)
    (parts : option splits) :
  trainer_load_data train_test_split self (Ok d) = (true, self', parts) ->
  exists p cleaned encoded p' X y names sp,
    ModelTrainer.preprocessor self = PyPreprocessor p
    /\ explore_data (loaded p d) = Ok ()
    /\ clean_table d = Ok cleaned
    /\ encode_categorical_features cleaned (cleaned_with p d cleaned)
       = (Ok encoded, p')
    /\ prepare_features encoded = Ok (X, y, names)
    /\ train_test_split X y = Ok sp
    /\ self' = ModelTrainer.mk (PyPreprocessor p') (ModelTrainer.model self)
                               (PyList names)
    /\ parts = Some sp.
Proof.
  unfold trainer_load_data.
  destruct (ModelTrainer.preprocessor self) as [| | p |] eqn:Hp;
    try discriminate.
  unfold preprocess_data, load_data. fold (loaded p d).
  destruct (explore_data (loaded p d)) as [[] | e] eqn:Hex; [| discriminate].
  unfold clean_data. cbn [data loaded].
  destruct (clean_table d) as [cleaned | e] eqn:Hclean; [| discriminate].
  cbn [crop_encoder state_encoder season_encoder is_fitted loaded].
  fold (cleaned_with p d cleaned).
  destruct (encode_categorical_features cleaned (cleaned_with p d cleaned))
    as [[encoded | e] p'] eqn:Henc; [| discriminate].
  destruct (prepare_features encoded) as [[[X y] names] | e] eqn:Hprep;
    [| discriminate].
  unfold mbind, result_bind. cbn [bind].
  destruct (train_test_split X y) as [sp | e] eqn:Hsplit; [| discriminate].
  cbn [bind]. intros [= <- <-].
  exists p, cleaned, encoded, p', X, y, names, sp. auto 10.
Qed.


Lemma explore_data_columns (p : DataPreprocessor.t) (d : DataFrame)
    (c : string) :
  explore_data (loaded p d) = Ok () ->
  c ∈ ["Crop"; "State"; "Season"] -> c ∈ columns d.
Proof.
  unfold explore_data, get_column, has_column. cbn [data loaded].
  destruct (columns d) as [| c0 cols] eqn:Hcols; [discriminate |].
  rewrite <- Hcols. clear Hcols.
  destruct (bool_decide_reflect ("Crop" ∈ columns d)) as [H1 |];
    [| discriminate].
  destruct (bool_decide_reflect ("State" ∈ columns d)) as [H2 |];
    [| discriminate].
  destruct (bool_decide_reflect ("Season" ∈ columns d)) as [H3 |];
    [| discriminate].
  intros _ Hc. apply list_elem_of_In in Hc. simpl in Hc.
  destruct Hc as [<- | [<- | [<- | []]]]; assumption.
Qed.

(** Training needs the three label columns: [explore_data] reads [Crop],
    [State] and [Season], so [load_data] of the trainer fails on a table
    that lacks one of them (a [Season] column included), and the model and
    the feature names stay as they were. *)
Theorem training_needs_label_columns (self : ModelTrainer.t) (d : DataFrame)
    (c : string) :
  c ∈ ["Crop"; "State"; "Season"] -> c ∉ columns d ->
  (trainer_load_data train_test_split self (Ok d)).1.1 = false
  /\ ModelTrainer.model (trainer_load_data train_test_split self (Ok d)).1.2
     = ModelTrainer.model self
  /\ ModelTrainer.feature_names
       (trainer_load_data train_test_split self (Ok d)).1.2
     = ModelTrainer.feature_names self.
Proof.
  intros Hc Hmiss. unfold trainer_load_data.
  destruct (ModelTrainer.preprocessor self) as [| | p |]; try (now repeat split).
  unfold preprocess_data, load_data. fold (loaded p d).
  destruct (explore_data (loaded p d)) as [[] | e] eqn:Hex;
    [| now repeat split].
  exfalso. apply Hmiss. now apply (explore_data_columns p d c Hex).
Qed.


Lemma fit_column_dst (src dst : string) (enc enc' : LabelEncoder.t)
    (df df' : DataFrame) :
  fit_column src dst enc df = (Ok df', enc') -> has_column dst df' = true.
Proof.
  unfold fit_column. destruct (get_column src df); [| discriminate].
  destruct (fit_transform _ enc) as [[codes |] e1]; [| discriminate].
  intros [= <- _]. unfold set_column, has_column at 1. cbn [columns].
  destruct (has_column dst df) eqn:Hd; [exact Hd |].
  apply bool_decide_eq_true. apply elem_of_app. right.
  now apply list_elem_of_singleton.
Qed.

(** What encoding leaves behind, in either mode: the code columns are
    there, the encoders count as fitted, the tables held are untouched. *)
Lemma encode_code_columns (df out : DataFrame) (p p' : DataPreprocessor.t) :
  encode_categorical_features df p = (Ok out, p') ->
  has_column "Crop_Encoded" out = true
  /\ has_column "State_Encoded" out = true
  /\ (has_column "Season" df = true -> has_column "Season_Encoded" out = true)
  /\ is_fitted p' = true
  /\ data p' = data p /\ cleaned_data p' = cleaned_data p.
Proof.
  intros H. destruct (is_fitted p) eqn:Hf.
  - destruct (encode_transform_columns df out p p' Hf H)
      as (_ & Hce & Hse & Hne).
    unfold encode_categorical_features in H. rewrite Hf in H.
    injection H as _ <-.
    split; [exact Hce |]. split; [exact Hse |].
    split; [intros Hs; now rewrite Hne, Hs |]. auto.
  - unfold encode_categorical_features in H. rewrite Hf in H. cbn [negb] in H.
    destruct (fit_column "Crop" "Crop_Encoded" (crop_encoder p) df)
      as [[df1 |] ce] eqn:H1; [| discriminate].
    destruct (fit_column "State" "State_Encoded" (state_encoder p) df1)
      as [[df2 |] se] eqn:H2; [| discriminate].
    assert ("Crop_Encoded" <> "State_Encoded") as N12 by discriminate.
    assert ("Crop_Encoded" <> "Season_Encoded") as N13 by discriminate.
    assert ("State_Encoded" <> "Season_Encoded") as N23 by discriminate.
    assert ("Season" <> "Crop_Encoded") as N01 by discriminate.
    assert ("Season" <> "State_Encoded") as N02 by discriminate.
    pose proof (fit_column_dst _ _ _ _ _ _ H1) as D1.
    pose proof (fit_column_dst _ _ _ _ _ _ H2) as D2.
    pose proof (fit_column_has_column _ _ _ _ _ _ _ N12 H2) as K12.
    pose proof (fit_column_has_column _ _ _ _ _ _ _ N01 H1) as S1.
    pose proof (fit_column_has_column _ _ _ _ _ _ _ N02 H2) as S2.
    destruct (has_column "Season" df2) eqn:Hs2.
    + destruct (fit_column "Season" "Season_Encoded" (season_encoder p) df2)
        as [[df3 |] ne] eqn:H3; [| discriminate].
      pose proof (fit_column_dst _ _ _ _ _ _ H3) as D3.
      pose proof (fit_column_has_column _ _ _ _ _ _ _ N13 H3) as K13.
      pose proof (fit_column_has_column _ _ _ _ _ _ _ N23 H3) as K23.
      injection H as <- <-. cbn.
      split; [congruence |]. split; [congruence |]. auto.
    + injection H as <- <-. cbn.
      split; [congruence |]. split; [congruence |].
      split; [intros Hs; congruence |]. auto.
Qed.

Lemma clean_table_critical (d cleaned : DataFrame) (c : string) :
  clean_table d = Ok cleaned -> c ∈ critical_columns -> c ∈ columns d.
Proof.
  unfold clean_table. intros H Hc.
  apply CropYieldSpec.bind_Ok in H as (d1 & H1 & _).
  exact (dropna_columns _ _ _ _ H1 Hc).
Qed.

(** What a successful [load_data] leaves in the trainer: a fitted
    preprocessor holding the raw and the cleaned table, and duplicate-free
    feature names drawn from the eight feature columns, among them always
    the two label codes, [Area], [Production] and [Season_Encoded]; the
    model is untouched. *)
Theorem trained_bundle_shape (self self' : ModelTrainer.t) (d : DataFrame)
    (parts : option splits) :
  trainer_load_data train_test_split self (Ok d) = (true, self', parts) ->
  exists names p' cleaned,
    ModelTrainer.feature_names self' = PyList names
    /\ ModelTrainer.preprocessor self' = PyPreprocessor p'
    /\ ModelTrainer.model self' = ModelTrainer.model self
    /\ is_fitted p' = true
    /\ clean_table d = Ok cleaned
    /\ data p' = Some d /\ cleaned_data p' = Some cleaned
    /\ (forall c, c ∈ ["Crop_Encoded"; "State_Encoded"; "Area"; "Production";
                       "Season_Encoded"] -> c ∈ names)
    /\ (forall c, c ∈ names ->
                  c ∈ (base_feature_columns ++ ["Season_Encoded"])%list)
    /\ List.NoDup names.
Proof.
  intros H. apply trainer_load_data_inv in H
    as (p & cleaned & encoded & p' & X & y & names & sp
        & Hp & Hex & Hclean & Henc & Hprep & _ & -> & _).
  exists names, p', cleaned. cbn.
  destruct (encode_code_columns _ _ _ _ Henc)
    as (Hce & Hse & Hne & Hfit & Hdata & Hcleaned).
  pose proof (clean_table_stems d cleaned Hclean) as [Hcols _].
  assert (has_column "Season" cleaned = true) as Hseason.
  { unfold has_column. apply bool_decide_eq_true. rewrite Hcols.
    apply (explore_data_columns p d "Season" Hex).
    apply list_elem_of_In. simpl. tauto. }
  specialize (Hne Hseason).
  assert (forall c, c ∈ ["Area"; "Production"] -> has_column c encoded = true)
    as Hnum.
  { intros c Hc. rewrite (encode_keeps_other_columns _ _ _ _ c Henc).
    - unfold has_column. apply bool_decide_eq_true. rewrite Hcols.
      apply (clean_table_critical d cleaned c Hclean).
      apply list_elem_of_In in Hc. apply list_elem_of_In. simpl in *. tauto.
    - intros Hcode. apply list_elem_of_In in Hc, Hcode. simpl in Hc, Hcode.
      destruct Hc as [<- | [<- | []]];
        destruct Hcode as [? | [? | [? | []]]]; discriminate. }
  apply prepare_features_names in Hprep. rewrite Hne in Hprep.
  repeat (split; [reflexivity || assumption |]).
  split; [| split].
  - intros c Hc. subst names. apply elem_of_app.
    apply list_elem_of_In in Hc. simpl in Hc.
    destruct Hc as [<- | [<- | [<- | [<- | [<- | []]]]]];
      try (right; now apply list_elem_of_singleton);
      left; apply list_elem_of_In, filter_In;
      (split; [simpl; tauto |]); try assumption;
      apply Hnum; apply list_elem_of_In; simpl; tauto.
  - intros c Hc. subst names. apply list_elem_of_In.
    apply elem_of_app in Hc as [Hc | Hc].
    + apply list_elem_of_In, filter_In in Hc as [Hc _].
      unfold base_feature_columns in Hc. simpl in Hc |- *. tauto.
    + apply list_elem_of_In in Hc. simpl in Hc |- *. tauto.
  - subst names. apply NoDup_ListNoDup, NoDup_app. split; [| split].
    + apply NoDup_ListNoDup, List.NoDup_filter. unfold base_feature_columns.
      repeat (constructor; [simpl; intuition discriminate |]). constructor.
    + intros c Hc Hne'. apply list_elem_of_In, filter_In in Hc as [Hc _].
      apply list_elem_of_In in Hne'. unfold base_feature_columns in Hc.
      simpl in Hc, Hne'. intuition (subst; discriminate).
    + apply NoDup_ListNoDup. repeat constructor. simpl. tauto.
Qed.

(** Training succeeds on a table without [Annual_Rainfall], [Fertilizer]
    or [Pesticide], but no predictor carrying the resulting feature names
    ever answers [predict]. *)
Theorem trained_without_optional_column_never_serves
    (self self' : ModelTrainer.t) (d : DataFrame) (parts : option splits)
    (c : string) (served : YieldPredictor.t) (rq : request) :
  trainer_load_data train_test_split self (Ok d) = (true, self', parts) ->
  c ∈ ["Annual_Rainfall"; "Fertilizer"; "Pesticide"] ->
  c ∉ columns d ->
  YieldPredictor.feature_names served = ModelTrainer.feature_names self' ->
  predict served rq = None.
Proof.
  intros H Hc Hmiss Hserved. apply trainer_load_data_inv in H
    as (p & cleaned & encoded & p' & X & y & names & sp
        & Hp & Hex & Hclean & Henc & Hprep & _ & -> & _).
  cbn in Hserved.
  pose proof (clean_table_stems d cleaned Hclean) as [Hcols _].
  apply (short_feature_names_never_served encoded X y names c served rq
           Hprep).
  - apply list_elem_of_In in Hc. apply list_elem_of_In. simpl in *. tauto.
  - intros Hin.
    assert (has_column c encoded = true) as Hhas.
    { unfold has_column. now apply bool_decide_eq_true. }
    rewrite (encode_keeps_other_columns _ _ _ _ c Henc) in Hhas.
    + unfold has_column in Hhas. apply bool_decide_eq_true in Hhas.
      rewrite Hcols in Hhas. contradiction.
    + intros Hcode. apply list_elem_of_In in Hc, Hcode. simpl in Hc, Hcode.
      destruct Hc as [<- | [<- | [<- | []]]];
        destruct Hcode as [? | [? | [? | []]]]; discriminate.
  - exact Hserved.
Qed.


Lemma fit_column_fit (src dst : string) (enc enc' : LabelEncoder.t)
    (df df' : DataFrame) :
  fit_column src dst enc df = (Ok df', enc') ->
  fit (map (cell_at src) (rows df)) enc = Ok enc'.
Proof.
  unfold fit_column, get_column, fit_transform.
  destruct (has_column src df); [| discriminate].
  destruct (fit (map (cell_at src) (rows df)) enc) as [e1 |];
    [| discriminate].
  destruct (transform e1 _); [| discriminate].
  now intros [= _ <-].
Qed.

Lemma same_cells_same_column (c : string) (l k : list (gmap string cell)) :
  Forall2 (fun r r' => cell_at c r' = cell_at c r) l k ->
  map (cell_at c) k = map (cell_at c) l.
Proof. induction 1; simpl; congruence. Qed.

Lemma label_in_column (c l : string) (rs : list (gmap string cell)) :
  Str l ∈ map (cell_at c) rs <-> exists r, r ∈ rs /\ cell_at c r = Str l.
Proof.
  rewrite list_elem_of_fmap. split.
  - intros (r & Hr & Hin). now exists r.
  - intros (r & Hin & Hr). now exists r.
Qed.

(** The encoders fitted by [encode_categorical_features]. *)
Lemma fitted_on_columns (df out : DataFrame) (p p' : DataPreprocessor.t) :
  is_fitted p = false ->
  encode_categorical_features df p = (Ok out, p') ->
  fit (map (cell_at "Crop") (rows df)) (crop_encoder p)
  = Ok (crop_encoder p')
  /\ fit (map (cell_at "State") (rows df)) (state_encoder p)
     = Ok (state_encoder p').
Proof.
  intros Hf H. unfold encode_categorical_features in H. rewrite Hf in H.
  cbn [negb] in H.
  destruct (fit_column "Crop" "Crop_Encoded" (crop_encoder p) df)
    as [[df1 |] ce] eqn:H1; [| discriminate].
  destruct (fit_column "State" "State_Encoded" (state_encoder p) df1)
    as [[df2 |] se] eqn:H2; [| discriminate].
  pose proof (fit_column_fit _ _ _ _ _ _ H1) as F1.
  pose proof (fit_column_fit _ _ _ _ _ _ H2) as F2.
  assert (map (cell_at "State") (rows df1) = map (cell_at "State") (rows df))
    as Hsame.
  { apply same_cells_same_column.
    apply (column_after_step "Crop_Encoded" df df1 _ (fit_column_rows _ _ _ _ _ _ H1)).
    - intros r r' (l & z & _ & _ & ->). eauto.
    - discriminate. }
  rewrite Hsame in F2.
  destruct (has_column "Season" df2).
  - destruct (fit_column "Season" "Season_Encoded" (season_encoder p) df2)
      as [[df3 |] ne]; [| discriminate].
    injection H as _ <-. now split.
  - injection H as _ <-. now split.
Qed.

(** The crops and states a fresh trainer's encoders know after
    [load_data] are exactly those of the cleaned table: a label whose every
    record was dropped by cleaning is unseen when serving. *)
Theorem served_labels_are_cleaned_labels (self self' : ModelTrainer.t)
    (d : DataFrame) (parts : option splits) (p : DataPreprocessor.t) :
  ModelTrainer.preprocessor self = PyPreprocessor p ->
  is_fitted p = false ->
  trainer_load_data train_test_split self (Ok d) = (true, self', parts) ->
  exists p' cleaned,
    ModelTrainer.preprocessor self' = PyPreprocessor p'
    /\ clean_table d = Ok cleaned
    /\ (forall l, unseen l (crop_encoder p')
                  <-> ~ exists r, r ∈ rows cleaned /\ cell_at "Crop" r = Str l)
    /\ (forall l, unseen l (state_encoder p')
                  <-> ~ exists r, r ∈ rows cleaned
                                  /\ cell_at "State" r = Str l).
Proof.
  intros Hp Hf H. apply trainer_load_data_inv in H
    as (p0 & cleaned & encoded & p' & X & y & names & sp
        & Hp0 & _ & Hclean & Henc & _ & _ & -> & _).
  rewrite Hp in Hp0. injection Hp0 as <-.
  exists p', cleaned. split; [reflexivity |]. split; [exact Hclean |].
  destruct (fitted_on_columns cleaned encoded (cleaned_with p d cleaned) p'
              Hf Henc) as [Fc Fs].
  split; intros l; rewrite <- label_in_column.
  - exact (CropYieldSpec.unseen_after_fit _ _ _ l Fc).
  - exact (CropYieldSpec.unseen_after_fit _ _ _ l Fs).
Qed.

End PipelineFacts.

End CropYieldPipeline.

(** * The theorems above at sample data *)
Module CropYieldExamples.
Import CropYield.
Import LabelEncoder DataPreprocessor YieldPredictor.

Lemma failed_load_predicts_nothing_witness :
  predict (load_model YieldPredictor.new Samples.model_path ∅).2
          Samples.wheat_request = None
  /\ predict_with_confidence
       (load_model YieldPredictor.new Samples.model_path ∅).2
       Samples.wheat_request = None
  /\ (predict_batch (load_model YieldPredictor.new Samples.model_path ∅).2
                    (Ok Samples.batch_table)).1 = None.
Proof.
  apply (CropYieldPersistence.failed_load_predicts_nothing
           YieldPredictor.new Samples.model_path ∅ Samples.wheat_request
           (Ok Samples.batch_table)); reflexivity.
Defined.

Lemma cleaning_keeps_recorded_values_witness :
  columns Samples.survey_cleaned = columns Samples.survey_table
  /\ exists kept, sublist kept (rows Samples.survey_table)
                  /\ Forall2 cleaned_from kept (rows Samples.survey_cleaned).
Proof.
  apply (CropYieldCleaning.cleaning_keeps_recorded_values
           Samples.survey_table Samples.survey_cleaned).
  vm_compute. reflexivity.
Defined.

Lemma cleaned_records_are_complete_witness :
  Forall (complete_record (columns Samples.survey_table))
         (rows Samples.survey_cleaned).
Proof.
  apply (CropYieldCleaning.cleaned_records_are_complete
           Samples.survey_table Samples.survey_cleaned).
  vm_compute. reflexivity.
Defined.

Lemma seen_labels_get_distinct_codes_witness :
  (~ unseen "Rice" (crop_encoder Samples.fitted_preprocessor) ->
   ~ unseen "Wheat" (crop_encoder Samples.fitted_preprocessor) ->
   0 = 1 -> "Rice" = "Wheat")
  /\ (~ unseen "Assam" (state_encoder Samples.fitted_preprocessor) ->
      ~ unseen "Assam" (state_encoder Samples.fitted_preprocessor) ->
      0 = 0 -> "Assam" = "Assam").
Proof.
  apply (CropYieldCodes.seen_labels_get_distinct_codes
           Samples.fitted_preprocessor "Rice" "Wheat" "Assam" "Assam"
           None None 0 1 0 0 0 0); vm_compute; reflexivity.
Defined.

Lemma training_codes_are_serving_codes_witness :
  is_fitted Samples.fitted_preprocessor = true
  /\ Forall2
       (fun r r' =>
          (forall c, c ∉ code_columns -> cell_at c r' = cell_at c r)
          /\ exists crop state c s,
               cell_at "Crop" r = Str crop /\ cell_at "State" r = Str state
               /\ cell_at "Crop_Encoded" r' = Num (inject_Z c)
               /\ cell_at "State_Encoded" r' = Num (inject_Z s)
               /\ (forall season, exists n,
                      encode_single_prediction Samples.fitted_preprocessor
                        crop state season = Ok (c, s, n))
               /\ ("Season" ∈ columns Samples.training_table ->
                   exists l n,
                     cell_at "Season" r = Str l
                     /\ cell_at "Season_Encoded" r' = Num (inject_Z n)
                     /\ (l <> "" ->
                         encode_single_prediction Samples.fitted_preprocessor
                           crop state (Some l) = Ok (c, s, n))))
       (rows Samples.training_table) (rows training_encoded).
Proof.
  apply (CropYieldCodes.training_codes_are_serving_codes
           Samples.training_table training_encoded DataPreprocessor.new
           Samples.fitted_preprocessor).
  - reflexivity.
  - vm_compute. reflexivity.
Defined.

Lemma batch_codes_all_or_nothing_witness :
  Samples.fitted_preprocessor = Samples.fitted_preprocessor
  /\ Forall2
       (fun r r' =>
          (forall c, c ∉ code_columns -> cell_at c r' = cell_at c r)
          /\ (exists z, cell_at "Crop_Encoded" r' = Num (inject_Z z)
                        /\ batch_code "Crop"
                             (crop_encoder Samples.fitted_preprocessor)
                             Samples.batch_table r z)
          /\ (exists z, cell_at "State_Encoded" r' = Num (inject_Z z)
                        /\ batch_code "State"
                             (state_encoder Samples.fitted_preprocessor)
                             Samples.batch_table r z)
          /\ ("Season" ∈ columns Samples.batch_table ->
              exists z, cell_at "Season_Encoded" r' = Num (inject_Z z)
                        /\ batch_code "Season"
                             (season_encoder Samples.fitted_preprocessor)
                             Samples.batch_table r z))
       (rows Samples.batch_table) (rows batch_encoded).
Proof.
  apply (CropYieldCodes.batch_codes_all_or_nothing
           Samples.batch_table batch_encoded Samples.fitted_preprocessor
           Samples.fitted_preprocessor).
  - vm_compute. reflexivity.
  - vm_compute. reflexivity.
Defined.

Lemma training_table_known :
  known_batch Samples.fitted_preprocessor Samples.training_table.
Proof.
  assert (classes_ (crop_encoder Samples.fitted_preprocessor)
          = Some ["Rice"; "Wheat"]) as Hc by (vm_compute; reflexivity).
  assert (classes_ (state_encoder Samples.fitted_preprocessor)
          = Some ["Assam"]) as Hs by (vm_compute; reflexivity).
  split; [| split; [| split]].
  - intros c Hin. apply list_elem_of_In in Hin. apply list_elem_of_In.
    simpl in *. tauto.
  - unfold all_seen, unseen. rewrite Hc. repeat constructor.
    + exists "Rice". split; [reflexivity |]. intros H. apply H.
      apply list_elem_of_In. simpl. tauto.
    + exists "Wheat". split; [reflexivity |]. intros H. apply H.
      apply list_elem_of_In. simpl. tauto.
  - unfold all_seen, unseen. rewrite Hs. repeat constructor;
      (exists "Assam"; split; [reflexivity |]; intros H; apply H;
       apply list_elem_of_In; simpl; tauto).
  - apply (bool_decide_unpack _). vm_compute. exact I.
Defined.

Lemma batch_agrees_with_single_witness :
  Forall2 (fun r r' =>
             exists rq y, request_of_row r = Some rq
                          /\ predict Samples.crop_code_predictor rq = Some y
                          /\ r' = <["Predicted_Yield" := Num y]> r)
          (rows Samples.training_table) (rows training_predicted).
Proof.
  apply (CropYieldBatch.batch_agrees_with_single
           Samples.crop_code_predictor Samples.crop_code_predictor
           Samples.fitted_preprocessor Samples.crop_code_model
           Samples.training_table training_predicted).
  - reflexivity.
  - reflexivity.
  - reflexivity.
  - reflexivity.
  - reflexivity.
  - exact training_table_known.
  - vm_compute. reflexivity.
Defined.

Lemma batch_prediction_needs_yield_column_witness :
  (predict_batch Samples.crop_code_predictor (Ok unlabelled_batch)).1 = None.
Proof.
  apply (CropYieldFeatures.batch_prediction_needs_yield_column
           Samples.crop_code_predictor unlabelled_batch).
  apply (bool_decide_unpack _). vm_compute. exact I.
Defined.

Lemma missing_feature_column_never_served_witness :
  predict (YieldPredictor.mk (PyModel Samples.crop_code_model)
                             (PyPreprocessor Samples.fitted_preprocessor)
                             (PyList six_features.2) true)
          Samples.wheat_request = None.
Proof.
  apply (CropYieldFeatures.missing_feature_column_never_served
           (select_columns ["Crop_Encoded"; "State_Encoded"; "Area";
                            "Production"; "Annual_Rainfall"; "Pesticide";
                            "Yield"] training_encoded)
           six_features.1.1 six_features.1.2 six_features.2 "Fertilizer").
  - vm_compute. reflexivity.
  - apply (bool_decide_unpack _). vm_compute. exact I.
  - apply (bool_decide_unpack _). vm_compute. exact I.
  - reflexivity.
Defined.

Lemma training_needs_label_columns_witness :
  (Pipeline.trainer_load_data keep_all ModelTrainer.new
     (Ok Samples.training_table)).1.1 = false
  /\ ModelTrainer.model
       (Pipeline.trainer_load_data keep_all ModelTrainer.new
          (Ok Samples.training_table)).1.2
     = ModelTrainer.model ModelTrainer.new
  /\ ModelTrainer.feature_names
       (Pipeline.trainer_load_data keep_all ModelTrainer.new
          (Ok Samples.training_table)).1.2
     = ModelTrainer.feature_names ModelTrainer.new.
Proof.
  apply (CropYieldPipeline.training_needs_label_columns
           keep_all ModelTrainer.new Samples.training_table "Season").
  - apply (bool_decide_unpack _). vm_compute. exact I.
  - apply (bool_decide_unpack _). vm_compute. exact I.
Defined.

Lemma trained_bundle_shape_witness :
  exists names p' cleaned,
    ModelTrainer.feature_names season_trained.1.2 = PyList names
    /\ ModelTrainer.preprocessor season_trained.1.2 = PyPreprocessor p'
    /\ ModelTrainer.model season_trained.1.2
       = ModelTrainer.model ModelTrainer.new
    /\ is_fitted p' = true
    /\ clean_table season_survey = Ok cleaned
    /\ data p' = Some season_survey /\ cleaned_data p' = Some cleaned
    /\ (forall c, c ∈ ["Crop_Encoded"; "State_Encoded"; "Area"; "Production";
                       "Season_Encoded"] -> c ∈ names)
    /\ (forall c, c ∈ names ->
                  c ∈ (base_feature_columns ++ ["Season_Encoded"])%list)
    /\ List.NoDup names.
Proof.
  apply (CropYieldPipeline.trained_bundle_shape
           keep_all ModelTrainer.new season_trained.1.2 season_survey
           season_trained.2).
  vm_compute. reflexivity.
Defined.

Lemma trained_without_optional_column_never_serves_witness :
  predict (YieldPredictor.mk
             (PyModel Samples.crop_code_model)
             (ModelTrainer.preprocessor unfertilized_trained.1.2)
             (ModelTrainer.feature_names unfertilized_trained.1.2) true)
          Samples.wheat_request = None.
Proof.
  apply (CropYieldPipeline.trained_without_optional_column_never_serves
           keep_all ModelTrainer.new unfertilized_trained.1.2
           unfertilized_survey unfertilized_trained.2 "Fertilizer").
  - vm_compute. reflexivity.
  - apply (bool_decide_unpack _). vm_compute. exact I.
  - apply (bool_decide_unpack _). vm_compute. exact I.
  - reflexivity.
Defined.

Lemma served_labels_are_cleaned_labels_witness :
  exists p' cleaned,
    ModelTrainer.preprocessor season_trained.1.2 = PyPreprocessor p'
    /\ clean_table season_survey = Ok cleaned
    /\ (forall l, unseen l (crop_encoder p')
                  <-> ~ exists r, r ∈ rows cleaned /\ cell_at "Crop" r = Str l)
    /\ (forall l, unseen l (state_encoder p')
                  <-> ~ exists r, r ∈ rows cleaned
                                  /\ cell_at "State" r = Str l).
Proof.
  apply (CropYieldPipeline.served_labels_are_cleaned_labels
           keep_all ModelTrainer.new season_trained.1.2 season_survey
           season_trained.2 DataPreprocessor.new).
  - reflexivity.
  - reflexivity.
  - vm_compute. reflexivity.
Defined.

End CropYieldExamples.
